(** * GLM proxy: request signing, stream demultiplexing, tool-call synthesis

    A shallow embedding of the protocol translation layer of the proxy
    ([glm_cli/signature_helper.py], [glm_cli/api_client.py],
    [glm_proxy/server.py]) and the properties established about it.

    Conventions of the embedding.

    - A Python [str] is a Rocq [string] holding the UTF-8 encoding of the text,
      so [str.encode("utf-8")] is [list_byte_of_string].  Operations that
      depend on the Unicode database ([str.lower], [str.strip], the regex
      classes [\w] and [\s]) are exact on ASCII text; a byte above 0x7F is
      caseless, is not white space and is not a word character.  [len] counts
      code points ([py_len]); indices returned by [find] are byte offsets and
      are only ever used to slice the string they were computed on.  A lone
      surrogate, which only a JSON escape can produce, takes the three-byte
      form; that [encode] raises on it is not tracked.
    - A Python [int] is a [Z].
    - A [dict] is an association list in insertion order with unique keys.
    - A call that may raise returns an [option] or a [result]. *)

From Stdlib Require Import ZArith List String Ascii Bool Lia.
From Stdlib Require Import DecimalString DecimalZ Sorting.Permutation Sorting.Sorted.
From Stdlib Require Strings.Byte.
Import ListNotations.

Local Open Scope list_scope.
Local Open Scope string_scope.

(** ** Python string primitives *)

Module PyStr.

Definition code (c : ascii) : nat := nat_of_ascii c.

Definition dquote : ascii := "034"%char.
Definition squote : ascii := "039"%char.
Definition newline : ascii := "010"%char.

Definition in_range (lo hi : nat) (c : ascii) : bool :=
  Nat.leb lo (code c) && Nat.leb (code c) hi.

Definition is_digit (c : ascii) : bool := in_range 48 57 c.
Definition is_upper (c : ascii) : bool := in_range 65 90 c.
Definition is_lower (c : ascii) : bool := in_range 97 122 c.
Definition is_alnum (c : ascii) : bool := is_digit c || is_upper c || is_lower c.

(** [str.isspace] on ASCII: TAB, LF, VT, FF, CR, FS, GS, RS, US, SPACE. *)
Definition isspace (c : ascii) : bool := in_range 9 13 c || in_range 28 32 c.

(** Membership of a character in a set written as a string. *)
Fixpoint char_in (c : ascii) (set : string) : bool :=
  match set with
  | EmptyString => false
  | String d rest => Ascii.eqb c d || char_in c rest
  end.

Fixpoint join (sep : string) (parts : list string) : string :=
  match parts with
  | [] => EmptyString
  | [p] => p
  | p :: rest => p ++ sep ++ join sep rest
  end.

(** [str(n)] for an [int]. *)
Definition str_of_int (n : Z) : string := NilZero.string_of_int (Z.to_int n).

Definition encode_utf8 (s : string) : list Byte.byte := list_byte_of_string s.

(** [len(s)]: the number of code points, that is of bytes that are not
    UTF-8 continuation bytes. *)
Fixpoint py_len (s : string) : nat :=
  match s with
  | EmptyString => 0
  | String c rest => (if in_range 128 191 c then 0 else 1) + py_len rest
  end.

(** [p] is a prefix of [s]. *)
Fixpoint is_prefix (p s : string) : bool :=
  match p, s with
  | EmptyString, _ => true
  | String a p', String b s' => Ascii.eqb a b && is_prefix p' s'
  | String _ _, EmptyString => false
  end.

Definition startswith (s p : string) : bool := is_prefix p s.

(** [s[n:]] *)
Fixpoint drop (n : nat) (s : string) : string :=
  match n, s with
  | O, _ => s
  | S n', String _ rest => drop n' rest
  | S _, EmptyString => EmptyString
  end.

(** [s[:n]] *)
Fixpoint take (n : nat) (s : string) : string :=
  match n, s with
  | O, _ => EmptyString
  | S n', String c rest => String c (take n' rest)
  | S _, EmptyString => EmptyString
  end.

(** [s[i:j]] for [0 <= i], [0 <= j]. *)
Definition slice (i j : nat) (s : string) : string := take (j - i) (drop i s).

Definition endswith (s p : string) : bool :=
  Nat.leb (String.length p) (String.length s)
  && String.eqb (drop (String.length s - String.length p) s) p.

(** [needle in s] *)
Fixpoint contains (needle s : string) : bool :=
  if is_prefix needle s then true
  else match s with
       | EmptyString => false
       | String _ rest => contains needle rest
       end.

(** [s.find(needle)], [None] standing for -1; the index counts from [i]. *)
Fixpoint find_from (i : nat) (needle s : string) : option nat :=
  if is_prefix needle s then Some i
  else match s with
       | EmptyString => None
       | String _ rest => find_from (S i) needle rest
       end.

Definition find (needle s : string) : option nat := find_from 0 needle s.

(** [s.rfind(needle)] *)
Fixpoint rfind_from (i : nat) (needle s : string) : option nat :=
  match s with
  | EmptyString => if is_prefix needle s then Some i else None
  | String _ rest =>
      match rfind_from (S i) needle rest with
      | Some j => Some j
      | None => if is_prefix needle s then Some i else None
      end
  end.

Definition rfind (needle s : string) : option nat := rfind_from 0 needle s.

(** [s.replace(old, new)] for a non-empty [old]: occurrences are found left
    to right and do not overlap.  [skip] counts the characters of a matched
    occurrence still to be consumed. *)
Fixpoint replace_aux (old new : string) (skip : nat) (s : string) : string :=
  match s with
  | EmptyString => EmptyString
  | String c rest =>
      match skip with
      | S k => replace_aux old new k rest
      | O =>
          if is_prefix old s
          then new ++ replace_aux old new (String.length old - 1) rest
          else String c (replace_aux old new 0 rest)
      end
  end.

(** With an empty [old], Python inserts [new] before every character and
    at the end. *)
Fixpoint intersperse (new s : string) : string :=
  match s with
  | EmptyString => new
  | String c rest => new ++ String c (intersperse new rest)
  end.

Definition replace (old new s : string) : string :=
  match old with
  | EmptyString => intersperse new s
  | _ => replace_aux old new 0 s
  end.

Fixpoint rev_string (acc s : string) : string :=
  match s with
  | EmptyString => acc
  | String c rest => rev_string (String c acc) rest
  end.

(** [s.split(sep)] for a non-empty [sep]; [cur] is the piece being read,
    reversed. *)
Fixpoint split_aux (sep : string) (skip : nat) (cur : string) (s : string) : list string :=
  match s with
  | EmptyString => [rev_string EmptyString cur]
  | String c rest =>
      match skip with
      | S k => split_aux sep k cur rest
      | O =>
          if is_prefix sep s
          then rev_string EmptyString cur
               :: split_aux sep (String.length sep - 1) EmptyString rest
          else split_aux sep 0 (String c cur) rest
      end
  end.

Definition split (sep s : string) : list string := split_aux sep 0 EmptyString s.

Fixpoint lstrip_by (f : ascii -> bool) (s : string) : string :=
  match s with
  | EmptyString => EmptyString
  | String c rest => if f c then lstrip_by f rest else s
  end.

Fixpoint rstrip_by (f : ascii -> bool) (s : string) : string :=
  match s with
  | EmptyString => EmptyString
  | String c rest =>
      match rstrip_by f rest with
      | EmptyString => if f c then EmptyString else String c EmptyString
      | kept => String c kept
      end
  end.

Definition strip_by (f : ascii -> bool) (s : string) : string :=
  rstrip_by f (lstrip_by f s).

(** [s.strip()], [s.rstrip()] *)
Definition strip (s : string) : string := strip_by isspace s.
Definition rstrip (s : string) : string := rstrip_by isspace s.

(** [s.strip(chars)], [s.rstrip(chars)] *)
Definition strip_chars (chars s : string) : string := strip_by (fun c => char_in c chars) s.
Definition rstrip_chars (chars s : string) : string := rstrip_by (fun c => char_in c chars) s.

Definition lower_char (c : ascii) : ascii :=
  if is_upper c then ascii_of_nat (code c + 32) else c.

(** [s.lower()] *)
Fixpoint lower (s : string) : string :=
  match s with
  | EmptyString => EmptyString
  | String c rest => String (lower_char c) (lower rest)
  end.

(** The longest prefix whose characters satisfy [f], and what follows it. *)
Fixpoint span (f : ascii -> bool) (s : string) : string * string :=
  match s with
  | EmptyString => (EmptyString, EmptyString)
  | String c rest =>
      if f c then let '(run, after) := span f rest in (String c run, after)
      else (EmptyString, s)
  end.

(** [\w] on ASCII. *)
Definition is_word (c : ascii) : bool := is_alnum c || Ascii.eqb c "_".

Definition is_empty (s : string) : bool :=
  match s with EmptyString => true | _ => false end.

(** Reads text written with single quotes as the same text with double
    quotes: a notation for JSON literals in examples. *)
Definition q (s : string) : string :=
  replace (String squote EmptyString) (String dquote EmptyString) s.

End PyStr.

(** ** SHA-256 (FIPS 180-4) and HMAC (RFC 2104), as [hashlib.sha256] and
    [hmac.new(...).hexdigest()] compute them *)

Module Sha256.
Local Open Scope Z_scope.

Definition w32 (x : Z) : Z := Z.land x 0xFFFFFFFF.

Definition add32 (x y : Z) : Z := w32 (x + y).

Definition rotr (n x : Z) : Z :=
  Z.lor (Z.shiftr x n) (w32 (Z.shiftl x (32 - n))).

Definition Ch (x y z : Z) : Z :=
  Z.lxor (Z.land x y) (Z.land (Z.lxor x 0xFFFFFFFF) z).

Definition Maj (x y z : Z) : Z :=
  Z.lxor (Z.lxor (Z.land x y) (Z.land x z)) (Z.land y z).

Definition Sigma0 (x : Z) : Z := Z.lxor (Z.lxor (rotr 2 x) (rotr 13 x)) (rotr 22 x).
Definition Sigma1 (x : Z) : Z := Z.lxor (Z.lxor (rotr 6 x) (rotr 11 x)) (rotr 25 x).
Definition sigma0 (x : Z) : Z := Z.lxor (Z.lxor (rotr 7 x) (rotr 18 x)) (Z.shiftr x 3).
Definition sigma1 (x : Z) : Z := Z.lxor (Z.lxor (rotr 17 x) (rotr 19 x)) (Z.shiftr x 10).

(** The round constants are the first 32 bits of the fractional parts of
    the cube roots of the first 64 primes, and the initial hash value those
    of the square roots of the first 8 primes (FIPS 180-4, sections 4.2.2
    and 5.3.3); they are computed here from that definition. *)
Definition is_prime (n : nat) : bool :=
  Nat.ltb 1 n && forallb (fun d => negb (Nat.eqb (n mod d) 0)) (seq 2 (n - 2)).

Definition primes (count : nat) : list Z :=
  map Z.of_nat (firstn count (filter is_prime (seq 2 310))).

(** Integer cube root, built bit by bit from bit [bits - 1] down. *)
Fixpoint icbrt_bits (bits : nat) (n r : Z) : Z :=
  match bits with
  | O => r
  | S b =>
      let r' := r + Z.shiftl 1 (Z.of_nat b) in
      icbrt_bits b n (if r' * r' * r' <=? n then r' else r)
  end.

Definition icbrt (n : Z) : Z := icbrt_bits 40 n 0.

Definition K : list Z :=
  Eval vm_compute in map (fun p => w32 (icbrt (Z.shiftl p 96))) (primes 64).

Definition H0 : list Z :=
  Eval vm_compute in map (fun p => w32 (Z.sqrt (Z.shiftl p 64))) (primes 8).

(** Message schedule.  [recent] holds the words computed so far, newest
    first, so that W(t-2), W(t-7), W(t-15), W(t-16) sit at offsets 1, 6,
    14 and 15. *)
Fixpoint extend (n : nat) (recent : list Z) : list Z :=
  match n with
  | O => rev recent
  | S n' =>
      let wt := w32 (sigma1 (nth 1 recent 0) + nth 6 recent 0
                     + sigma0 (nth 14 recent 0) + nth 15 recent 0) in
      extend n' (wt :: recent)
  end.

Definition schedule (block : list Z) : list Z := extend 48 (rev block).

Record regs := Regs { ra : Z; rb : Z; rc : Z; rd : Z; re : Z; rf : Z; rg : Z; rh : Z }.

Definition round (s : regs) (kw : Z * Z) : regs :=
  let '(k, w) := kw in
  let t1 := w32 (rh s + Sigma1 (re s) + Ch (re s) (rf s) (rg s) + k + w) in
  let t2 := w32 (Sigma0 (ra s) + Maj (ra s) (rb s) (rc s)) in
  Regs (add32 t1 t2) (ra s) (rb s) (rc s) (add32 (rd s) t1) (re s) (rf s) (rg s).

Definition compress (h : regs) (block : list Z) : regs :=
  let s := fold_left round (combine K (schedule block)) h in
  Regs (add32 (ra h) (ra s)) (add32 (rb h) (rb s)) (add32 (rc h) (rc s))
       (add32 (rd h) (rd s)) (add32 (re h) (re s)) (add32 (rf h) (rf s))
       (add32 (rg h) (rg s)) (add32 (rh h) (rh s)).

Definition byte_Z (b : Byte.byte) : Z := Z.of_N (Byte.to_N b).

Definition Z_byte (z : Z) : Byte.byte :=
  match Byte.of_N (Z.to_N (Z.land z 0xFF)) with
  | Some b => b
  | None => Byte.x00
  end.

(** Big-endian encoding of [x] on [n] bytes. *)
Fixpoint be_bytes (n : nat) (x : Z) : list Z :=
  match n with
  | O => []
  | S n' => Z.land (Z.shiftr x (8 * Z.of_nat n')) 0xFF :: be_bytes n' x
  end.

Definition pad (msg : list Z) : list Z :=
  let len := Z.of_nat (List.length msg) in
  let zeros := Z.to_nat ((55 - len) mod 64) in
  (msg ++ [0x80] ++ repeat 0 zeros ++ be_bytes 8 (8 * len))%list.

Definition word_of (b0 b1 b2 b3 : Z) : Z :=
  Z.lor (Z.lor (Z.shiftl b0 24) (Z.shiftl b1 16)) (Z.lor (Z.shiftl b2 8) b3).

Fixpoint words (bs : list Z) : list Z :=
  match bs with
  | b0 :: b1 :: b2 :: b3 :: rest => word_of b0 b1 b2 b3 :: words rest
  | _ => []
  end.

(** Split into blocks of [n] items; [fuel] bounds the number of blocks. *)
Fixpoint chunks {A} (fuel n : nat) (l : list A) : list (list A) :=
  match fuel, l with
  | O, _ => []
  | _, [] => []
  | S fuel', _ => firstn n l :: chunks fuel' n (skipn n l)
  end.

Definition regs_words (s : regs) : list Z :=
  [ra s; rb s; rc s; rd s; re s; rf s; rg s; rh s].

Definition init : regs :=
  Regs (nth 0 H0 0) (nth 1 H0 0) (nth 2 H0 0) (nth 3 H0 0)
       (nth 4 H0 0) (nth 5 H0 0) (nth 6 H0 0) (nth 7 H0 0).

Definition digest_Z (msg : list Z) : list Z :=
  let ws := words (pad msg) in
  let blocks := chunks (S (List.length ws)) 16 ws in
  flat_map (be_bytes 4) (regs_words (fold_left compress blocks init)).

Definition sha256 (msg : list Byte.byte) : list Byte.byte :=
  map Z_byte (digest_Z (map byte_Z msg)).

Definition block_size : nat := 64.

(** [hmac.new(key, msg, hashlib.sha256).digest()]. *)
Definition hmac_sha256 (key msg : list Byte.byte) : list Byte.byte :=
  let k0 := if Nat.ltb block_size (List.length key) then sha256 key else key in
  let kz := (map byte_Z k0 ++ repeat 0 (block_size - List.length k0))%list in
  let ipad := map (fun b => Z_byte (Z.lxor b 0x36)) kz in
  let opad := map (fun b => Z_byte (Z.lxor b 0x5c)) kz in
  sha256 (opad ++ sha256 (ipad ++ msg))%list.

Definition hex_digit (n : Z) : ascii :=
  nth (Z.to_nat n) (list_ascii_of_string "0123456789abcdef") "0"%char.

(** [bytes.hex()] / [hexdigest()]: two lower-case digits per byte. *)
Fixpoint hex (bs : list Byte.byte) : string :=
  match bs with
  | [] => ""
  | b :: rest =>
      String (hex_digit (Z.shiftr (byte_Z b) 4))
        (String (hex_digit (Z.land (byte_Z b) 0xF)) (hex rest))
  end.

End Sha256.

(** ** Base64 ([base64.b64encode], standard alphabet, padded) *)

Module Base64.
Local Open Scope Z_scope.

Definition alphabet : string :=
  "ABCDEFGHIJKLMNOPQRSTUVWXYZabcdefghijklmnopqrstuvwxyz0123456789+/".

Definition sym (n : Z) : ascii :=
  nth (Z.to_nat n) (list_ascii_of_string alphabet) "A"%char.

Fixpoint encode_Z (bs : list Z) : string :=
  match bs with
  | [] => ""
  | [a] =>
      String (sym (Z.shiftr a 2))
        (String (sym (Z.shiftl (Z.land a 3) 4)) "==")
  | [a; b] =>
      String (sym (Z.shiftr a 2))
        (String (sym (Z.lor (Z.shiftl (Z.land a 3) 4) (Z.shiftr b 4)))
           (String (sym (Z.shiftl (Z.land b 15) 2)) "="))
  | a :: b :: c :: rest =>
      String (sym (Z.shiftr a 2))
        (String (sym (Z.lor (Z.shiftl (Z.land a 3) 4) (Z.shiftr b 4)))
           (String (sym (Z.lor (Z.shiftl (Z.land b 15) 2) (Z.shiftr c 6)))
              (String (sym (Z.land c 63)) (encode_Z rest))))
  end.

(** [base64.b64encode(bs).decode("utf-8")]: the output is ASCII. *)
Definition b64encode (bs : list Byte.byte) : string :=
  encode_Z (map Sha256.byte_Z bs).

End Base64.

(** ** [glm_cli/signature_helper.py] *)

Module Signature.
Import PyStr.
Local Open Scope Z_scope.

Definition SIGNATURE_KEY : string := "key-@@@@)))()((9))-xxxx&&&%%%%%".

Definition _hmac_sha256_hex (key message : string) : string :=
  Sha256.hex (Sha256.hmac_sha256 (encode_utf8 key) (encode_utf8 message)).

Definition _prompt_b64 (prompt : string) : string :=
  Base64.b64encode (encode_utf8 prompt).

(** [sorted(items, key=lambda kv: kv[0])]: a stable sort on the key, keys
    compared as Python compares [str] (by code point). *)
Fixpoint insert_by_key (kv : string * string) (l : list (string * string))
  : list (string * string) :=
  match l with
  | [] => [kv]
  | kv' :: rest =>
      if String.leb (fst kv) (fst kv') then kv :: l
      else kv' :: insert_by_key kv rest
  end.

Definition sorted_by_key (items : list (string * string)) : list (string * string) :=
  fold_right insert_by_key [] items.

Definition build_sorted_payload (timestamp : Z) (request_id user_id : string) : string :=
  let items := [ ("timestamp", str_of_int timestamp);
                 ("requestId", request_id);
                 ("user_id", user_id) ] in
  let ordered := sorted_by_key items in
  let flat := flat_map (fun kv => [fst kv; snd kv]) ordered in
  join "," flat.

Definition generate_signature (sorted_payload prompt : string) (timestamp : Z) : string :=
  let time_window := timestamp / 300000 in
  let subkey_hex := _hmac_sha256_hex SIGNATURE_KEY (str_of_int time_window) in
  let data_to_sign :=
    (sorted_payload ++ "|" ++ _prompt_b64 prompt ++ "|" ++ str_of_int timestamp)%string in
  _hmac_sha256_hex subkey_hex data_to_sign.

Record request_params := RequestParams {
  rp_timestamp : Z;
  rp_request_id : string;
  rp_signature : string;
  rp_sorted_payload : string;
  rp_success : bool
}.

(** The clock ([int(time.time() * 1000)]) and the UUID generator
    ([str(uuid.uuid4())]) are read only when the caller passes no
    timestamp or request id; their values are the first two arguments. *)
Definition generate_request_params (now_ms : Z) (fresh_uuid : string)
    (prompt user_id : string) (timestamp : option Z) (request_id : option string)
  : request_params :=
  let ts := match timestamp with Some t => t | None => now_ms end in
  let rid := match request_id with Some r => r | None => fresh_uuid end in
  let sorted_payload := build_sorted_payload ts rid user_id in
  let signature := generate_signature sorted_payload prompt ts in
  RequestParams ts rid signature sorted_payload true.

(** [GLMClient._generate_signature] of [api_client.py]. *)
Definition _generate_signature (timestamp : Z) (prompt request_id user_id : string) : string :=
  generate_signature (build_sorted_payload timestamp request_id user_id) prompt timestamp.

End Signature.

(** ** The signing algorithm as the specification words it (section 4.1) *)

Module SignatureSpec.
Import PyStr.
Local Open Scope Z_scope.

Definition entries (ts : Z) (rid uid : string) : list (string * string) :=
  [ ("timestamp", str_of_int ts); ("requestId", rid); ("user_id", uid) ].

(** Strict ASCII order on key names. *)
Definition key_lt (a b : string * string) : Prop :=
  String.ltb (fst a) (fst b) = true.

Definition flatten (kvs : list (string * string)) : list string :=
  flat_map (fun kv => [fst kv; snd kv]) kvs.

(** [payload] is the entries sorted by key name, flattened as alternating
    key, value tokens and joined by a comma. *)
Definition canonical_payload (ts : Z) (rid uid payload : string) : Prop :=
  exists ordered,
    Permutation ordered (entries ts rid uid)
    /\ StronglySorted key_lt ordered
    /\ payload = join "," (flatten ordered).

Definition hmac_hex (key message : list Byte.byte) : string :=
  Sha256.hex (Sha256.hmac_sha256 key message).

Definition subkey (ts : Z) : string :=
  hmac_hex (encode_utf8 Signature.SIGNATURE_KEY) (encode_utf8 (str_of_int (ts / 300000))).

Definition signing_input (payload p : string) (ts : Z) : string :=
  (payload ++ "|" ++ Base64.b64encode (encode_utf8 p) ++ "|" ++ str_of_int ts)%string.

Definition signature (payload p : string) (ts : Z) : string :=
  hmac_hex (encode_utf8 (subkey ts)) (encode_utf8 (signing_input payload p ts)).

End SignatureSpec.

(** ** Python dictionaries with [str] keys *)

Module Dict.

Section Ops.
Context {V : Type}.

Fixpoint get (k : string) (d : list (string * V)) : option V :=
  match d with
  | [] => None
  | (k', v) :: rest => if String.eqb k k' then Some v else get k rest
  end.

(** [k in d] *)
Definition has (k : string) (d : list (string * V)) : bool :=
  match get k d with Some _ => true | None => false end.

(** [d[k] = v]: an existing key keeps its position, a new key goes last. *)
Fixpoint set (k : string) (v : V) (d : list (string * V)) : list (string * V) :=
  match d with
  | [] => [(k, v)]
  | (k', v') :: rest =>
      if String.eqb k k' then (k, v) :: rest else (k', v') :: set k v rest
  end.

(** [d.get(k, default)] *)
Definition get_default (k : string) (default : V) (d : list (string * V)) : V :=
  match get k d with Some v => v | None => default end.

End Ops.

End Dict.

(** ** JSON values and [json.loads]

    The value type is what [json.loads] returns: [None], [bool], [int],
    [float], [str], [list], [dict].  A [float] keeps its lexeme; the only
    thing ever asked of it is whether it is zero, which is read off the
    mantissa digits (a literal that underflows to 0.0 is outside the model,
    as are nesting beyond the interpreter's recursion limit and integer
    literals beyond its digit limit). *)

Module Json.
Import PyStr.

#[local] Set Warnings "-register-all".

Inductive value : Type :=
| JNull
| JBool (b : bool)
| JInt (n : Z)
| JFloat (lexeme : string)
| JStr (s : string)
| JArr (items : list value)
| JObj (fields : list (string * value)).

Definition dict : Type := list (string * value).

(** [d.get(k)]: a missing key reads as [None]. *)
Definition get_none (k : string) (d : dict) : value := Dict.get_default k JNull d.

Fixpoint mantissa_zero (s : string) : bool :=
  match s with
  | EmptyString => true
  | String c rest =>
      if Ascii.eqb c "e" || Ascii.eqb c "E" then true
      else if in_range 49 57 c then false
      else mantissa_zero rest
  end.

Definition float_is_zero (lexeme : string) : bool :=
  if String.eqb lexeme "NaN" || String.eqb lexeme "Infinity" || String.eqb lexeme "-Infinity"
  then false else mantissa_zero lexeme.

(** Python truth value. *)
Definition truthy (v : value) : bool :=
  match v with
  | JNull => false
  | JBool b => b
  | JInt n => negb (Z.eqb n 0)
  | JFloat l => negb (float_is_zero l)
  | JStr s => negb (is_empty s)
  | JArr l => match l with [] => false | _ => true end
  | JObj d => match d with [] => false | _ => true end
  end.

(** [v == s] for a string [s] *)
Definition eq_str (v : value) (s : string) : bool :=
  match v with JStr t => String.eqb t s | _ => false end.

(** *** The decoder *)

Definition is_json_ws (c : ascii) : bool :=
  Ascii.eqb c " " || Ascii.eqb c "009" || Ascii.eqb c "010" || Ascii.eqb c "013".

Definition skip_ws (s : string) : string := lstrip_by is_json_ws s.

Definition hex_value (c : ascii) : option N :=
  if is_digit c then Some (N.of_nat (code c - 48))
  else if in_range 97 102 c then Some (N.of_nat (code c - 87))
  else if in_range 65 70 c then Some (N.of_nat (code c - 55))
  else None.

Definition hex4 (s : string) : option (N * string) :=
  match s with
  | String a (String b (String c (String d rest))) =>
      match hex_value a, hex_value b, hex_value c, hex_value d with
      | Some x, Some y, Some z, Some w => Some (((x * 16 + y) * 16 + z) * 16 + w, rest)%N
      | _, _, _, _ => None
      end
  | _ => None
  end.

Definition chr (n : N) : string := String (ascii_of_N n) EmptyString.

(** UTF-8 encoding of a code point (a lone surrogate takes the three-byte
    form). *)
Definition utf8_of_code (cp : N) : string :=
  (if cp <? 0x80 then chr cp
   else if cp <? 0x800 then
     chr (0xC0 + cp / 64) ++ chr (0x80 + cp mod 64)
   else if cp <? 0x10000 then
     chr (0xE0 + cp / 4096) ++ chr (0x80 + (cp / 64) mod 64) ++ chr (0x80 + cp mod 64)
   else
     chr (0xF0 + cp / 262144) ++ chr (0x80 + (cp / 4096) mod 64)
     ++ chr (0x80 + (cp / 64) mod 64) ++ chr (0x80 + cp mod 64))%N.

Definition simple_escape (e : ascii) : option ascii :=
  if Ascii.eqb e dquote then Some dquote
  else if Ascii.eqb e "\" then Some "\"%char
  else if Ascii.eqb e "/" then Some "/"%char
  else if Ascii.eqb e "b" then Some "008"%char
  else if Ascii.eqb e "f" then Some "012"%char
  else if Ascii.eqb e "n" then Some "010"%char
  else if Ascii.eqb e "r" then Some "013"%char
  else if Ascii.eqb e "t" then Some "009"%char
  else None.

(** A [\uXXXX] escape holding a low surrogate, at the head of [s]. *)
Definition low_surrogate (s : string) : option (N * string) :=
  match s with
  | String b (String u rest) =>
      if Ascii.eqb b "\" && Ascii.eqb u "u" then
        match hex4 rest with
        | Some (lo, rest') =>
            if (0xDC00 <=? lo)%N && (lo <=? 0xDFFF)%N then Some (lo, rest') else None
        | None => None
        end
      else None
  | _ => None
  end.

Definition prepend (p : string) (r : option (string * string)) : option (string * string) :=
  match r with
  | Some (body, rest) => Some ((p ++ body)%string, rest)
  | None => None
  end.

(** The body of a string literal, after its opening quote (strict mode):
    the decoded text and what follows the closing quote. *)
Fixpoint scan_string (fuel : nat) (s : string) : option (string * string) :=
  match fuel with
  | O => None
  | S fuel' =>
      match s with
      | EmptyString => None
      | String c rest =>
          if Ascii.eqb c dquote then Some (EmptyString, rest)
          else if Ascii.eqb c "\" then
            match rest with
            | EmptyString => None
            | String e rest' =>
                if Ascii.eqb e "u" then
                  match hex4 rest' with
                  | None => None
                  | Some (hi, after) =>
                      match (if (0xD800 <=? hi)%N && (hi <=? 0xDBFF)%N
                             then low_surrogate after else None) with
                      | Some (lo, after') =>
                          prepend (utf8_of_code
                                     (0x10000 + (hi - 0xD800) * 1024 + (lo - 0xDC00))%N)
                                  (scan_string fuel' after')
                      | None => prepend (utf8_of_code hi) (scan_string fuel' after)
                      end
                  end
                else
                  match simple_escape e with
                  | Some ch => prepend (String ch EmptyString) (scan_string fuel' rest')
                  | None => None
                  end
            end
          else if Nat.ltb (code c) 32 then None
          else prepend (String c EmptyString) (scan_string fuel' rest)
      end
  end.

Fixpoint take_digits (s : string) : string * string :=
  match s with
  | String c rest =>
      if is_digit c then let '(ds, r) := take_digits rest in (String c ds, r)
      else (EmptyString, s)
  | EmptyString => (EmptyString, EmptyString)
  end.

Fixpoint digits_value (acc : Z) (ds : string) : Z :=
  match ds with
  | EmptyString => acc
  | String c rest => digits_value (10 * acc + Z.of_nat (code c - 48)) rest
  end.

(** The integer part: [0] or a non-zero digit followed by digits. *)
Definition int_part (s : string) : option (string * string) :=
  match s with
  | String c rest =>
      if Ascii.eqb c "0" then Some ("0", rest)
      else if is_digit c then Some (take_digits s)
      else None
  | EmptyString => None
  end.

(** The optional fraction: a dot and at least one digit. *)
Definition frac_part (s : string) : string * string :=
  match s with
  | String c rest =>
      if Ascii.eqb c "." then
        match take_digits rest with
        | (EmptyString, _) => (EmptyString, s)
        | (ds, r) => (String c ds, r)
        end
      else (EmptyString, s)
  | EmptyString => (EmptyString, s)
  end.

(** The optional exponent: [e] or [E], an optional sign, at least one digit. *)
Definition exp_part (s : string) : string * string :=
  match s with
  | String c rest =>
      if Ascii.eqb c "e" || Ascii.eqb c "E" then
        let '(sign, rest') :=
          match rest with
          | String g r => if Ascii.eqb g "+" || Ascii.eqb g "-"
                          then (String g EmptyString, r) else (EmptyString, rest)
          | EmptyString => (EmptyString, rest)
          end in
        match take_digits rest' with
        | (EmptyString, _) => (EmptyString, s)
        | (ds, r) => (String c (sign ++ ds)%string, r)
        end
      else (EmptyString, s)
  | EmptyString => (EmptyString, s)
  end.

Definition parse_number (s : string) : option (value * string) :=
  let '(sign, s1) :=
    match s with
    | String c rest => if Ascii.eqb c "-" then ("-", rest) else (EmptyString, s)
    | EmptyString => (EmptyString, s)
    end in
  match int_part s1 with
  | None => None
  | Some (ip, r1) =>
      let '(fp, r2) := frac_part r1 in
      let '(ep, r3) := exp_part r2 in
      if is_empty fp && is_empty ep then
        Some (JInt (if is_empty sign then digits_value 0 ip else - digits_value 0 ip)%Z, r3)
      else Some (JFloat (sign ++ ip ++ fp ++ ep)%string, r3)
  end.

Definition literal (word : string) (v : value) (s : string) : option (value * string) :=
  if is_prefix word s then Some (v, drop (String.length word) s) else None.

Fixpoint parse_value (fuel : nat) (s : string) : option (value * string) :=
  match fuel with
  | O => None
  | S fuel' =>
      match s with
      | EmptyString => None
      | String c rest =>
          if Ascii.eqb c dquote then
            match scan_string (S (String.length rest)) rest with
            | Some (body, r) => Some (JStr body, r)
            | None => None
            end
          else if Ascii.eqb c "{" then
            match skip_ws rest with
            | String c' r' =>
                if Ascii.eqb c' "}" then Some (JObj [], r')
                else parse_members fuel' (skip_ws rest) []
            | EmptyString => None
            end
          else if Ascii.eqb c "[" then
            match skip_ws rest with
            | String c' r' =>
                if Ascii.eqb c' "]" then Some (JArr [], r')
                else parse_elements fuel' (skip_ws rest) []
            | EmptyString => None
            end
          else if Ascii.eqb c "n" then literal "null" JNull s
          else if Ascii.eqb c "t" then literal "true" (JBool true) s
          else if Ascii.eqb c "f" then literal "false" (JBool false) s
          else if Ascii.eqb c "N" then literal "NaN" (JFloat "NaN") s
          else if Ascii.eqb c "I" then literal "Infinity" (JFloat "Infinity") s
          else if is_prefix "-Infinity" s then literal "-Infinity" (JFloat "-Infinity") s
          else parse_number s
      end
  end

with parse_elements (fuel : nat) (s : string) (acc : list value) : option (value * string) :=
  match fuel with
  | O => None
  | S fuel' =>
      match parse_value fuel' s with
      | None => None
      | Some (v, r) =>
          match skip_ws r with
          | String c r' =>
              if Ascii.eqb c "]" then Some (JArr (rev (v :: acc)), r')
              else if Ascii.eqb c "," then parse_elements fuel' (skip_ws r') (v :: acc)
              else None
          | EmptyString => None
          end
      end
  end

with parse_members (fuel : nat) (s : string) (acc : dict) : option (value * string) :=
  match fuel with
  | O => None
  | S fuel' =>
      match s with
      | String c rest =>
          if Ascii.eqb c dquote then
            match scan_string (S (String.length rest)) rest with
            | None => None
            | Some (k, r) =>
                match skip_ws r with
                | String colon r1 =>
                    if Ascii.eqb colon ":" then
                      match parse_value fuel' (skip_ws r1) with
                      | None => None
                      | Some (v, r2) =>
                          match skip_ws r2 with
                          | String c' r3 =>
                              if Ascii.eqb c' "}" then Some (JObj (Dict.set k v acc), r3)
                              else if Ascii.eqb c' ","
                              then parse_members fuel' (skip_ws r3) (Dict.set k v acc)
                              else None
                          | EmptyString => None
                          end
                      end
                    else None
                | EmptyString => None
                end
            end
          else None
      | EmptyString => None
      end
  end.

(** [json.loads(s)]; [None] is [json.JSONDecodeError].  Every call of the
    three parsers consumes input, so twice the length is fuel enough. *)
Definition loads (s : string) : option value :=
  match parse_value (2 * String.length s + 2) (skip_ws s) with
  | Some (v, rest) => if is_empty (skip_ws rest) then Some v else None
  | None => None
  end.

End Json.

(** ** [glm_cli/api_client.py]: the stream demultiplexer of [send_message] *)

Module ApiClient.
Import PyStr Json.

(** The dictionaries [{"type": ..., "data": ...}] the generator yields:
    [thinking], [thinking_end], [content], [done], [error]. *)
Inductive event : Type :=
| Thinking (data : string)
| ThinkingEnd
| Content (data : string)
| Done
| Error (data : string).

(** [[^>]*>] at the head of [s]: the text through the first [>]. *)
Fixpoint upto_gt (s : string) : option string :=
  match s with
  | EmptyString => None
  | String c rest =>
      if Ascii.eqb c ">" then Some ">"
      else match upto_gt rest with
           | Some t => Some (String c t)
           | None => None
           end
  end.

(** The opening tag pattern of the source, anchored at the head of [s]:
    [<think], then optionally a space and any characters other than [>],
    then [>].  Returns the matched text. *)
Definition think_tag_at (s : string) : option string :=
  if is_prefix "<think" s then
    match drop 6 s with
    | String c rest =>
        if Ascii.eqb c " " then
          match upto_gt rest with
          | Some t => Some ("<think " ++ t)
          | None => None
          end
        else if Ascii.eqb c ">" then Some "<think>"
        else None
    | EmptyString => None
    end
  else None.

(** [re.search] with that pattern: [group(0)] of the leftmost match. *)
Fixpoint search_think (s : string) : option string :=
  match think_tag_at s with
  | Some tag => Some tag
  | None =>
      match s with
      | EmptyString => None
      | String _ rest => search_think rest
      end
  end.

(** The pattern [(<details[^>]*>|</details>)] anchored at the head of [s]. *)
Definition details_tag_at (s : string) : option string :=
  if is_prefix "<details" s then
    match upto_gt (drop 8 s) with
    | Some t => Some ("<details" ++ t)
    | None => None
    end
  else if is_prefix "</details>" s then Some "</details>"
  else None.

(** [re.split(r"(<details[^>]*>|</details>)", s)]: the pieces of text and,
    between them, the tags that separate them. *)
Fixpoint split_details (skip : nat) (cur : string) (s : string) : list string :=
  match s with
  | EmptyString => [rev_string EmptyString cur]
  | String c rest =>
      match skip with
      | S k => split_details k cur rest
      | O =>
          match details_tag_at s with
          | Some tag =>
              rev_string EmptyString cur :: tag
                :: split_details (String.length tag - 1) EmptyString rest
          | None => split_details 0 (String c cur) rest
          end
      end
  end.

Definition re_split_details (s : string) : list string := split_details 0 EmptyString s.

(** How the body of the [for line in ...] loop leaves: on to the next line
    with the new value of [in_thinking], out of the loop by [break], or out
    of the generator by an exception that no handler of [send_message]
    catches ([TypeError], [AttributeError]). *)
Inductive control : Type :=
| Next (in_thinking : bool)
| Break
| Crash.

(** One [choice] of the [choices] format. *)
Definition process_choice (in_thinking : bool) (choice : value) : list event * control :=
  match choice with
  | JObj c =>
      match Dict.get_default "delta" (JObj []) c with
      | JObj delta =>
          let content := Dict.get_default "content" (JStr EmptyString) delta in
          if truthy content then
            match content with
            | JStr content =>
                let think_match := search_think content in
                let in_thinking :=
                  match think_match with Some _ => true | None => in_thinking end in
                let content :=
                  match think_match with
                  | Some tag => replace tag EmptyString content
                  | None => content
                  end in
                if contains "</think>" content then
                  let parts := split "</think>" content in
                  let part0 := nth 0 parts EmptyString in
                  ((if is_empty part0 then [] else [Thinking part0])
                   ++ [ThinkingEnd]
                   ++ (match parts with
                       | _ :: part1 :: _ => if is_empty part1 then [] else [Content part1]
                       | _ => []
                       end),
                   Next false)%list
                else if in_thinking then ([Thinking content], Next in_thinking)
                else ([Content content], Next in_thinking)
            | _ => ([], Crash)
            end
          else ([], Next in_thinking)
      | _ => ([], Crash)
      end
  | _ => ([], Crash)
  end.

(** [for choice in data["choices"]: ...] *)
Fixpoint process_choices (in_thinking : bool) (choices : list value) : list event * control :=
  match choices with
  | [] => ([], Next in_thinking)
  | choice :: rest =>
      match process_choice in_thinking choice with
      | (evs, Next in_thinking') =>
          let '(evs', c) := process_choices in_thinking' rest in ((evs ++ evs')%list, c)
      | (evs, c) => (evs, c)
      end
  end.

(** What [for choice in v] iterates over; [None] when [v] is not iterable.
    The items of a [dict] are its keys and those of a [str] its characters:
    strings in both cases, on which [choice.get] raises at once. *)
Definition iter_items (v : value) : option (list value) :=
  match v with
  | JArr items => Some items
  | JObj d => Some (map (fun kv => JStr (fst kv)) d)
  | JStr s => Some (map (fun c => JStr (String c EmptyString)) (list_ascii_of_string s))
  | _ => None
  end.

(** The pieces of a [chat:completion] text, in order. *)
Fixpoint process_parts (in_thinking : bool) (parts : list string) : list event * bool :=
  match parts with
  | [] => ([], in_thinking)
  | part :: rest =>
      if is_empty part then process_parts in_thinking rest
      else if startswith part "<details" then process_parts true rest
      else if String.eqb part "</details>" then
        let '(evs, b) := process_parts false rest in
        ((if in_thinking then [ThinkingEnd] else []) ++ evs, b)%list
      else
        let '(evs, b) := process_parts in_thinking rest in
        ((if in_thinking then Thinking part else Content part) :: evs, b)
  end.

(** The envelope [{"type": "chat:completion", "data": {...}}]. *)
Definition process_completion (in_thinking : bool) (d : dict) : list event * control :=
  match Dict.get_default "data" (JObj []) d with
  | JObj delta =>
      let first := Dict.get_default "delta_content" (JStr EmptyString) delta in
      let content :=
        if truthy first then first
        else Dict.get_default "content" (JStr EmptyString) delta in
      let phase := get_none "phase" delta in
      let '(evs1, in_thinking1, finished) :=
        if eq_str phase "thinking" then ([], true, false)
        else if eq_str phase "answer" || eq_str phase "other" || eq_str phase "done" then
          (((if in_thinking then [ThinkingEnd] else [])
            ++ (if eq_str phase "done" then [Done] else []))%list,
           false, eq_str phase "done")
        else ([], in_thinking, false) in
      if finished then (evs1, Next in_thinking1)
      else if truthy content then
        match content with
        | JStr text =>
            let '(evs2, b) := process_parts in_thinking1 (re_split_details text) in
            ((evs1 ++ evs2)%list, Next b)
        | _ => (evs1, Crash)
        end
      else (evs1, Next in_thinking1)
  | _ => ([], Crash)
  end.

(** The decoded payload of a [data: ] line.  A payload that is not an object
    raises at [in] or at [.get]. *)
Definition process_data (in_thinking : bool) (data : value) : list event * control :=
  match data with
  | JObj d =>
      if Dict.has "choices" d then
        match iter_items (Dict.get_default "choices" JNull d) with
        | Some choices => process_choices in_thinking choices
        | None => ([], Crash)
        end
      else if eq_str (get_none "type" d) "chat:completion" then
        process_completion in_thinking d
      else ([], Next in_thinking)
  | _ => ([], Crash)
  end.

(** The body of [for line in response.iter_lines(decode_unicode=True)]. *)
Definition process_line (in_thinking : bool) (line : string) : list event * control :=
  if is_empty line then ([], Next in_thinking)
  else if startswith line "data: " then
    let data_str := drop 6 line in
    if String.eqb data_str "[DONE]" then ([Done], Break)
    else
      match loads data_str with
      | Some data => process_data in_thinking data
      | None => ([], Next in_thinking)
      end
  else ([], Next in_thinking).

(** How the loop over the lines ended. *)
Inductive ending : Type :=
| Exhausted (in_thinking : bool)
| Broke
| Crashed.

Fixpoint iter_lines (in_thinking : bool) (lines : list string) : list event * ending :=
  match lines with
  | [] => ([], Exhausted in_thinking)
  | line :: rest =>
      match process_line in_thinking line with
      | (evs, Next in_thinking') =>
          let '(evs', e) := iter_lines in_thinking' rest in ((evs ++ evs')%list, e)
      | (evs, Break) => (evs, Broke)
      | (evs, Crash) => (evs, Crashed)
      end
  end.

(** What the consumer of the generator sees: the events, and whether the
    generator ended by an exception. *)
Record run : Type := Run { events : list event; raised : bool }.

(** The streaming part of [send_message].  The transport delivers [lines]
    and then, when [failure] is [Some msg], raises a
    [requests.RequestException] whose text is [msg] (a connection or HTTP
    error); with no line delivered this is a failed request. *)
Definition send_message (lines : list string) (failure : option string) : run :=
  match iter_lines false lines with
  | (evs, Exhausted _) =>
      Run (evs ++ match failure with Some msg => [Error msg] | None => [] end)%list false
  | (evs, Broke) => Run evs false
  | (evs, Crashed) => Run evs true
  end.

End ApiClient.

(** ** The event discipline of the specification (section 3) *)

Module DemuxSpec.
Import ApiClient.

(** No [Done] arrives inside a thinking region: [open] tells whether a
    [Thinking] event has been seen with no [ThinkingEnd] after it. *)
Fixpoint done_outside_thinking (open : bool) (evs : list event) : bool :=
  match evs with
  | [] => true
  | Thinking _ :: rest => done_outside_thinking true rest
  | ThinkingEnd :: rest => done_outside_thinking false rest
  | Done :: rest => negb open && done_outside_thinking open rest
  | _ :: rest => done_outside_thinking open rest
  end.

(** [s] does not hold the character [c]. *)
Fixpoint free_of (c : ascii) (s : string) : bool :=
  match s with
  | EmptyString => true
  | String d rest => negb (Ascii.eqb d c) && free_of c rest
  end.

(** The events that follow the first [Done]. *)
Fixpoint after_done (evs : list event) : list event :=
  match evs with
  | [] => []
  | Done :: rest => rest
  | _ :: rest => after_done rest
  end.

End DemuxSpec.

(** ** [glm_proxy/server.py]: tool-call synthesis *)

Module Server.
Import PyStr Json.

(** The outcome of a call that may raise an exception the function itself
    does not catch. *)
Inductive result (A : Type) : Type :=
| Ok (a : A)
| Raise.

Arguments Ok {A} a.
Arguments Raise {A}.

Definition _ARG_SYNONYMS : list (string * string) :=
  [ ("filepath", "path");
    ("file_path", "path");
    ("filename", "path");
    ("file", "path");
    ("cmd", "command") ].

Definition _TOOL_NAME_SYNONYMS : list (string * string) :=
  [ ("writefile", "write");
    ("write_file", "write");
    ("save_file", "write");
    ("save", "write");
    ("create_file", "write");
    ("readfile", "read");
    ("read_file", "read");
    ("open_file", "read");
    ("edit_file", "edit");
    ("apply_patch", "patch") ].

(** [name.lower().replace("_", "").replace("-", "")] *)
Definition _normalize_tool_name (name : string) : string :=
  replace "-" EmptyString (replace "_" EmptyString (lower name)).

Fixpoint resolve_among (target_norm : string) (allowed_tools : list string) : option string :=
  match allowed_tools with
  | [] => None
  | tool :: rest =>
      let norm := _normalize_tool_name tool in
      if String.eqb norm target_norm then Some tool
      else if match Dict.get norm _TOOL_NAME_SYNONYMS with
              | Some syn => String.eqb syn target_norm
              | None => false
              end
      then Some tool
      else resolve_among target_norm rest
  end.

Definition _resolve_tool_name (target : string) (allowed_tools : list string) : option string :=
  resolve_among (_normalize_tool_name target) allowed_tools.

(** The loop body of [_normalize_args] when no parameter list is declared. *)
Definition normalize_arg_free (normalized : dict) (kv : string * value) : dict :=
  let '(key, value) := kv in
  let key_norm := _normalize_tool_name key in
  match Dict.get key_norm _ARG_SYNONYMS with
  | Some synonym =>
      let normalized := Dict.set key value normalized in
      if String.eqb synonym key then normalized else Dict.set synonym value normalized
  | None => Dict.set key value normalized
  end.

(** The loop body when the schema declares its parameters. *)
Definition normalize_arg_schema (allowed_norm : list (string * string))
    (normalized : dict) (kv : string * value) : dict :=
  let '(key, value) := kv in
  let key_norm := _normalize_tool_name key in
  match Dict.get key_norm allowed_norm with
  | Some declared => Dict.set declared value normalized
  | None =>
      match (if String.eqb key_norm "path" then Dict.get "filepath" allowed_norm else None) with
      | Some declared => Dict.set declared value normalized
      | None =>
          match
            match Dict.get key_norm _ARG_SYNONYMS with
            | Some synonym => Dict.get (_normalize_tool_name synonym) allowed_norm
            | None => None
            end
          with
          | Some declared => Dict.set declared value normalized
          | None => Dict.set key value normalized
          end
      end
  end.

Definition _normalize_args (args : dict) (allowed_params : option (list string)) : dict :=
  match allowed_params with
  | None | Some [] => fold_left normalize_arg_free args []
  | Some allowed =>
      let allowed_norm :=
        fold_left (fun d p => Dict.set (_normalize_tool_name p) p d) allowed [] in
      fold_left (normalize_arg_schema allowed_norm) args []
  end.

(** A candidate call as read off the model output: both fields are whatever
    the JSON text held. *)
Record raw_call : Type := RawCall { raw_name : value; raw_arguments : value }.

(** A normalized call [{"name": ..., "arguments": ...}]: the name is a
    string and the arguments are a [dict]. *)
Record tool_call : Type := ToolCall { name : string; arguments : dict }.

Definition or_value (a b : value) : value := if truthy a then a else b.

Fixpoint _coerce_tool_calls (raw_calls : list value) : list raw_call :=
  match raw_calls with
  | [] => []
  | JObj call :: rest =>
      if Dict.has "name" call && Dict.has "arguments" call then
        RawCall (get_none "name" call) (Dict.get_default "arguments" (JObj []) call)
          :: _coerce_tool_calls rest
      else
        match get_none "function" call with
        | JObj func =>
            RawCall (or_value (get_none "name" func) (get_none "name" call))
                    (Dict.get_default "arguments" (JObj []) func)
              :: _coerce_tool_calls rest
        | _ => _coerce_tool_calls rest
        end
  | _ :: rest => _coerce_tool_calls rest
  end.

(** [_TOOL_NAME_SYNONYMS.get(name, name)]: the table is keyed by the name as
    given; a list or an object cannot be hashed and the lookup raises. *)
Definition synonym_lookup (name : value) : result value :=
  match name with
  | JStr s =>
      match Dict.get s _TOOL_NAME_SYNONYMS with
      | Some t => Ok (JStr t)
      | None => Ok name
      end
  | JArr _ | JObj _ => Raise
  | _ => Ok name
  end.

(** The name a call ends up with, or [None] when the loop moves on to the
    next call. *)
Definition admitted_name (name : value) (allowed_tools : list string) : option string :=
  match name with
  | JStr s =>
      if negb (is_empty s) && existsb (String.eqb s) allowed_tools then Some s
      else if String.eqb s "write" || String.eqb s "edit" then
        match List.find (fun t => contains s t) allowed_tools with
        | Some t => if is_empty t then None else Some t
        | None => None
        end
      else None
  | _ => None
  end.

(** One turn of the loop of [_normalize_tool_calls]: the call to append, if
    any. *)
Definition normalize_call (call : raw_call) (allowed_tools : list string)
    (tool_params_by_name : list (string * list string)) : result (option tool_call) :=
  match (if truthy (raw_name call) then synonym_lookup (raw_name call)
         else Ok (raw_name call)) with
  | Raise => Raise
  | Ok name =>
      match admitted_name name allowed_tools with
      | None => Ok None
      | Some name =>
          let args :=
            match raw_arguments call with
            | JStr text => loads text
            | other => Some other
            end in
          match args with
          | Some (JObj args) =>
              Ok (Some (ToolCall name
                          (_normalize_args args (Dict.get name tool_params_by_name))))
          | _ => Ok None
          end
      end
  end.

Fixpoint normalize_calls (tool_calls : list raw_call) (allowed_tools : list string)
    (tool_params_by_name : list (string * list string)) : result (list tool_call) :=
  match tool_calls with
  | [] => Ok []
  | call :: rest =>
      match normalize_call call allowed_tools tool_params_by_name with
      | Raise => Raise
      | Ok this =>
          match normalize_calls rest allowed_tools tool_params_by_name with
          | Raise => Raise
          | Ok others =>
              Ok (match this with Some c => c :: others | None => others end)
          end
      end
  end.

(** [normalized or None] *)
Definition _normalize_tool_calls (tool_calls : list raw_call) (allowed_tools : list string)
    (tool_params_by_name : list (string * list string)) : result (option (list tool_call)) :=
  match normalize_calls tool_calls allowed_tools tool_params_by_name with
  | Raise => Raise
  | Ok [] => Ok None
  | Ok normalized => Ok (Some normalized)
  end.

(** Python's [None] is [JNull] in the two functions below, as it is for the
    callers, which only test the result for truth. *)
Definition _try_parse_snippet (snippet : string) : value :=
  match loads snippet with
  | Some v => v
  | None =>
      let repaired := replace (String squote EmptyString) (String dquote EmptyString) snippet in
      let repaired := replace ",]" "]" (replace ",}" "}" repaired) in
      match loads repaired with
      | Some v => v
      | None => JNull
      end
  end.

Definition fence_chars : string := String "`" (String newline " ").

Definition _repair_json (raw : string) : value :=
  let raw := strip raw in
  let raw :=
    if startswith raw "```" then
      let raw := strip_chars fence_chars raw in
      if startswith raw "json" then strip (drop 4 raw) else raw
    else raw in
  match loads raw with
  | Some v => v
  | None =>
      let from_array :=
        match find "[" raw, rfind "]" raw with
        | Some start, Some stop =>
            if Nat.ltb start stop then _try_parse_snippet (slice start (stop + 1) raw)
            else JNull
        | _, _ => JNull
        end in
      match from_array with
      | JNull =>
          match find "{" raw, rfind "}" raw with
          | Some start, Some stop =>
              if Nat.leb stop start then JNull
              else _try_parse_snippet (slice start (stop + 1) raw)
          | _, _ => JNull
          end
      | parsed => parsed
      end
  end.

Definition is_list (v : value) : bool := match v with JArr _ => true | _ => false end.

(** The structured-parse stage.  The result [{"tool_calls": normalized}] is
    represented by the list [normalized]. *)
Definition _extract_tool_call (text : string) (allowed_tools : list string)
    (tool_params_by_name : list (string * list string)) : result (option (list tool_call)) :=
  if is_empty text then Ok None
  else
    let data := _repair_json text in
    if negb (truthy data) then Ok None
    else
      match data with
      | JArr items =>
          _normalize_tool_calls (_coerce_tool_calls items) allowed_tools tool_params_by_name
      | JObj d =>
          if Dict.has "function" d && negb (Dict.has "tool_calls" d) && negb (Dict.has "tool" d)
          then _normalize_tool_calls (_coerce_tool_calls [data]) allowed_tools tool_params_by_name
          else
            match (if is_list (get_none "tool_calls" d) then Dict.get "tool_calls" d else None) with
            | Some (JArr items) =>
                _normalize_tool_calls (_coerce_tool_calls items) allowed_tools tool_params_by_name
            | _ =>
                match Dict.get "tool" d, Dict.get "arguments" d with
                | Some tool, Some args =>
                    _normalize_tool_calls [RawCall tool args] allowed_tools tool_params_by_name
                | _, _ => Ok None
                end
            end
      | _ => Ok None
      end.

(** *** Partial recovery *)

(** [re.search] for a colon or an equals sign, optional white space and a
    double quote: [m.end()], counted from [i]. *)
Fixpoint search_assign_quote (i : nat) (s : string) : option nat :=
  match s with
  | EmptyString => None
  | String c rest =>
      let here :=
        if Ascii.eqb c ":" || Ascii.eqb c "=" then
          let '(blanks, after) := span isspace rest in
          match after with
          | String d _ =>
              if Ascii.eqb d dquote then Some (i + 1 + String.length blanks + 1) else None
          | EmptyString => None
          end
        else None in
      match here with
      | Some e => Some e
      | None => search_assign_quote (S i) rest
      end
  end.

(** The [while] loop of [_scan_quoted_value], from [start]: the text up to
    the first quote that is not escaped, or all that is left. *)
Fixpoint scan_value (escaped : bool) (s : string) : string :=
  match s with
  | EmptyString => EmptyString
  | String ch rest =>
      if Ascii.eqb ch "\" && negb escaped then String ch (scan_value true rest)
      else if Ascii.eqb ch dquote && negb escaped then EmptyString
      else String ch (scan_value false rest)
  end.

Definition _scan_quoted_value (src key : string) : option string :=
  match find key (lower src) with
  | None => None
  | Some key_idx =>
      let after := drop (key_idx + String.length key) src in
      match search_assign_quote 0 after with
      | None => None
      | Some m_end =>
          Some (scan_value false (drop (key_idx + String.length key + m_end) src))
      end
  end.

(** [a or b] on values that are [None] or a string. *)
Definition or_str (a b : option string) : option string :=
  match a with
  | Some s => if is_empty s then b else a
  | None => b
  end.

Definition truthy_str (a : option string) : bool :=
  match a with Some s => negb (is_empty s) | None => false end.

Definition partial_candidates : list string :=
  [ "write"; "write_file"; "writefile"; "save_file"; "edit"; "edit_file";
    "apply_patch"; "read"; "read_file"; "readfile"; "open_file" ].

Definition mem (s : string) (l : list string) : bool := existsb (String.eqb s) l.

(** [cleaned in (".", "./") or cleaned.endswith("/") or cleaned.endswith("\\")] *)
Definition is_directory_marker (cleaned : string) : bool :=
  mem cleaned ["."; "./"] || endswith cleaned "/" || endswith cleaned "\".

Definition closers : string := String "}" (String dquote " ").

Definition _extract_partial_tool_call (text : string) (allowed_tools : list string)
    (tool_params_by_name : list (string * list string)) : option (list tool_call) :=
  if is_empty text then None
  else
    let scan_text :=
      replace (String "\" (String dquote EmptyString)) (String dquote EmptyString) text in
    let lowered := lower scan_text in
    let tool_name :=
      match List.find (fun candidate => contains candidate lowered) partial_candidates with
      | Some candidate => Some (Dict.get_default candidate candidate _TOOL_NAME_SYNONYMS)
      | None => None
      end in
    let tool_name :=
      match tool_name with
      | Some t =>
          if negb (is_empty t) && negb (mem t allowed_tools)
          then List.find (fun a => contains t a) allowed_tools
          else tool_name
      | None => None
      end in
    match tool_name with
    | None => None
    | Some tool_name =>
        if is_empty tool_name then None
        else
          let path :=
            or_str (_scan_quoted_value scan_text "filepath")
                   (_scan_quoted_value scan_text "file_path") in
          let path :=
            match path with
            | None => or_str (_scan_quoted_value scan_text "path")
                             (_scan_quoted_value scan_text "filename")
            | Some _ => path
            end in
          let content :=
            match _scan_quoted_value scan_text "content" with
            | Some c => Some (rstrip_chars closers (rstrip c))
            | None => None
            end in
          if mem tool_name ["write"; "edit"]
             && (negb (truthy_str path) || match content with None => true | Some _ => false end)
          then None
          else if String.eqb tool_name "read" && negb (truthy_str path) then None
          else if String.eqb tool_name "read"
                  && match path with
                     | Some p => is_directory_marker (strip p)
                     | None => false
                     end
          then None
          else
            let args : dict := [] in
            let args :=
              match path with
              | Some p => if is_empty p then args else Dict.set "path" (JStr p) args
              | None => args
              end in
            let args :=
              match content with
              | Some c => Dict.set "content" (JStr c) args
              | None => args
              end in
            let args := _normalize_args args (Dict.get tool_name tool_params_by_name) in
            match args with
            | [] => None
            | _ => Some [ToolCall tool_name args]
            end
    end.

(** *** Validation *)

Definition path_keys : list string := ["path"; "filePath"; "file_path"].

Definition _is_valid_write_call (user_text : string) (tool_calls : list tool_call) : bool :=
  match tool_calls with
  | [] => false
  | call :: _ =>
      if negb (mem (name call) ["write"; "edit"; "read"]) then true
      else
        let args := arguments call in
        if String.eqb (name call) "read" then
          match or_value (or_value (get_none "path" args) (get_none "filePath" args))
                         (get_none "file_path" args) with
          | JStr path =>
              if is_empty (strip path) then false
              else if is_directory_marker (strip path) then false
              else true
          | _ => false
          end
        else
          match get_none "content" args with
          | JStr content =>
              if is_empty (strip content) then false
              else if negb (existsb (fun k => Dict.has k args) path_keys) then false
              else true
          | _ => false
          end
  end.

(** *** Intent fallbacks *)

Definition list_intent : list string :=
  [ "list"; "show"; "inspect"; "files"; "folders"; "directories"; "ls"; "tree" ].

Definition params_of (tool : string) (tool_params_by_name : list (string * list string))
  : list string :=
  Dict.get_default tool [] tool_params_by_name.

Definition _fallback_tool_call (user_text : string) (allowed_tools : list string)
    (tool_params_by_name : list (string * list string)) : option (list tool_call) :=
  let text := lower user_text in
  let wants_files := existsb (fun k => contains k text) list_intent in
  if negb wants_files then None
  else if mem "glob" allowed_tools then
    let params := params_of "glob" tool_params_by_name in
    let args : dict :=
      if mem "pattern" params then [("pattern", JStr "**/*")]
      else if mem "path" params then [("path", JStr ".")]
      else if mem "cwd" params then [("cwd", JStr ".")]
      else [] in
    Some [ToolCall "glob" args]
  else
    match List.find (fun candidate => mem candidate allowed_tools) ["ls"; "list"; "list_dir"] with
    | Some candidate =>
        let params := params_of candidate tool_params_by_name in
        let args : dict :=
          if mem "path" params then [("path", JStr ".")]
          else if mem "cwd" params then [("cwd", JStr ".")]
          else [] in
        Some [ToolCall candidate args]
    | None => None
    end.

Definition read_intent : list string :=
  [ "read"; "open"; "show"; "cat"; "contents"; "what is in";
    String "w" (String "h" (String "a" (String "t" (String squote "s in"))));
    "display" ].

(** A quoted alternative of the candidate pattern at the head of [s]: the
    quote [qc], one or more characters other than [qc], and [qc] again.
    Returns the group and the length of the match. *)
Definition quoted_at (qc : ascii) (s : string) : option (string * nat) :=
  match s with
  | String c rest =>
      if Ascii.eqb c qc then
        match span (fun x => negb (Ascii.eqb x qc)) rest with
        | (String r run, String _ _) => Some (String r run, String.length run + 3)
        | _ => None
        end
      else None
  | EmptyString => None
  end.

(** The class of word characters, dot, slash and hyphen. *)
Definition is_path_char (c : ascii) : bool := is_word c || char_in c "./-".

(** The last index [k >= 1] of [run], counted from [i], that holds a dot
    followed by a letter or digit. *)
Fixpoint last_dot (i : nat) (run : string) : option nat :=
  match run with
  | EmptyString => None
  | String c rest =>
      match last_dot (S i) rest with
      | Some k => Some k
      | None =>
          if Ascii.eqb c "." && Nat.leb 1 i
             && match rest with String d _ => is_alnum d | EmptyString => false end
          then Some i else None
      end
  end.

(** The unquoted alternative at the head of [s]: path characters, a dot,
    letters or digits; the first repetition is greedy, so the dot is the
    last one that can be followed by a letter or digit. *)
Definition dotted_at (s : string) : option (string * nat) :=
  let '(run, _) := span is_path_char s in
  match last_dot 0 run with
  | Some k =>
      let '(ext, _) := span is_alnum (drop (k + 1) run) in
      let len := k + 1 + String.length ext in
      Some (take len run, len)
  | None => None
  end.

Definition candidate_at (s : string) : option (string * nat) :=
  match quoted_at "`" s with
  | Some m => Some m
  | None =>
      match quoted_at dquote s with
      | Some m => Some m
      | None =>
          match quoted_at squote s with
          | Some m => Some m
          | None => dotted_at s
          end
      end
  end.

(** [re.finditer(pattern, s)], each match reduced to its one group. *)
Fixpoint find_candidates (skip : nat) (s : string) : list string :=
  match s with
  | EmptyString => []
  | String _ rest =>
      match skip with
      | S k => find_candidates k rest
      | O =>
          match candidate_at s with
          | Some (group, len) => group :: find_candidates (len - 1) rest
          | None => find_candidates 0 rest
          end
      end
  end.

(** The end of the string, or the line feed that ends it. *)
Definition at_dollar (s : string) : bool :=
  is_empty s || String.eqb s (String newline EmptyString).

(** The first test of [_score] searches for a backslash, any character but
    a line feed, one to six letters or digits, and the end. *)
Fixpoint has_backslash_ext (s : string) : bool :=
  match s with
  | EmptyString => false
  | String c rest =>
      (Ascii.eqb c "\"
       && match rest with
          | String a tail =>
              negb (Ascii.eqb a newline)
              && (let '(ext, after) := span is_alnum tail in
                  Nat.leb 1 (String.length ext) && Nat.leb (String.length ext) 6
                  && at_dollar after)
          | EmptyString => false
          end)
      || has_backslash_ext rest
  end.

Definition known_suffixes : list string :=
  [ ".txt"; ".md"; ".json"; ".py"; ".yaml"; ".yml"; ".toml" ].

Definition _score (candidate : string) : nat :=
  (if contains "/" candidate || contains "\" candidate then 2 else 0)
  + (if has_backslash_ext candidate then 3 else 0)
  + (if existsb (endswith candidate) known_suffixes then 2 else 0)
  + (if Nat.ltb 2 (py_len candidate) then 1 else 0).

(** [max(l, key=f)] and [sorted(l, key=f)[0]] for a non-empty list: the
    first element that is greatest, respectively least. *)
Fixpoint max_by (f : string -> nat) (best : string) (l : list string) : string :=
  match l with
  | [] => best
  | x :: rest => if Nat.ltb (f best) (f x) then max_by f x rest else max_by f best rest
  end.

Fixpoint min_by (f : string -> nat) (best : string) (l : list string) : string :=
  match l with
  | [] => best
  | x :: rest => if Nat.ltb (f x) (f best) then min_by f x rest else min_by f best rest
  end.

Definition clean_candidate (c : string) : string := strip_chars ".,:;!?)" (strip c).

Definition cleaned_candidates (user_text_raw : string) : list string :=
  filter (fun c => negb (is_empty c)) (map clean_candidate (find_candidates 0 user_text_raw)).

(** [re.search] for a dot, a slash or a backslash. *)
Definition has_path_mark (path : string) : bool :=
  contains "." path || contains "/" path || contains "\" path.

Section WithWorkingTree.

(** The working tree as the read heuristic sees it: for a bare file name,
    the regular files that [glob.glob("**/" + name, recursive=True)] finds,
    or [None] when the search raises. *)
Variable glob_files : string -> option (list string).

Definition resolve_bare (path : string) : string :=
  if negb (startswith path "/") && negb (contains "/" path) && negb (contains "\" path) then
    match glob_files path with
    | Some [] => path
    | Some (m :: ms) => min_by py_len m ms
    | None => path
    end
  else path.

Definition _fallback_read_call (user_text_raw : string) (allowed_tools : list string)
    (tool_params_by_name : list (string * list string)) : option (list tool_call) :=
  match _resolve_tool_name "read" allowed_tools with
  | None => None
  | Some tool_name =>
      if is_empty tool_name then None
      else
        let lowered := lower user_text_raw in
        if negb (existsb (fun k => contains k lowered) read_intent) then None
        else
          match find_candidates 0 user_text_raw with
          | [] => None
          | _ =>
              match cleaned_candidates user_text_raw with
              | [] => None
              | c :: cs =>
                  let path := max_by _score c cs in
                  if negb (has_path_mark path) then None
                  else if is_empty path then None
                  else
                    let path := resolve_bare path in
                    let params := Dict.get tool_name tool_params_by_name in
                    let args : dict := [("path", JStr path)] in
                    let args :=
                      match params with
                      | None | Some [] => Dict.set "filePath" (JStr path) args
                      | Some ps =>
                          let args := _normalize_args args params in
                          if mem "filePath" ps && negb (Dict.has "filePath" args)
                          then Dict.set "filePath" (JStr path) args
                          else args
                      end in
                    Some [ToolCall tool_name args]
              end
          end
  end.

End WithWorkingTree.

(** *** Responses

    The identifiers ([chatcmpl-...], [call_...]) and the creation time are
    drawn from the UUID generator and the clock and are left out; the
    arguments of an emitted call, which the source serializes with
    [json.dumps], are kept as the [dict] they serialize. *)

Record function_call : Type :=
  FunctionCall { fc_index : nat; fc_name : string; fc_arguments : dict }.

Fixpoint enumerate_calls (idx : nat) (tool_calls : list tool_call) : list function_call :=
  match tool_calls with
  | [] => []
  | call :: rest =>
      FunctionCall idx (name call) (arguments call) :: enumerate_calls (S idx) rest
  end.

(** The one choice of a [chat.completion] object: the assistant message and
    the finish reason. *)
Record completion : Type := Completion {
  c_model : string;
  c_content : option string;
  c_tool_calls : option (list function_call);
  c_finish_reason : string
}.

Definition _openai_response (content : string) (model : string) : completion :=
  Completion model (Some content) None "stop".

Definition _openai_tool_response (tool_calls : list tool_call) (model : string) : completion :=
  Completion model None (Some (enumerate_calls 0 tool_calls)) "tool_calls".

(** The payloads of the server-sent events. *)
Inductive sse : Type :=
| SseContent (model : string) (role : option string) (content : string)
| SseToolCalls (model : string) (calls : list function_call)
| SseError (message : string)
| SseStop (model : string)
| SseDone.

Definition _stream_content (content : string) (model : string) : list sse :=
  [SseContent model (Some "assistant") content; SseStop model; SseDone].

Definition _stream_tool_calls (tool_calls : list tool_call) (model : string) : list sse :=
  [SseToolCalls model (enumerate_calls 0 tool_calls); SseDone].

Fixpoint content_parts (evs : list ApiClient.event) : list string :=
  match evs with
  | [] => []
  | ApiClient.Content data :: rest => data :: content_parts rest
  | _ :: rest => content_parts rest
  end.

(** [_collect_glm_response]: [backend] is what [client.send_message] yields
    for the request. *)
Definition _collect_glm_response (backend : ApiClient.run) : result string :=
  if ApiClient.raised backend then Raise
  else Ok (strip (String.concat EmptyString (content_parts (ApiClient.events backend)))).

Fixpoint relay (model : string) (sent_role : bool) (evs : list ApiClient.event) : list sse :=
  match evs with
  | [] => []
  | ApiClient.Content data :: rest =>
      SseContent model (if sent_role then None else Some "assistant") data
        :: relay model true rest
  | ApiClient.Error data :: rest => SseError data :: relay model sent_role rest
  | _ :: rest => relay model sent_role rest
  end.

(** [_stream_glm_response]: the chunks sent, and whether the stream was cut
    by an exception of the generator before the closing chunks. *)
Definition _stream_glm_response (backend : ApiClient.run) (model : string) : list sse * bool :=
  if ApiClient.raised backend then (relay model false (ApiClient.events backend), true)
  else ((relay model false (ApiClient.events backend) ++ [SseStop model; SseDone])%list, false).

(** *** The handler [chat_completions] *)

Record tool_def : Type := ToolDef { td_name : string; td_params : list string }.

(** [body.get("tool_choice")]: absent, the string [none], another string,
    or an object naming a function. *)
Inductive choice : Type :=
| ChoiceAbsent
| ChoiceNone
| ChoiceMode (mode : string)
| ChoiceFunction (function_name : option string).

(** The fields of the request body the handler decides on.
    [req_after_tool_result] tells that the last message has the role [tool]
    or [function] or carries a [tool_call_id]; [req_last_user_raw] is the
    content of the last user message, empty when there is none. *)
Record request : Type := Request {
  req_model : option string;
  req_stream : bool;
  req_tools : list tool_def;
  req_tool_choice : choice;
  req_after_tool_result : bool;
  req_last_user_raw : string
}.

Inductive http_response : Type :=
| JSONResponse (body : completion)
| StreamingResponse (chunks : list sse) (cut : bool).

Definition action_keywords : list string :=
  [ "create"; "write"; "edit"; "modify"; "delete"; "remove"; "save"; "file"; "run";
    "execute"; "install"; "search"; "find"; "list"; "open"; "read"; "patch"; "apply";
    "inspect"; "show"; "contents" ].

(** The file-name pattern of the handler: a path character, a dot, one to
    six letters or digits, and a word boundary.  [prev] tells whether the
    character before the head of [s] is a path character. *)
Fixpoint mentions_file_from (prev : bool) (s : string) : bool :=
  match s with
  | EmptyString => false
  | String c rest =>
      (prev && Ascii.eqb c "."
       && (let '(ext, after) := span is_alnum rest in
           Nat.leb 1 (String.length ext) && Nat.leb (String.length ext) 6
           && match after with
              | EmptyString => true
              | String d _ => negb (is_word d)
              end))
      || mentions_file_from (is_path_char c) rest
  end.

Definition is_actionable (last_user last_user_raw : string) : bool :=
  existsb (fun kw => contains kw last_user) action_keywords
  || mentions_file_from false last_user_raw.

Definition build_params (tools : list tool_def) : list (string * list string) :=
  fold_left (fun d t => if is_empty (td_name t) then d else Dict.set (td_name t) (td_params t) d)
            tools [].

Section Handler.

Variable glob_files : string -> option (list string).

(** What becomes of the synthesized call (lines 876-890 and 915-926, the
    same in the streaming and the plain branch): a call that fails
    validation is replaced by the read fallback; a call is emitted only if
    it passes validation; otherwise the listing fallback is tried, for an
    actionable request.  [None] is the fall-through to plain content. *)
Definition settle (extracted : option (list tool_call)) (last_user last_user_raw : string)
    (allowed_tools : list string) (tool_params_by_name : list (string * list string))
    (actionable : bool) : option (list tool_call) :=
  let current :=
    match extracted with
    | Some calls =>
        if negb (_is_valid_write_call last_user calls)
        then _fallback_read_call glob_files last_user_raw allowed_tools tool_params_by_name
        else extracted
    | None => None
    end in
  match (match current with
         | Some calls => if _is_valid_write_call last_user calls then current else None
         | None => None
         end) with
  | Some calls => Some calls
  | None =>
      if actionable then _fallback_tool_call last_user allowed_tools tool_params_by_name
      else None
  end.

(** The structured-parse stage and, when it yields nothing, the partial
    recovery. *)
Definition extract (full_text : string) (allowed_tools : list string)
    (tool_params_by_name : list (string * list string)) : result (option (list tool_call)) :=
  match _extract_tool_call full_text allowed_tools tool_params_by_name with
  | Raise => Raise
  | Ok (Some calls) => Ok (Some calls)
  | Ok None => Ok (_extract_partial_tool_call full_text allowed_tools tool_params_by_name)
  end.

(** The two synthesis stages on the buffered text, then [settle]. *)
Definition synthesize (full_text last_user last_user_raw : string)
    (allowed_tools : list string) (tool_params_by_name : list (string * list string))
    (actionable : bool) : result (option (list tool_call)) :=
  match extract full_text allowed_tools tool_params_by_name with
  | Raise => Raise
  | Ok extracted =>
      Ok (settle extracted last_user last_user_raw allowed_tools tool_params_by_name actionable)
  end.

Definition retry_hint : string := "Unable to generate tool call. Please retry.".

Definition respond_calls (stream : bool) (model : string) (calls : list tool_call)
  : http_response :=
  if stream then StreamingResponse (_stream_tool_calls calls model) false
  else JSONResponse (_openai_tool_response calls model).

(** The end of the tool branch: the settled call, or the buffered text as
    plain content (with the retry hint in its place when a streamed text is
    empty). *)
Definition respond_settled (stream : bool) (model full_text : string)
    (settled : option (list tool_call)) : http_response :=
  match settled with
  | Some calls => respond_calls stream model calls
  | None =>
      if stream then
        StreamingResponse
          (_stream_content (if is_empty full_text then retry_hint else full_text) model) false
      else JSONResponse (_openai_response full_text model)
  end.

Definition request_model (req : request) : string :=
  match req_model req with
  | Some m => if is_empty m then "glm-4.7" else m
  | None => "glm-4.7"
  end.

(** The tools left after [tool_choice = none] and after a tool result. *)
Definition request_tools (req : request) : list tool_def :=
  if req_after_tool_result req then []
  else match req_tool_choice req with
       | ChoiceNone => []
       | _ => req_tools req
       end.

Definition request_allowed_tools (req : request) : list string :=
  let allowed_tools := map td_name (request_tools req) in
  match (if req_after_tool_result req then ChoiceNone else req_tool_choice req) with
  | ChoiceFunction (Some forced) =>
      if negb (is_empty forced) && mem forced allowed_tools then [forced] else allowed_tools
  | _ => allowed_tools
  end.

Definition request_params (req : request) : list (string * list string) :=
  build_params (request_tools req).

Definition request_actionable (req : request) : bool :=
  is_actionable (lower (req_last_user_raw req)) (req_last_user_raw req).

(** The short circuit taken before the backend is called. *)
Definition shortcut (req : request) : option (list tool_call) :=
  match request_tools req with
  | [] => None
  | _ =>
      match _fallback_read_call glob_files (req_last_user_raw req)
              (request_allowed_tools req) (request_params req) with
      | Some fallback => Some fallback
      | None =>
          if request_actionable req
          then _fallback_tool_call (lower (req_last_user_raw req))
                 (request_allowed_tools req) (request_params req)
          else None
      end
  end.

Definition chat_completions (req : request) (backend : ApiClient.run) : result http_response :=
  let model := request_model req in
  let stream := req_stream req in
  match shortcut req with
  | Some fallback => Ok (respond_calls stream model fallback)
  | None =>
      match request_tools req with
      | _ :: _ =>
          match _collect_glm_response backend with
          | Raise => Raise
          | Ok full_text =>
              match synthesize full_text (lower (req_last_user_raw req))
                      (req_last_user_raw req) (request_allowed_tools req)
                      (request_params req) (request_actionable req) with
              | Raise => Raise
              | Ok settled => Ok (respond_settled stream model full_text settled)
              end
          end
      | [] =>
          if stream then
            let '(chunks, cut) := _stream_glm_response backend model in
            Ok (StreamingResponse chunks cut)
          else
            match _collect_glm_response backend with
            | Raise => Raise
            | Ok full_text => Ok (JSONResponse (_openai_response full_text model))
            end
      end
  end.

End Handler.

End Server.

(** ** The shapes the specification speaks of *)

Module ServerSpec.
Import Json Server.

(** A write or edit call with a missing or empty content argument, or with
    no path-like key. *)
Definition unfit_write (c : tool_call) : Prop :=
  (name c = "write" \/ name c = "edit")
  /\ (Dict.get "content" (arguments c) = None
      \/ Dict.get "content" (arguments c) = Some (JStr EmptyString)
      \/ (forall k, In k path_keys -> Dict.has k (arguments c) = false)).

(** The content of the assistant message is missing or blank. *)
Definition empty_content (r : http_response) : Prop :=
  match r with
  | JSONResponse body => c_content body = Some EmptyString /\ c_tool_calls body = None
  | StreamingResponse _ _ => False
  end.

End ServerSpec.

(** ** Sample inputs *)

Module Samples.

Definition sample_tool_text : string :=
  PyStr.q "{'tool':'writeFile','arguments':{'filepath':'a.txt','content':'hi'}}".

(** A working tree in which no file matches. *)
Definition empty_tree : string -> option (list string) := fun _ => Some [].

Definition plain_request : Server.request :=
  Server.Request (Some "glm-4.7") false [] Server.ChoiceAbsent false "hello".

Definition streamed_request : Server.request :=
  Server.Request (Some "glm-4.7") true [] Server.ChoiceAbsent false "hello".

Definition tools_request : Server.request :=
  Server.Request (Some "glm-4.7") false
    [Server.ToolDef "write" ["path"; "content"]; Server.ToolDef "bash" ["command"]]
    Server.ChoiceAbsent false "hello".

(** The backend call fails at once with a connection error. *)
Definition failed_backend : ApiClient.run :=
  ApiClient.send_message [] (Some "connection refused").

End Samples.

(** ** Observations on responses and event streams *)

Module Observe.
Import PyStr Json Server.

(** The response hands tool calls to the client. *)
Definition carries_tool_calls (r : http_response) : bool :=
  match r with
  | JSONResponse body =>
      match c_tool_calls body with Some _ => true | None => false end
  | StreamingResponse chunks _ =>
      existsb (fun c => match c with SseToolCalls _ _ => true | _ => false end) chunks
  end.

(** The text and the roles of the content chunks of a stream, in order. *)
Fixpoint sse_texts (chunks : list sse) : list string :=
  match chunks with
  | [] => []
  | SseContent _ _ content :: rest => content :: sse_texts rest
  | _ :: rest => sse_texts rest
  end.

Fixpoint sse_roles (chunks : list sse) : list (option string) :=
  match chunks with
  | [] => []
  | SseContent _ role _ :: rest => role :: sse_roles rest
  | _ :: rest => sse_roles rest
  end.

Definition is_error (e : ApiClient.event) : bool :=
  match e with ApiClient.Error _ => true | _ => false end.

(** A text event carries text. *)
Definition text_not_empty (e : ApiClient.event) : bool :=
  match e with
  | ApiClient.Thinking data | ApiClient.Content data => negb (is_empty data)
  | _ => true
  end.

(** Reads an event sequence with the thinking region in mind: [open] tells
    whether the last Thinking event has had no ThinkingEnd after it.  The
    result is [None] when a Content event arrives inside an open region, and
    the final value of [open] otherwise. *)
Fixpoint track (open : bool) (evs : list ApiClient.event) : option bool :=
  match evs with
  | [] => Some open
  | ApiClient.Thinking _ :: rest => track true rest
  | ApiClient.ThinkingEnd :: rest => track false rest
  | ApiClient.Content _ :: rest => if open then None else track false rest
  | _ :: rest => track open rest
  end.

(** The loop of [send_message] passes over the line without an event and
    without a change of state: it is empty, or has no [data: ] prefix, or
    its payload is neither the sentinel nor decodable JSON. *)
Definition skipped (line : string) : bool :=
  is_empty line
  || negb (startswith line "data: ")
  || (negb (String.eqb (drop 6 line) "[DONE]")
      && match loads (drop 6 line) with None => true | Some _ => false end).

(** [tool] answers to the name [target]: their folded names agree, or the
    synonym table sends the folded name of [tool] to that of [target]. *)
Definition answers_to (target tool : string) : bool :=
  String.eqb (_normalize_tool_name tool) (_normalize_tool_name target)
  || match Dict.get (_normalize_tool_name tool) _TOOL_NAME_SYNONYMS with
     | Some syn => String.eqb syn (_normalize_tool_name target)
     | None => false
     end.

(** [s] holds no comma, as a UUID or a decimal number does. *)
Fixpoint comma_free (s : string) : bool :=
  match s with
  | EmptyString => true
  | String c rest => negb (Ascii.eqb c ",") && comma_free rest
  end.

(** The tool calls a response hands to the client, in order. *)
Definition tool_calls_of (r : http_response) : list function_call :=
  match r with
  | JSONResponse body =>
      match c_tool_calls body with Some calls => calls | None => [] end
  | StreamingResponse chunks _ =>
      flat_map (fun c => match c with SseToolCalls _ calls => calls | _ => [] end) chunks
  end.

(** [track] accepts [evs] from [open], and leaves a region open only if the
    demultiplexer, when it goes on in state [after], is in the thinking
    state. *)
Definition tracked (open : bool) (evs : list ApiClient.event) (after : option bool) : Prop :=
  match track open evs with
  | Some open' =>
      match after with
      | Some in_thinking => implb open' in_thinking = true
      | None => True
      end
  | None => False
  end.

Definition state_after (c : ApiClient.control) : option bool :=
  match c with
  | ApiClient.Next in_thinking => Some in_thinking
  | _ => None
  end.

Definition state_at_end (e : ApiClient.ending) : option bool :=
  match e with
  | ApiClient.Exhausted in_thinking => Some in_thinking
  | _ => None
  end.

End Observe.


(** ** [glm_cli/models.py]: messages *)

Module Models.
Import PyStr Json.
Local Open Scope Z_scope.

Record Message : Type := MkMessage {
  role : string;
  content : string;
  id : string;
  parent_id : option string;
  timestamp : option Z;
  models : list string
}.

Definition to_api_format (self : Message) : dict :=
  [ ("role", JStr (role self)); ("content", JStr (content self)) ].

(** [now] is what [int(datetime.now().timestamp())] reads; it is used when
    the message has no timestamp, or the timestamp 0. *)
Definition to_history_format (now : Z) (self : Message) : dict :=
  [ ("id", JStr (id self));
    ("parentId", match parent_id self with Some p => JStr p | None => JNull end);
    ("childrenIds", JArr []);
    ("role", JStr (role self));
    ("content", JStr (content self));
    ("timestamp", JInt (match timestamp self with
                        | Some t => if t =? 0 then now else t
                        | None => now
                        end));
    ("models", JArr (map JStr (models self))) ].

End Models.

(** ** [glm_cli/jwt_utils.py] *)

Module JwtUtils.
Import PyStr Json.

(** [s * n] *)
Fixpoint times (s : string) (n : nat) : string :=
  match n with
  | O => EmptyString
  | S k => (s ++ times s k)%string
  end.

Section Decoding.

(** What [json.loads] reads from the bytes that [base64.urlsafe_b64decode]
    returns for its argument: the text of those bytes, or [None] when the
    decoder, or the decoding of the bytes as text, raises. *)
Variable decoded_text : string -> option string.

(** Python's [None] is [JNull]. *)
Definition decode_jwt_payload (token : string) : value :=
  match nth_error (split "." token) 1 with
  | None => JNull
  | Some payload_part =>
      let payload_part :=
        (payload_part ++ times "=" (4 - Nat.modulo (py_len payload_part) 4))%string in
      match decoded_text payload_part with
      | None => JNull
      | Some text =>
          match loads text with
          | Some payload => payload
          | None => JNull
          end
      end
  end.

Definition get_user_id_from_token (token : string) : string :=
  match decode_jwt_payload token with
  | JObj payload =>
      match get_none "id" payload with
      | JStr user_id => user_id
      | _ => EmptyString
      end
  | _ => EmptyString
  end.

End Decoding.

End JwtUtils.

(** ** [glm_cli/api_client.py]: what [GLMClient] sends *)

Module Client.
Import PyStr Json.
Local Open Scope Z_scope.

Definition USER_AGENT : string :=
  "Mozilla/5.0 (X11; Linux x86_64) AppleWebKit/537.36 (KHTML, like Gecko) Chrome/144.0.0.0 Safari/537.36".

(** [get_signature_sync] of [signature_helper.py].  With a prompt and a
    user id that are [str], [generate_request_params] does not raise, and
    the failure record of the [except] branch is never built. *)
Definition get_signature_sync (now_ms : Z) (fresh_uuid : string) (prompt user_id : string)
  : Signature.request_params :=
  Signature.generate_request_params now_ms fresh_uuid prompt user_id None None.

Definition _generate_signature_browser (now_ms : Z) (fresh_uuid : string)
    (prompt user_id : string) : Signature.request_params :=
  get_signature_sync now_ms fresh_uuid prompt user_id.

(** The wall clock as [_build_completion_params] reads it: the offset of
    the local time zone in minutes, negated, and the UTC time in ISO format
    with milliseconds and in the HTTP date format. *)
Record wall_clock : Type := WallClock {
  tz_offset_min : Z;
  utc_iso : string;
  utc_http : string
}.

Definition _build_completion_params (token : string) (clock : wall_clock)
    (chat_id : string) (timestamp : Z) (request_id user_id : string)
  : list (string * string) :=
  let params := [
    ("timestamp", str_of_int timestamp);
    ("requestId", request_id);
    ("user_id", user_id);
    ("version", "0.0.1");
    ("platform", "web");
    ("token", token);
    ("user_agent", USER_AGENT);
    ("language", "en-US");
    ("languages", "en-US,en");
    ("timezone", "UTC");
    ("cookie_enabled", "true");
    ("screen_width", "1920");
    ("screen_height", "1080");
    ("screen_resolution", "1920x1080");
    ("viewport_height", "927");
    ("viewport_width", "1047");
    ("viewport_size", "1047x927");
    ("color_depth", "24");
    ("pixel_ratio", "1");
    ("current_url", "https://chat.z.ai/c/" ++ chat_id);
    ("pathname", "/c/" ++ chat_id);
    ("search", "");
    ("hash", "");
    ("host", "chat.z.ai");
    ("hostname", "chat.z.ai");
    ("protocol", "https:");
    ("referrer", "https://chat.z.ai/");
    ("title", "Z.ai Chat - Free AI powered by GLM-4.7 & GLM-4.6");
    ("timezone_offset", str_of_int (tz_offset_min clock));
    ("local_time", utc_iso clock ++ "Z");
    ("utc_time", utc_http clock);
    ("is_mobile", "false");
    ("is_touch", "false");
    ("max_touch_points", "0");
    ("browser_name", "Chrome");
    ("os_name", "Linux")
  ]%string in
  Dict.set "signature_timestamp" (str_of_int timestamp) params.

(** The arguments of [send_message] that decide on the signature. *)
Record signing_options : Type := SigningOptions {
  manual_signature : option string;
  manual_timestamp : option Z;
  manual_request_id : option string;
  use_browser_signature : bool
}.

(** The signature, the timestamp and the request id that [send_message]
    settles on (lines 255-272); [None] is the exception raised when the
    helper reports no success. *)
Definition choose_signature (now_ms : Z) (fresh_uuid : string) (opts : signing_options)
    (prompt user_id : string) : option (string * Z * string) :=
  let generated :=
    if use_browser_signature opts then
      let sig_data := _generate_signature_browser now_ms fresh_uuid prompt user_id in
      if negb (Signature.rp_success sig_data) then None
      else Some (Signature.rp_signature sig_data, Signature.rp_timestamp sig_data,
                 Signature.rp_request_id sig_data)
    else
      Some (Signature._generate_signature now_ms prompt fresh_uuid user_id,
            now_ms, fresh_uuid) in
  match manual_signature opts with
  | Some signature =>
      if is_empty signature then generated
      else
        let timestamp :=
          match manual_timestamp opts with
          | Some t => if t =? 0 then now_ms else t
          | None => now_ms
          end in
        let request_id :=
          match manual_request_id opts with
          | Some r => if is_empty r then fresh_uuid else r
          | None => fresh_uuid
          end in
        Some (signature, timestamp, request_id)
  | None => generated
  end.

(** What of the outgoing request the signature speaks of: the query
    parameters, the [X-Signature] header and the [signature_prompt] of the
    body. *)
Record signed_request : Type := SignedRequest {
  url_params : list (string * string);
  x_signature : string;
  signature_prompt : string
}.

Section Sending.

Variable decoded_text : string -> option string.
Variable token : string.

(** [messages[-1]["content"] if messages else ""]; [None] is the
    [KeyError] of a last message without content. *)
Definition last_prompt (messages : list (list (string * string))) : option string :=
  match messages with
  | [] => Some EmptyString
  | _ => Dict.get "content" (last messages [])
  end.

(** [send_message] up to the request it posts. *)
Definition send_message_request (now_ms : Z) (fresh_uuid : string) (clock : wall_clock)
    (chat_id : string) (messages : list (list (string * string))) (opts : signing_options)
  : option signed_request :=
  match last_prompt messages with
  | None => None
  | Some prompt =>
      let user_id := JwtUtils.get_user_id_from_token decoded_text token in
      match choose_signature now_ms fresh_uuid opts prompt user_id with
      | None => None
      | Some (signature, timestamp, request_id) =>
          Some (SignedRequest
                  (_build_completion_params token clock chat_id timestamp request_id user_id)
                  signature prompt)
      end
  end.

End Sending.

(** *** [_history_to_messages] *)

(** A walk that has not ended when the steps allowed for it are used up is
    [Unfinished]. *)
Inductive outcome (A : Type) : Type :=
| Returned (a : A)
| Raised
| Unfinished.

Arguments Returned {A} a.
Arguments Raised {A}.
Arguments Unfinished {A}.

(** The arguments of the model are [history.get("messages", {})], for a
    history in which it is an object (as [create_chat] writes it and
    [Message.to_history_format] fills it), and [history.get("currentId")].

    [walk] is the loop over [cursor]; the identifiers are collected in the
    order of the visits.  A cursor that is a list or an object cannot be
    looked up in a dict ([TypeError]); a message that is no object has no
    [get] ([AttributeError]). *)
Fixpoint walk (fuel : nat) (messages_map : dict) (cursor : value) : outcome (list string) :=
  match fuel with
  | O => Unfinished
  | S fuel =>
      if negb (truthy cursor) then Returned []
      else
        match cursor with
        | JStr cursor_id =>
            match Dict.get cursor_id messages_map with
            | None => Returned []
            | Some (JObj msg) =>
                match walk fuel messages_map (get_none "parentId" msg) with
                | Returned chain_ids => Returned (cursor_id :: chain_ids)
                | Raised => Raised
                | Unfinished => Unfinished
                end
            | Some _ => Raised
            end
        | JArr _ | JObj _ => Raised
        | _ => Returned []
        end
  end.

(** The messages of the chain, for the identifiers that [walk] collected. *)
Fixpoint collect (messages_map : dict) (ordered : list string) : list dict :=
  match ordered with
  | [] => []
  | msg_id :: rest =>
      match Dict.get msg_id messages_map with
      | Some (JObj msg) =>
          let role := get_none "role" msg in
          let content := Dict.get_default "content" (JStr EmptyString) msg in
          if truthy role && negb (match content with JNull => true | _ => false end)
          then [ ("role", role); ("content", content) ] :: collect messages_map rest
          else collect messages_map rest
      | _ => collect messages_map rest
      end
  end.

(** The result is the pair of [messages] and [current_id]. *)
Definition _history_to_messages (fuel : nat) (messages_map : dict) (current_id : value)
  : outcome (list dict * value) :=
  match walk fuel messages_map current_id with
  | Returned [] => Returned ([], JNull)
  | Returned chain_ids => Returned (collect messages_map (rev chain_ids), current_id)
  | Raised => Raised
  | Unfinished => Unfinished
  end.

End Client.

(** ** [glm_proxy/server.py]: the messages sent to the backend *)

Module Messages.
Import PyStr Json.

Section Formatting.

(** [json.dumps(v, ensure_ascii=False)], and [str(v)] for the values whose
    text is not fixed below (floats, lists and dicts). *)
Variable dumps : value -> string.
Variable py_repr : value -> string.








End Formatting.

End Messages.

(** ** Conversations as [create_chat] and [Message] store them *)

Module Histories.
Import PyStr Json Models.

(** Each message answers the one before it; the first answers [parent]. *)
Fixpoint threaded (parent : option string) (conversation : list Message) : Prop :=
  match conversation with
  | [] => True
  | m :: rest => parent_id m = parent /\ threaded (Some (id m)) rest
  end.

(** [history["messages"][m.id] = m.to_history_format()] for every message,
    in order. *)
Definition history_map (now : Z) (conversation : list Message) : dict :=
  fold_left (fun d m => Dict.set (id m) (JObj (to_history_format now m)) d) conversation [].

End Histories.
(** * Properties *)

(** ** Known-answer tests of the hashing primitives *)

Example sha256_abc :
  Sha256.hex (Sha256.sha256 (PyStr.encode_utf8 "abc"))
  = "ba7816bf8f01cfea414140de5dae2223b00361a396177a9cb410ff61f20015ad".
Proof. vm_compute. reflexivity. Qed.

Example sha256_empty :
  Sha256.hex (Sha256.sha256 [])
  = "e3b0c44298fc1c149afbf4c8996fb92427ae41e4649b934ca495991b7852b855".
Proof. vm_compute. reflexivity. Qed.

Example hmac_rfc4231_case2 :
  Sha256.hex (Sha256.hmac_sha256 (PyStr.encode_utf8 "Jefe")
                (PyStr.encode_utf8 "what do ya want for nothing?"))
  = "5bdcc146bf60754e6a042426089575c75a003f089d2739839dec58b964ec3843".
Proof. vm_compute. reflexivity. Qed.

Example b64_vectors :
  Base64.b64encode (PyStr.encode_utf8 "hello") = "aGVsbG8="
  /\ Base64.b64encode (PyStr.encode_utf8 "foobar") = "Zm9vYmFy"
  /\ Base64.b64encode (PyStr.encode_utf8 "f") = "Zg==".
Proof. vm_compute. repeat split. Qed.

Example payload_example :
  Signature.build_sorted_payload 1700000000000 "r1" "u1"
  = "requestId,r1,timestamp,1700000000000,user_id,u1".
Proof. vm_compute. reflexivity. Qed.

(** ** Request signing *)

Lemma build_sorted_payload_eq (ts : Z) (rid uid : string) :
  Signature.build_sorted_payload ts rid uid
  = ("requestId," ++ rid ++ ",timestamp," ++ PyStr.str_of_int ts ++ ",user_id," ++ uid)%string.
Proof. reflexivity. Qed.

Lemma build_sorted_payload_canonical (ts : Z) (rid uid : string) :
  SignatureSpec.canonical_payload ts rid uid (Signature.build_sorted_payload ts rid uid).
Proof.
  exists [ ("requestId", rid); ("timestamp", PyStr.str_of_int ts); ("user_id", uid) ].
  split; [| split].
  - unfold SignatureSpec.entries. apply perm_swap.
  - repeat constructor.
  - reflexivity.
Qed.

(** C1. For every prompt, user id, millisecond timestamp and request id the
    signer returns hex(HMAC-SHA256(subkey, signingInput)), where the
    canonical payload is the three entries sorted by key name in ASCII order,
    flattened and joined by commas, the subkey is
    hex(HMAC-SHA256(staticKey, str(floor(ts / 300000)))) and the signing
    input is payload | base64(utf8(prompt)) | ts.  The result does not depend
    on the clock or on the UUID generator, so it is reproduced byte for byte
    on every invocation; the helper used by the client computes the same
    value. *)
Theorem C1_signature_is_specified_hmac :
  forall (p uid : string) (ts : Z) (rid : string),
  exists payload,
    SignatureSpec.canonical_payload ts rid uid payload
    /\ (forall now uuid,
          Signature.rp_signature
            (Signature.generate_request_params now uuid p uid (Some ts) (Some rid))
          = SignatureSpec.signature payload p ts)
    /\ (forall now uuid,
          Signature.rp_sorted_payload
            (Signature.generate_request_params now uuid p uid (Some ts) (Some rid))
          = payload)
    /\ Signature._generate_signature ts p rid uid = SignatureSpec.signature payload p ts.
Proof.
  intros p uid ts rid.
  exists (Signature.build_sorted_payload ts rid uid).
  split; [apply build_sorted_payload_canonical |].
  repeat split; intros; reflexivity.
Qed.

(** The signature of the specification's sample request, computed. *)
Example signature_sample :
  Signature.rp_signature
    (Signature.generate_request_params 0 "" "hello" "u1" (Some 1700000000000%Z) (Some "r1"))
  = "19e013c5dcd3ddbc7566cbb8bb2ebb64641ffc2b2ca9ea1bad6af5436b2eb65c".
Proof. vm_compute. reflexivity. Qed.

(** The canonical payload is unique: any arrangement of the three entries
    that is sorted by key name is the one the code builds. *)
Lemma key_lt_asym (a b : string * string) :
  SignatureSpec.key_lt a b -> SignatureSpec.key_lt b a -> False.
Proof.
  unfold SignatureSpec.key_lt, String.ltb. intros Hab Hba.
  rewrite String.compare_antisym in Hba.
  destruct (String.compare (fst a) (fst b)); simpl in *; discriminate.
Qed.

Lemma sorted_permutation_unique (l1 l2 : list (string * string)) :
  StronglySorted SignatureSpec.key_lt l1 ->
  StronglySorted SignatureSpec.key_lt l2 ->
  Permutation l1 l2 -> l1 = l2.
Proof.
  revert l2. induction l1 as [| x l1 IH]; intros l2 S1 S2 P.
  - apply Permutation_nil in P. now subst.
  - destruct l2 as [| y l2].
    + apply Permutation_sym, Permutation_nil in P. discriminate.
    + inversion S1 as [| ? ? S1' F1]; subst.
      inversion S2 as [| ? ? S2' F2]; subst.
      assert (Hx : In x (y :: l2)) by (eapply Permutation_in; [exact P | now left]).
      assert (Hy : In y (x :: l1))
        by (eapply Permutation_in; [apply Permutation_sym; exact P | now left]).
      assert (E : x = y).
      { destruct Hx as [-> | Hx]; [reflexivity |].
        destruct Hy as [-> | Hy]; [reflexivity |].
        rewrite Forall_forall in F1, F2.
        exfalso. exact (key_lt_asym x y (F1 _ Hy) (F2 _ Hx)). }
      subst y. f_equal. apply IH; auto.
      eapply Permutation_cons_inv; exact P.
Qed.

Lemma canonical_payload_unique (ts : Z) (rid uid payload : string) :
  SignatureSpec.canonical_payload ts rid uid payload ->
  payload = Signature.build_sorted_payload ts rid uid.
Proof.
  intros (o1 & P1 & S1 & ->).
  destruct (build_sorted_payload_canonical ts rid uid) as (o2 & P2 & S2 & ->).
  f_equal. f_equal. apply sorted_permutation_unique; auto.
  eapply Permutation_trans; [exact P1 | apply Permutation_sym; exact P2].
Qed.

(** ** Time windows *)

Lemma str_of_int_inj (a b : Z) : PyStr.str_of_int a = PyStr.str_of_int b -> a = b.
Proof.
  unfold PyStr.str_of_int. intros E.
  assert (N : forall z, Z.to_int z <> Decimal.Pos Decimal.Nil
                        /\ Z.to_int z <> Decimal.Neg Decimal.Nil).
  { intros [| p | p]; simpl; split; try discriminate;
      intros [= H]; exact (DecimalPos.Unsigned.to_uint_nonnil p H). }
  apply DecimalZ.to_int_inj.
  assert (S : Some (Z.to_int a) = Some (Z.to_int b)).
  { rewrite <- (NilZero.isi (Z.to_int a)) by apply N.
    rewrite <- (NilZero.isi (Z.to_int b)) by apply N.
    now rewrite E. }
  now injection S.
Qed.

Lemma append_same_length_prefix (s1 s2 r1 r2 : string) :
  (s1 ++ r1 = s2 ++ r2)%string -> String.length s1 = String.length s2 -> s1 = s2.
Proof.
  revert s2. induction s1 as [| c s1 IH]; intros [| d s2] E L; simpl in *;
    try discriminate; [reflexivity |].
  injection E as -> E. f_equal. apply IH; [exact E | now injection L].
Qed.

Lemma append_cancel_l (p a b : string) : (p ++ a = p ++ b)%string -> a = b.
Proof. induction p as [| c p IH]; simpl; [auto | intros [= E]; auto]. Qed.

Lemma append_assoc (a b c : string) : ((a ++ b) ++ c = a ++ (b ++ c))%string.
Proof. induction a as [| x a IH]; simpl; [reflexivity | now rewrite IH]. Qed.

Lemma length_append (a b : string) :
  String.length (a ++ b) = String.length a + String.length b.
Proof. induction a as [| c a IH]; simpl; [reflexivity | now rewrite IH]. Qed.

(** Two timestamps of one 300000 ms window derive the same subkey. *)
Lemma subkey_same_window (t1 t2 : Z) :
  (t1 / 300000 = t2 / 300000)%Z -> SignatureSpec.subkey t1 = SignatureSpec.subkey t2.
Proof. unfold SignatureSpec.subkey. now intros ->. Qed.

(** The signing input embeds the exact timestamp: distinct timestamps give
    distinct signing inputs, whatever the other fields. *)
Lemma signing_input_embeds_timestamp (t1 t2 : Z) (rid uid p : string) :
  t1 <> t2 ->
  SignatureSpec.signing_input (Signature.build_sorted_payload t1 rid uid) p t1
  <> SignatureSpec.signing_input (Signature.build_sorted_payload t2 rid uid) p t2.
Proof.
  intros Hne E. apply Hne, str_of_int_inj.
  unfold SignatureSpec.signing_input in E.
  rewrite !build_sorted_payload_eq in E.
  set (s1 := PyStr.str_of_int t1) in *. set (s2 := PyStr.str_of_int t2) in *.
  rewrite !append_assoc in E.
  do 3 apply append_cancel_l in E.
  apply (append_same_length_prefix _ _ _ _ E).
  apply (f_equal String.length) in E.
  rewrite !length_append in E. lia.
Qed.

(** What is left open is a property of the hash alone: two timestamps of
    one window with equal signatures would be two distinct messages with the
    same HMAC-SHA256 under the same key. *)
Lemma equal_signatures_are_collisions (t1 t2 : Z) (rid uid p : string) :
  (t1 / 300000 = t2 / 300000)%Z ->
  t1 <> t2 ->
  Signature._generate_signature t1 p rid uid = Signature._generate_signature t2 p rid uid ->
  exists key m1 m2,
    m1 <> m2 /\ Signature._hmac_sha256_hex key m1 = Signature._hmac_sha256_hex key m2.
Proof.
  intros W Hne E.
  exists (SignatureSpec.subkey t1),
    (SignatureSpec.signing_input (Signature.build_sorted_payload t1 rid uid) p t1),
    (SignatureSpec.signing_input (Signature.build_sorted_payload t2 rid uid) p t2).
  split; [now apply signing_input_embeds_timestamp |].
  rewrite (subkey_same_window t1 t2 W) at 2. exact E.
Qed.

(** The two signatures of the sample request one millisecond apart, in the
    same window: one subkey, two signatures. *)
Example sample_window_signatures :
  (1700000000000 / 300000 = 1700000000001 / 300000)%Z
  /\ Signature._generate_signature 1700000000000 "hello" "r1" "u1"
     = "19e013c5dcd3ddbc7566cbb8bb2ebb64641ffc2b2ca9ea1bad6af5436b2eb65c"
  /\ Signature._generate_signature 1700000000001 "hello" "r1" "u1"
     = "c80efcff8b16cfed5f8251c93720c4552ad381e289e39dd1c58d78ea884389a6".
Proof. vm_compute. repeat split. Qed.

(** ** The JSON decoder on sample texts *)

Example loads_tool_object :
  Json.loads (PyStr.q "{'tool':'writeFile','arguments':{'filepath':'a.txt','content':'hi'}}")
  = Some (Json.JObj [ ("tool", Json.JStr "writeFile");
                      ("arguments", Json.JObj [ ("filepath", Json.JStr "a.txt");
                                                ("content", Json.JStr "hi") ]) ]).
Proof. vm_compute. reflexivity. Qed.

Example loads_misc :
  Json.loads (PyStr.q " [1, -20, 2.5e3, true, null, {'a': [], 'a': 'x\nA'}] ")
  = Some (Json.JArr [ Json.JInt 1; Json.JInt (-20); Json.JFloat "2.5e3"; Json.JBool true;
                      Json.JNull;
                      Json.JObj [ ("a", Json.JStr (String "x" (String PyStr.newline "A"))) ] ])
  /\ Json.loads "[1,]" = None
  /\ Json.loads "{" = None
  /\ Json.loads "01" = None
  /\ Json.loads "[DONE" = None.
Proof. vm_compute. repeat split. Qed.

(** ** Stream demultiplexing *)

(** C3. The single [choices] fragment whose [delta.content] is
    [<think>abc</think>xyz] yields exactly Thinking("abc"), ThinkingEnd,
    Content("xyz"): the opening marker is found and stripped, the text
    before the closing marker is emitted as thinking, the region is closed,
    the remainder is emitted as content, and the demultiplexer is left in
    the answer state. *)
Theorem C3_think_fragment_events :
  ApiClient.search_think "<think>abc</think>xyz" = Some "<think>"
  /\ ApiClient.process_choice false
       (Json.JObj [ ("delta", Json.JObj [ ("content", Json.JStr "<think>abc</think>xyz") ]) ])
     = ([ApiClient.Thinking "abc"; ApiClient.ThinkingEnd; ApiClient.Content "xyz"],
        ApiClient.Next false)
  /\ ApiClient.send_message
       [ PyStr.q "data: {'choices':[{'delta':{'content':'<think>abc</think>xyz'}}]}" ] None
     = ApiClient.Run
         [ApiClient.Thinking "abc"; ApiClient.ThinkingEnd; ApiClient.Content "xyz"] false.
Proof. vm_compute. repeat split. Qed.

(** The same in general: a thinking text [a] and an answer text [b] that
    hold no [<], wrapped as [<think>a</think>b], come out as Thinking(a),
    ThinkingEnd, Content(b), an empty text giving no event, whatever the
    state before. *)
Lemma append_nil_r (s : string) : (s ++ "")%string = s.
Proof. induction s as [| c s IH]; simpl; [reflexivity | now rewrite IH]. Qed.

Lemma rev_string_twice (s acc acc' : string) :
  PyStr.rev_string acc' (PyStr.rev_string acc s) = PyStr.rev_string (s ++ acc') acc.
Proof.
  revert acc acc'. induction s as [| c s IH]; intros acc acc'; simpl; [reflexivity |].
  now rewrite IH.
Qed.

Lemma rev_string_involutive (s : string) :
  PyStr.rev_string "" (PyStr.rev_string "" s) = s.
Proof. rewrite rev_string_twice. simpl. apply append_nil_r. Qed.

Lemma prefix_lt_head (p : string) (d : ascii) (t : string) :
  Ascii.eqb d "<" = false -> PyStr.is_prefix (String "<" p) (String d t) = false.
Proof. intros H. cbn [PyStr.is_prefix]. rewrite Ascii.eqb_sym. now rewrite H. Qed.

Lemma replace_aux_free (p new a t : string) :
  DemuxSpec.free_of "<" a = true ->
  PyStr.replace_aux (String "<" p) new 0 (a ++ t)
  = (a ++ PyStr.replace_aux (String "<" p) new 0 t)%string.
Proof.
  induction a as [| d a IH]; intros F; [reflexivity |].
  simpl in F. apply andb_prop in F. destruct F as [Fd Fa].
  apply negb_true_iff in Fd.
  change ((String d a ++ t)%string) with (String d (a ++ t)).
  cbn [PyStr.replace_aux]. rewrite (prefix_lt_head p d (a ++ t) Fd).
  rewrite (IH Fa). reflexivity.
Qed.

Lemma contains_after_free (p a t : string) :
  PyStr.is_prefix p t = true -> PyStr.contains p (a ++ t) = true.
Proof.
  intros H. induction a as [| d a IH].
  - change (("" ++ t)%string) with t.
    destruct t; cbn [PyStr.contains]; rewrite H; reflexivity.
  - change ((String d a ++ t)%string) with (String d (a ++ t)).
    cbn [PyStr.contains]. rewrite IH. now destruct (PyStr.is_prefix p (String d (a ++ t))).
Qed.

Lemma split_aux_free (p cur a t : string) :
  DemuxSpec.free_of "<" a = true ->
  PyStr.split_aux (String "<" p) 0 cur (a ++ t)
  = PyStr.split_aux (String "<" p) 0 (PyStr.rev_string cur a) t.
Proof.
  revert cur. induction a as [| d a IH]; intros cur F; [reflexivity |].
  simpl in F. apply andb_prop in F. destruct F as [Fd Fa].
  apply negb_true_iff in Fd.
  change ((String d a ++ t)%string) with (String d (a ++ t)).
  cbn [PyStr.split_aux]. rewrite (prefix_lt_head p d (a ++ t) Fd).
  rewrite (IH _ Fa). reflexivity.
Qed.

Lemma replace_aux_free_all (p new a : string) :
  DemuxSpec.free_of "<" a = true -> PyStr.replace_aux (String "<" p) new 0 a = a.
Proof.
  intros F. rewrite <- (append_nil_r a) at 1.
  rewrite (replace_aux_free p new a "" F). apply append_nil_r.
Qed.

Lemma split_aux_free_all (p cur a : string) :
  DemuxSpec.free_of "<" a = true ->
  PyStr.split_aux (String "<" p) 0 cur a = [PyStr.rev_string "" (PyStr.rev_string cur a)].
Proof.
  intros F. rewrite <- (append_nil_r a) at 1.
  rewrite (split_aux_free p cur a "" F). reflexivity.
Qed.

Lemma think_region_fragment (st : bool) (a b : string) :
  DemuxSpec.free_of "<" a = true ->
  DemuxSpec.free_of "<" b = true ->
  ApiClient.process_choice st
    (Json.JObj [ ("delta", Json.JObj [ ("content", Json.JStr ("<think>" ++ a ++ "</think>" ++ b)) ]) ])
  = ((if PyStr.is_empty a then [] else [ApiClient.Thinking a])
       ++ ApiClient.ThinkingEnd
       :: (if PyStr.is_empty b then [] else [ApiClient.Content b]),
     ApiClient.Next false)%list.
Proof.
  intros Fa Fb.
  assert (R : PyStr.replace "<think>" "" ("<think>" ++ a ++ "</think>" ++ b)
              = (a ++ "</think>" ++ b)%string).
  { change (PyStr.replace "<think>" "" ("<think>" ++ a ++ "</think>" ++ b))
      with (PyStr.replace_aux "<think>" "" 0 (a ++ "</think>" ++ b)).
    rewrite (replace_aux_free "think>" "" a _ Fa).
    change (PyStr.replace_aux "<think>" "" 0 ("</think>" ++ b))
      with ("</think>" ++ PyStr.replace_aux "<think>" "" 0 b)%string.
    now rewrite (replace_aux_free_all "think>" "" b Fb). }
  assert (C : PyStr.contains "</think>" (a ++ "</think>" ++ b) = true)
    by (apply contains_after_free; reflexivity).
  assert (P : PyStr.split "</think>" (a ++ "</think>" ++ b) = [a; b]).
  { unfold PyStr.split. rewrite (split_aux_free "/think>" "" a _ Fa).
    change (PyStr.split_aux "</think>" 0 (PyStr.rev_string "" a) ("</think>" ++ b))
      with (PyStr.rev_string "" (PyStr.rev_string "" a)
              :: PyStr.split_aux "</think>" 0 "" b).
    rewrite (split_aux_free_all "/think>" "" b Fb).
    now rewrite !rev_string_involutive. }
  assert (T : Json.truthy (Json.JStr ("<think>" ++ a ++ "</think>" ++ b)) = true)
    by reflexivity.
  assert (S : ApiClient.search_think ("<think>" ++ a ++ "</think>" ++ b) = Some "<think>")
    by reflexivity.
  remember ("<think>" ++ a ++ "</think>" ++ b)%string as content eqn:Ec.
  unfold ApiClient.process_choice.
  cbv beta iota zeta delta [Dict.get_default Dict.get String.eqb Ascii.eqb Bool.eqb].
  rewrite T, S. cbv beta iota zeta. rewrite R, C, P. reflexivity.
Qed.

(** C2 (the code departs from the claim).  A thinking fragment followed by
    the [[DONE]] sentinel: the sentinel arrives in the thinking state, and
    the events are Thinking("abc"), Done with no ThinkingEnd between them. *)
Theorem C2_done_sentinel_leaves_thinking_open :
  let thinking_line :=
    PyStr.q "data: {'type':'chat:completion','data':{'phase':'thinking','delta_content':'abc'}}" in
  ApiClient.iter_lines false [thinking_line]
  = ([ApiClient.Thinking "abc"], ApiClient.Exhausted true)
  /\ ApiClient.send_message [thinking_line; "data: [DONE]"] None
     = ApiClient.Run [ApiClient.Thinking "abc"; ApiClient.Done] false
  /\ DemuxSpec.done_outside_thinking false
       (ApiClient.events (ApiClient.send_message [thinking_line; "data: [DONE]"] None))
     = false.
Proof. vm_compute. repeat split. Qed.

(** The same holds when the thinking region was opened by an inline marker
    of the [choices] format. *)
Example done_sentinel_after_think_marker :
  ApiClient.send_message
    [ PyStr.q "data: {'choices':[{'delta':{'content':'<think>abc'}}]}"; "data: [DONE]" ] None
  = ApiClient.Run [ApiClient.Thinking "abc"; ApiClient.Done] false.
Proof. vm_compute. reflexivity. Qed.

(** The sibling path: an envelope with [phase = done] closes the region
    before it reports the end. *)
Example done_phase_closes_thinking :
  ApiClient.send_message
    [ PyStr.q "data: {'type':'chat:completion','data':{'phase':'thinking','delta_content':'abc'}}";
      PyStr.q "data: {'type':'chat:completion','data':{'phase':'done'}}" ] None
  = ApiClient.Run [ApiClient.Thinking "abc"; ApiClient.ThinkingEnd; ApiClient.Done] false.
Proof. vm_compute. reflexivity. Qed.

(** C6 (the code departs from the claim).  After an envelope with
    [phase = done] the loop goes on to the next line: a fragment that
    follows it is still demultiplexed, here into a Content event after
    Done. *)
Theorem C6_events_after_done_phase :
  let done_line := PyStr.q "data: {'type':'chat:completion','data':{'phase':'done'}}" in
  let late_line :=
    PyStr.q "data: {'type':'chat:completion','data':{'phase':'answer','delta_content':'late'}}" in
  ApiClient.process_line false done_line = ([ApiClient.Done], ApiClient.Next false)
  /\ ApiClient.send_message [done_line; late_line] None
     = ApiClient.Run [ApiClient.Done; ApiClient.Content "late"] false
  /\ DemuxSpec.after_done
       (ApiClient.events (ApiClient.send_message [done_line; late_line] None))
     = [ApiClient.Content "late"].
Proof. vm_compute. repeat split. Qed.

(** The sibling path: nothing is read after the [[DONE]] sentinel. *)
Example nothing_after_done_sentinel :
  ApiClient.send_message
    [ "data: [DONE]";
      PyStr.q "data: {'type':'chat:completion','data':{'phase':'answer','delta_content':'late'}}" ]
    None
  = ApiClient.Run [ApiClient.Done] false.
Proof. vm_compute. reflexivity. Qed.

(** In general: whatever came before and whatever the state it left, the
    sentinel adds the one event Done and ends the stream; no ThinkingEnd is
    made up for an open thinking region. *)
Lemma done_sentinel_appends_only_done (ls : list string) (b b' : bool)
    (evs : list ApiClient.event) :
  ApiClient.iter_lines b ls = (evs, ApiClient.Exhausted b') ->
  ApiClient.iter_lines b (ls ++ ["data: [DONE]"])
  = ((evs ++ [ApiClient.Done])%list, ApiClient.Broke).
Proof.
  revert b evs. induction ls as [| line ls IH]; intros b evs H.
  - injection H as <- _. reflexivity.
  - change ((line :: ls) ++ ["data: [DONE]"])%list with (line :: (ls ++ ["data: [DONE]"]))%list.
    cbn [ApiClient.iter_lines] in *.
    destruct (ApiClient.process_line b line) as [e [b1 | |]]; try discriminate.
    destruct (ApiClient.iter_lines b1 ls) as [e' en] eqn:E.
    injection H as <- ->. rewrite (IH b1 e' E). now rewrite app_assoc.
Qed.

(** In general: an envelope with [phase = done] closes an open region and
    reports the end, and the lines after it are processed as before. *)
Lemma done_phase_continues (b : bool) (rest : list string) :
  ApiClient.iter_lines b
    (PyStr.q "data: {'type':'chat:completion','data':{'phase':'done'}}" :: rest)
  = let '(evs, e) := ApiClient.iter_lines false rest in
    (((if b then [ApiClient.ThinkingEnd] else []) ++ ApiClient.Done :: evs)%list, e).
Proof.
  cbn [ApiClient.iter_lines].
  assert (P : ApiClient.process_line b
                (PyStr.q "data: {'type':'chat:completion','data':{'phase':'done'}}")
              = (((if b then [ApiClient.ThinkingEnd] else []) ++ [ApiClient.Done])%list,
                 ApiClient.Next false))
    by (destruct b; vm_compute; reflexivity).
  rewrite P. destruct (ApiClient.iter_lines false rest) as [evs e].
  destruct b; reflexivity.
Qed.

Lemma iter_lines_after_sentinel (b : bool) (rest : list string) :
  ApiClient.iter_lines b ("data: [DONE]" :: rest) = ([ApiClient.Done], ApiClient.Broke).
Proof. reflexivity. Qed.

(** ** Tool-call synthesis *)

(** C4 (the code departs from the claim).  On the sample output with the
    allowed tools write and read, the structured-parse stage returns no
    call at all, whatever the declared parameters: the synonym table is
    keyed by lower-case names and is looked up with the name as the model
    wrote it, so [writeFile] is neither an allowed tool nor a key of the
    table. *)
Theorem C4_structured_stage_rejects_writeFile :
  (forall params, Server._extract_tool_call Samples.sample_tool_text ["write"; "read"] params
                  = Server.Ok None)
  /\ Dict.get "writeFile" Server._TOOL_NAME_SYNONYMS = None
  /\ Dict.get (Server._normalize_tool_name "writeFile") Server._TOOL_NAME_SYNONYMS
     = Some "write".
Proof. split; [intros params; vm_compute; reflexivity | vm_compute; split; reflexivity]. Qed.

(** With the name spelled as the table has it the stage returns the call
    the specification expects: named [write], with [path] bound to
    [a.txt]. *)
Example structured_stage_accepts_writefile :
  Server._extract_tool_call
    (PyStr.q "{'tool':'writefile','arguments':{'filepath':'a.txt','content':'hi'}}")
    ["write"; "read"] []
  = Server.Ok (Some [ Server.ToolCall "write"
                        [ ("filepath", Json.JStr "a.txt");
                          ("path", Json.JStr "a.txt");
                          ("content", Json.JStr "hi") ] ]).
Proof. vm_compute. reflexivity. Qed.

(** Nor is the match against the allowed tools case-insensitive at this
    stage. *)
Example structured_stage_is_case_sensitive :
  Server._extract_tool_call
    (PyStr.q "{'tool':'Write','arguments':{'path':'a.txt','content':'hi'}}")
    ["write"; "read"] []
  = Server.Ok None
  /\ Server._resolve_tool_name "Write" ["write"; "read"] = Some "write".
Proof. vm_compute. split; reflexivity. Qed.

(** The partial-recovery stage does recover the sample call, so that the
    two stages together yield a call named [write] with [path] bound to
    [a.txt]. *)
Example partial_stage_recovers_sample :
  Server._extract_partial_tool_call Samples.sample_tool_text ["write"; "read"] []
  = Some [ Server.ToolCall "write" [ ("path", Json.JStr "a.txt"); ("content", Json.JStr "hi") ] ].
Proof. vm_compute. reflexivity. Qed.

(** ** Validation and the fallback chain *)

Lemma resolve_among_read_not_writer (allowed : list string) (t : string) :
  Server.resolve_among "read" allowed = Some t -> t <> "write" /\ t <> "edit".
Proof.
  induction allowed as [| a allowed IH]; cbn [Server.resolve_among]; [discriminate |].
  destruct (String.eqb (Server._normalize_tool_name a) "read") eqn:E1.
  - intros [= <-]. split; intros ->; vm_compute in E1; discriminate.
  - destruct (match Dict.get (Server._normalize_tool_name a) Server._TOOL_NAME_SYNONYMS with
              | Some syn => String.eqb syn "read"
              | None => false
              end) eqn:E2.
    + intros H. cbv iota in H. injection H as <-.
      split; intros ->; vm_compute in E2; discriminate.
    + exact IH.
Qed.

Lemma fallback_read_shape glob (u : string) (allowed : list string)
    (params : list (string * list string)) (r : list Server.tool_call) :
  Server._fallback_read_call glob u allowed params = Some r ->
  exists tn args, r = [Server.ToolCall tn args] /\ tn <> "write" /\ tn <> "edit".
Proof.
  unfold Server._fallback_read_call, Server._resolve_tool_name.
  change (Server._normalize_tool_name "read") with "read".
  destruct (Server.resolve_among "read" allowed) as [tn |] eqn:R; [| discriminate].
  apply resolve_among_read_not_writer in R.
  repeat match goal with
         | |- context [if ?b then _ else _] => destruct b; try discriminate
         | |- context [match ?x with _ => _ end] =>
             match x with
             | Server.find_candidates _ _ => destruct x; try discriminate
             | Server.cleaned_candidates _ => destruct x; try discriminate
             end
         end.
  intros [= <-]. eauto.
Qed.

Lemma fallback_tool_shape (u : string) (allowed : list string)
    (params : list (string * list string)) (r : list Server.tool_call) :
  Server._fallback_tool_call u allowed params = Some r ->
  exists n args, r = [Server.ToolCall n args] /\ In n ["glob"; "ls"; "list"; "list_dir"].
Proof.
  unfold Server._fallback_tool_call.
  destruct (negb _); [discriminate |].
  destruct (Server.mem "glob" allowed).
  - intros [= <-]. do 2 eexists. split; [reflexivity | now left].
  - destruct (find _ _) as [cand |] eqn:F; [| discriminate].
    apply find_some in F. destruct F as [F _].
    intros [= <-]. do 2 eexists. split; [reflexivity | right; exact F].
Qed.

Lemma unfit_write_invalid (u : string) (c : Server.tool_call) (rest : list Server.tool_call) :
  ServerSpec.unfit_write c -> Server._is_valid_write_call u (c :: rest) = false.
Proof.
  intros [Hname Hshape]. unfold Server._is_valid_write_call.
  assert (Hmem : Server.mem (Server.name c) ["write"; "edit"; "read"] = true)
    by (destruct Hname as [-> | ->]; reflexivity).
  assert (Hread : String.eqb (Server.name c) "read" = false)
    by (destruct Hname as [-> | ->]; reflexivity).
  rewrite Hmem, Hread. simpl.
  unfold Json.get_none, Dict.get_default.
  destruct Hshape as [H | [H | H]].
  - now rewrite H.
  - now rewrite H.
  - destruct (Dict.get "content" (Server.arguments c)) as [[| | | | content | |] |]; try reflexivity.
    destruct (PyStr.is_empty (PyStr.strip content)); [reflexivity |].
    unfold Server.path_keys in *. simpl.
    rewrite (H "path"), (H "filePath"), (H "file_path"); simpl; auto.
Qed.

Lemma unfit_write_settles_on_fallbacks glob (u u_raw : string) (allowed : list string)
    (params : list (string * list string)) (actionable : bool)
    (c : Server.tool_call) (rest : list Server.tool_call) :
  ServerSpec.unfit_write c ->
  Server._is_valid_write_call u (c :: rest) = false
  /\ Server.settle glob (Some (c :: rest)) u u_raw allowed params actionable
     = match Server._fallback_read_call glob u_raw allowed params with
       | Some repaired =>
           if Server._is_valid_write_call u repaired then Some repaired
           else if actionable then Server._fallback_tool_call u allowed params else None
       | None => if actionable then Server._fallback_tool_call u allowed params else None
       end.
Proof.
  intros Hc. pose proof (unfit_write_invalid u c rest Hc) as Hv.
  split; [exact Hv |].
  unfold Server.settle. rewrite Hv. change (negb false) with true. cbv iota.
  destruct (Server._fallback_read_call glob u_raw allowed params) as [repaired |];
    [| reflexivity].
  destruct (Server._is_valid_write_call u repaired); reflexivity.
Qed.

(** C5. A synthesized list whose first call is a write or an edit with a
    missing or empty content, or with no path-like key, fails validation;
    what the pipeline then settles on is the read fallback when it yields a
    valid call, else the listing fallback (for an actionable request), else
    nothing; it is never the rejected list; and when both fallbacks yield
    nothing the raw text is returned as ordinary assistant content. *)
Theorem C5_unfit_write_rejected :
  forall glob (stream : bool) (model full_text u_raw : string) (allowed : list string)
         (params : list (string * list string)) (actionable : bool)
         (c : Server.tool_call) (rest : list Server.tool_call),
    ServerSpec.unfit_write c ->
    let u := PyStr.lower u_raw in
    let read_fallback := Server._fallback_read_call glob u_raw allowed params in
    let listing := if actionable then Server._fallback_tool_call u allowed params else None in
    let settled := Server.settle glob (Some (c :: rest)) u u_raw allowed params actionable in
    Server._is_valid_write_call u (c :: rest) = false
    /\ settled = match read_fallback with
                 | Some repaired =>
                     if Server._is_valid_write_call u repaired then Some repaired else listing
                 | None => listing
                 end
    /\ settled <> Some (c :: rest)
    /\ (read_fallback = None -> listing = None ->
        Server.respond_settled stream model full_text settled
        = if stream
          then Server.StreamingResponse
                 (Server._stream_content
                    (if PyStr.is_empty full_text then Server.retry_hint else full_text) model)
                 false
          else Server.JSONResponse (Server._openai_response full_text model)).
Proof.
  intros glob stream model full_text u_raw allowed params actionable c rest Hc
         u read_fallback listing settled.
  destruct (unfit_write_settles_on_fallbacks glob u u_raw allowed params actionable c rest Hc) as [Hv Hs].
  fold read_fallback listing settled in Hs.
  split; [exact Hv |]. split; [exact Hs |]. split.
  - rewrite Hs. intros E.
    assert (Hhead : forall r, listing = Some r -> r <> c :: rest).
    { intros r Hr ->. subst listing. destruct actionable; [| discriminate].
      apply fallback_tool_shape in Hr. destruct Hr as (n & args & [= -> _] & Hn).
      destruct Hc as [[Hw | Hw] _]; simpl in Hw; subst n;
        repeat (destruct Hn as [Hn | Hn]; [discriminate |]); exact Hn. }
    destruct read_fallback as [repaired |] eqn:R.
    + destruct (Server._is_valid_write_call u repaired).
      * injection E as ->.
        apply fallback_read_shape in R. destruct R as (tn & args & [= -> _] & N1 & N2).
        destruct Hc as [[Hw | Hw] _]; simpl in Hw; congruence.
      * exact (Hhead _ E eq_refl).
    + exact (Hhead _ E eq_refl).
  - intros R L. rewrite Hs, R, L. destruct stream; reflexivity.
Qed.

Lemma C5_unfit_write_rejected_witness :
  ServerSpec.unfit_write
    (Server.ToolCall "write" [ ("path", Json.JStr "a.txt"); ("content", Json.JStr "") ])
  /\ Server.settle Samples.empty_tree
       (Some [Server.ToolCall "write" [ ("path", Json.JStr "a.txt"); ("content", Json.JStr "") ]])
       "hello" "hello" ["write"; "read"] [] false
     <> Some [Server.ToolCall "write" [ ("path", Json.JStr "a.txt"); ("content", Json.JStr "") ]].
Proof.
  assert (H : ServerSpec.unfit_write
                (Server.ToolCall "write"
                   [ ("path", Json.JStr "a.txt"); ("content", Json.JStr "") ]))
    by (split; [now left | right; now left]).
  split; [exact H |].
  exact (proj1 (proj2 (proj2
           (C5_unfit_write_rejected Samples.empty_tree false "glm-4.7" "raw" "hello"
              ["write"; "read"] [] false _ [] H)))).
Defined.

(** In the handler both fallbacks were already tried, on the same inputs,
    before the backend was called, and yielded nothing: a request that
    reaches the synthesis and gets an unfit write or edit from it is
    answered with the buffered text as plain content. *)
Lemma unfit_write_answered_with_content glob (req : Server.request) (backend : ApiClient.run)
    (full_text : string) (c : Server.tool_call) (rest : list Server.tool_call) :
  Server.request_tools req <> [] ->
  Server.shortcut glob req = None ->
  Server._collect_glm_response backend = Server.Ok full_text ->
  Server.extract full_text (Server.request_allowed_tools req) (Server.request_params req)
  = Server.Ok (Some (c :: rest)) ->
  ServerSpec.unfit_write c ->
  Server.chat_completions glob req backend
  = Server.Ok (Server.respond_settled (Server.req_stream req) (Server.request_model req)
                 full_text None).
Proof.
  intros Htools Hshort Hcollect Hextract Hc.
  unfold Server.chat_completions. rewrite Hshort.
  destruct (Server.request_tools req) as [| t ts] eqn:T; [congruence |].
  rewrite Hcollect. unfold Server.synthesize. rewrite Hextract.
  destruct (unfit_write_settles_on_fallbacks glob (PyStr.lower (Server.req_last_user_raw req))
              (Server.req_last_user_raw req) (Server.request_allowed_tools req)
              (Server.request_params req) (Server.request_actionable req) c rest Hc)
    as [_ Hs].
  rewrite Hs. unfold Server.shortcut in Hshort. rewrite T in Hshort.
  destruct (Server._fallback_read_call glob _ _ _); [discriminate |].
  destruct (Server.request_actionable req); [now rewrite Hshort | reflexivity].
Qed.

(** C10. Validation looks at the first call only.  When its name is not
    write, edit or read the list is valid whatever the arguments of that
    call and whatever follows it, the pipeline settles on the list
    unchanged, and the list is emitted to the client. *)
Theorem C10_validation_checks_first_call_only :
  forall glob (stream : bool) (model full_text u u_raw : string) (allowed : list string)
         (params : list (string * list string)) (actionable : bool)
         (c : Server.tool_call) (rest : list Server.tool_call),
    Server.mem (Server.name c) ["write"; "edit"; "read"] = false ->
    Server._is_valid_write_call u (c :: rest) = true
    /\ (forall args rest', Server._is_valid_write_call u
                             (Server.ToolCall (Server.name c) args :: rest') = true)
    /\ Server.settle glob (Some (c :: rest)) u u_raw allowed params actionable
       = Some (c :: rest)
    /\ Server.respond_settled stream model full_text
         (Server.settle glob (Some (c :: rest)) u u_raw allowed params actionable)
       = Server.respond_calls stream model (c :: rest).
Proof.
  intros glob stream model full_text u u_raw allowed params actionable c rest H.
  assert (V : forall args rest', Server._is_valid_write_call u
                                   (Server.ToolCall (Server.name c) args :: rest') = true).
  { intros args rest'. unfold Server._is_valid_write_call. cbn [Server.name].
    now rewrite H. }
  assert (V0 : Server._is_valid_write_call u (c :: rest) = true).
  { unfold Server._is_valid_write_call. now rewrite H. }
  assert (S : Server.settle glob (Some (c :: rest)) u u_raw allowed params actionable
              = Some (c :: rest)).
  { unfold Server.settle. rewrite V0. change (negb true) with false. cbv iota zeta.
    now rewrite V0. }
  repeat split; auto. now rewrite S.
Qed.

Lemma C10_validation_checks_first_call_only_witness :
  Server.mem (Server.name (Server.ToolCall "bash" [ ("command", Json.JStr "ls") ]))
    ["write"; "edit"; "read"] = false
  /\ Server._is_valid_write_call "hello" [Server.ToolCall "write" []] = false
  /\ Server.respond_settled false "glm-4.7" "raw"
       (Server.settle Samples.empty_tree
          (Some [ Server.ToolCall "bash" [ ("command", Json.JStr "ls") ];
                  Server.ToolCall "write" [] ])
          "hello" "hello" ["bash"; "write"] [] false)
     = Server.respond_calls false "glm-4.7"
         [ Server.ToolCall "bash" [ ("command", Json.JStr "ls") ]; Server.ToolCall "write" [] ].
Proof.
  split; [reflexivity |]. split; [reflexivity |].
  exact (proj2 (proj2 (proj2
           (C10_validation_checks_first_call_only Samples.empty_tree false "glm-4.7" "raw"
              "hello" "hello" ["bash"; "write"] [] false
              (Server.ToolCall "bash" [ ("command", Json.JStr "ls") ])
              [Server.ToolCall "write" []] eq_refl)))).
Defined.

(** The validation result depends on the first call alone. *)
Lemma validation_ignores_tail (u u' : string) (c : Server.tool_call)
    (r1 r2 : list Server.tool_call) :
  Server._is_valid_write_call u (c :: r1) = Server._is_valid_write_call u' (c :: r2).
Proof. reflexivity. Qed.

(** End to end: the model answers with a valid [bash] call followed by a
    write call that has no arguments at all; the handler sends both. *)
Example invalid_write_after_first_is_emitted :
  Server.chat_completions Samples.empty_tree Samples.tools_request
    (ApiClient.send_message
       [ PyStr.q ("data: {'choices':[{'delta':{'content':"
                  ++ "'[{\'name\':\'bash\',\'arguments\':{\'command\':\'ls\'}},"
                  ++ "{\'name\':\'write\',\'arguments\':{}}]'}}]}") ] None)
  = Server.Ok (Server.JSONResponse
      (Server.Completion "glm-4.7" None
         (Some [ Server.FunctionCall 0 "bash" [ ("command", Json.JStr "ls") ];
                 Server.FunctionCall 1 "write" [] ])
         "tool_calls")).
Proof. vm_compute. reflexivity. Qed.

(** ** Backend failures *)

(** C7 (the code departs from the claim).  When the backend call fails the
    event stream is the single error event; the non-streaming handler keeps
    content events only, so it answers with a completion whose content is the
    empty string and nothing tells the caller of the failure.  This holds
    without tools and with tools declared. *)
Theorem C7_backend_error_returns_empty_content :
  forall (msg : string),
    ApiClient.send_message [] (Some msg) = ApiClient.Run [ApiClient.Error msg] false
    /\ Server._collect_glm_response (ApiClient.send_message [] (Some msg))
       = Server.Ok EmptyString
    /\ Server.chat_completions Samples.empty_tree Samples.plain_request
         (ApiClient.send_message [] (Some msg))
       = Server.Ok (Server.JSONResponse (Server._openai_response EmptyString "glm-4.7"))
    /\ Server.chat_completions Samples.empty_tree Samples.tools_request
         (ApiClient.send_message [] (Some msg))
       = Server.Ok (Server.JSONResponse (Server._openai_response EmptyString "glm-4.7"))
    /\ ServerSpec.empty_content
         (Server.JSONResponse (Server._openai_response EmptyString "glm-4.7")).
Proof. intros msg. vm_compute. repeat split. Qed.

(** In general: any non-streaming request that gets as far as calling the
    backend (no short circuit) and receives the single error event is
    answered with the empty content. *)
Lemma backend_error_gives_empty_content glob (req : Server.request) (msg : string) :
  Server.req_stream req = false ->
  Server.shortcut glob req = None ->
  Server.chat_completions glob req (ApiClient.Run [ApiClient.Error msg] false)
  = Server.Ok (Server.JSONResponse
                 (Server._openai_response EmptyString (Server.request_model req))).
Proof.
  intros Hstream Hshort. unfold Server.chat_completions. rewrite Hshort, Hstream.
  change (Server._collect_glm_response (ApiClient.Run [ApiClient.Error msg] false))
    with (@Server.Ok string EmptyString).
  destruct (Server.request_tools req) as [| t ts] eqn:T; [reflexivity |].
  unfold Server.synthesize.
  change (Server.extract "" (Server.request_allowed_tools req) (Server.request_params req))
    with (@Server.Ok (option (list Server.tool_call)) None).
  unfold Server.settle. unfold Server.shortcut in Hshort. rewrite T in Hshort.
  destruct (Server._fallback_read_call glob _ _ _); [discriminate |].
  destruct (Server.request_actionable req); [now rewrite Hshort | reflexivity].
Qed.

(** The sibling path: the streaming relay forwards the error to the client. *)
Example streaming_relays_backend_error :
  Server.chat_completions Samples.empty_tree Samples.streamed_request Samples.failed_backend
  = Server.Ok (Server.StreamingResponse
                 [ Server.SseError "connection refused"; Server.SseStop "glm-4.7";
                   Server.SseDone ] false).
Proof. vm_compute. reflexivity. Qed.

(** ** The read heuristic *)

Lemma max_by_in (f : string -> nat) (l : list string) (best : string) :
  In (Server.max_by f best l) (best :: l).
Proof.
  revert best. induction l as [| x l IH]; intros best; simpl; [now left |].
  destruct (Nat.ltb (f best) (f x)).
  - right. apply IH.
  - destruct (IH best) as [H | H]; [now left | right; now right].
Qed.

(** C9. When no cleaned candidate of the user text holds a dot, a slash or
    a backslash, the read heuristic returns nothing, whatever the allowed
    tools, the declared parameters and the working tree. *)
Theorem C9_no_path_like_candidate_no_read_call :
  forall glob (text : string) (allowed : list string) (params : list (string * list string)),
    (forall c, In c (Server.cleaned_candidates text) -> Server.has_path_mark c = false) ->
    Server._fallback_read_call glob text allowed params = None.
Proof.
  intros glob text allowed params H. unfold Server._fallback_read_call.
  destruct (Server._resolve_tool_name "read" allowed) as [tn |]; [| reflexivity].
  destruct (PyStr.is_empty tn); [reflexivity |].
  destruct (negb _); [reflexivity |].
  destruct (Server.cleaned_candidates text) as [| c cs] eqn:E.
  - destruct (Server.find_candidates 0 text); reflexivity.
  - rewrite (H (Server.max_by Server._score c cs) (max_by_in _ _ _)). simpl.
    destruct (Server.find_candidates 0 text); reflexivity.
Qed.

Lemma C9_no_path_like_candidate_no_read_call_witness :
  Server.cleaned_candidates "open `notes` please" = ["notes"]
  /\ Server._fallback_read_call Samples.empty_tree "open `notes` please" ["read"] [] = None.
Proof.
  split; [reflexivity |].
  apply C9_no_path_like_candidate_no_read_call.
  intros c Hc. change (In c ["notes"]) in Hc.
  destruct Hc as [<- | []]. reflexivity.
Defined.

(** The sample of the specification: [config.yaml] holds a dot, so it does
    pass, and the heuristic emits a read call for it. *)
Example read_config_yaml :
  Server._fallback_read_call Samples.empty_tree "read config.yaml" ["write"; "read"] []
  = Some [ Server.ToolCall "read" [ ("path", Json.JStr "config.yaml");
                                     ("filePath", Json.JStr "config.yaml") ] ].
Proof. vm_compute. reflexivity. Qed.

(** * Further properties of the synthesis pipeline *)

(** ** Names of synthesized calls *)

Lemma mem_In (s : string) (l : list string) : Server.mem s l = true <-> In s l.
Proof.
  unfold Server.mem. rewrite existsb_exists. split.
  - intros (x & Hx & E). apply String.eqb_eq in E. now subst.
  - intros H. exists s. split; [exact H | apply String.eqb_refl].
Qed.

Lemma admitted_name_allowed (n : Json.value) (allowed : list string) (s : string) :
  Server.admitted_name n allowed = Some s -> In s allowed.
Proof.
  destruct n as [| | | | t | |]; cbn [Server.admitted_name]; try discriminate.
  destruct (negb (PyStr.is_empty t) && existsb (String.eqb t) allowed) eqn:E.
  - intros [= <-]. apply andb_prop in E. destruct E as [_ E]. now apply mem_In.
  - destruct (String.eqb t "write" || String.eqb t "edit"); [| discriminate].
    destruct (find _ allowed) as [m |] eqn:F; [| discriminate].
    destruct (PyStr.is_empty m); [discriminate |].
    intros [= <-]. now apply find_some in F.
Qed.

Lemma normalize_call_allowed (call : Server.raw_call) (allowed : list string)
    (params : list (string * list string)) (tc : Server.tool_call) :
  Server.normalize_call call allowed params = Server.Ok (Some tc) ->
  In (Server.name tc) allowed.
Proof.
  unfold Server.normalize_call.
  destruct (if Json.truthy (Server.raw_name call)
            then Server.synonym_lookup (Server.raw_name call)
            else Server.Ok (Server.raw_name call)) as [n |]; [| discriminate].
  destruct (Server.admitted_name n allowed) as [s |] eqn:A; [| discriminate].
  apply admitted_name_allowed in A.
  destruct (match Server.raw_arguments call with
            | Json.JStr text => Json.loads text
            | other => Some other
            end) as [[| | | | | | args] |]; try discriminate.
  now intros [= <-].
Qed.

Lemma normalize_calls_allowed (calls : list Server.raw_call) (allowed : list string)
    (params : list (string * list string)) (out : list Server.tool_call) :
  Server.normalize_calls calls allowed params = Server.Ok out ->
  Forall (fun tc => In (Server.name tc) allowed) out /\ List.length out <= List.length calls.
Proof.
  revert out. induction calls as [| call calls IH]; intros out; cbn [Server.normalize_calls].
  - intros [= <-]. split; [constructor | reflexivity].
  - destruct (Server.normalize_call call allowed params) as [this |] eqn:N; [| discriminate].
    destruct (Server.normalize_calls calls allowed params) as [others |]; [| discriminate].
    destruct (IH others eq_refl) as [F L].
    intros [= <-]. destruct this as [tc |]; cbn [List.length].
    + split; [constructor; [exact (normalize_call_allowed _ _ _ _ N) | exact F] | lia].
    + split; [exact F | lia].
Qed.

(** Whatever [_normalize_tool_calls] returns is a non-empty list, no longer
    than the list of candidates, and every call in it names a tool of the
    allowed list. *)
Theorem normalized_calls_name_allowed_tools :
  forall (calls : list Server.raw_call) (allowed : list string)
         (params : list (string * list string)) (out : list Server.tool_call),
    Server._normalize_tool_calls calls allowed params = Server.Ok (Some out) ->
    out <> []
    /\ List.length out <= List.length calls
    /\ Forall (fun tc => In (Server.name tc) allowed) out.
Proof.
  intros calls allowed params out. unfold Server._normalize_tool_calls.
  destruct (Server.normalize_calls calls allowed params) as [l |] eqn:N; [| discriminate].
  destruct (normalize_calls_allowed _ _ _ _ N) as [F L].
  destruct l as [| c l]; [discriminate |].
  intros [= <-]. repeat split; [discriminate | exact L | exact F].
Qed.

Lemma normalized_calls_name_allowed_tools_witness :
  Server._normalize_tool_calls
    [ Server.RawCall (Json.JStr "save") (Json.JObj [ ("cmd", Json.JInt 1) ]);
      Server.RawCall (Json.JStr "rm") (Json.JObj []) ]
    ["write"; "read"] []
  = Server.Ok (Some [ Server.ToolCall "write" [ ("cmd", Json.JInt 1); ("command", Json.JInt 1) ] ])
  /\ Forall (fun tc => In (Server.name tc) ["write"; "read"])
       [ Server.ToolCall "write" [ ("cmd", Json.JInt 1); ("command", Json.JInt 1) ] ].
Proof.
  split; [reflexivity |].
  exact (proj2 (proj2 (normalized_calls_name_allowed_tools
           [ Server.RawCall (Json.JStr "save") (Json.JObj [ ("cmd", Json.JInt 1) ]);
             Server.RawCall (Json.JStr "rm") (Json.JObj []) ]
           ["write"; "read"] [] _ eq_refl))).
Defined.

Lemma extract_stage_allowed (text : string) (allowed : list string)
    (params : list (string * list string)) (out : list Server.tool_call) :
  Server._extract_tool_call text allowed params = Server.Ok (Some out) ->
  out <> [] /\ Forall (fun tc => In (Server.name tc) allowed) out.
Proof.
  unfold Server._extract_tool_call.
  assert (K : forall calls,
             Server._normalize_tool_calls calls allowed params = Server.Ok (Some out) ->
             out <> [] /\ Forall (fun tc => In (Server.name tc) allowed) out).
  { intros calls H. unfold Server._normalize_tool_calls in H.
    destruct (Server.normalize_calls calls allowed params) as [l |] eqn:N; [| discriminate].
    destruct (normalize_calls_allowed _ _ _ _ N) as [F _].
    destruct l as [| c l]; [discriminate |].
    injection H as <-. split; [discriminate | exact F]. }
  destruct (PyStr.is_empty text); [discriminate |].
  destruct (negb (Json.truthy (Server._repair_json text))); [discriminate |].
  destruct (Server._repair_json text) as [| | | | | items | d]; try discriminate.
  - apply K.
  - destruct (Dict.has "function" d && negb (Dict.has "tool_calls" d)
              && negb (Dict.has "tool" d)); [apply K |].
    destruct (if Server.is_list (Json.get_none "tool_calls" d)
              then Dict.get "tool_calls" d else None) as [[| | | | | items |] |];
      try (destruct (Dict.get "tool" d), (Dict.get "arguments" d);
           try discriminate; apply K).
Qed.

(** The structured-parse stage never returns a call outside the allowed
    tools, and never an empty list: with no tool allowed it returns no call
    at all. *)
Theorem extracted_calls_name_allowed_tools :
  forall (text : string) (allowed : list string) (params : list (string * list string))
         (out : list Server.tool_call),
    Server._extract_tool_call text allowed params = Server.Ok (Some out) ->
    out <> [] /\ Forall (fun tc => In (Server.name tc) allowed) out.
Proof.
  intros text allowed params out. apply extract_stage_allowed.
Qed.

Lemma extracted_calls_name_allowed_tools_witness :
  Server._extract_tool_call
    (PyStr.q "[{'name':'read','arguments':{'path':'a.txt'}},{'name':'rm','arguments':{}}]")
    ["read"] []
  = Server.Ok (Some [ Server.ToolCall "read" [ ("path", Json.JStr "a.txt") ] ])
  /\ Forall (fun tc => In (Server.name tc) ["read"])
       [ Server.ToolCall "read" [ ("path", Json.JStr "a.txt") ] ].
Proof.
  assert (E : Server._extract_tool_call
                (PyStr.q "[{'name':'read','arguments':{'path':'a.txt'}},{'name':'rm','arguments':{}}]")
                ["read"] []
              = Server.Ok (Some [ Server.ToolCall "read" [ ("path", Json.JStr "a.txt") ] ]))
    by (vm_compute; reflexivity).
  split; [exact E |].
  exact (proj2 (extracted_calls_name_allowed_tools _ _ _ _ E)).
Defined.

Lemma resolve_tool_name_is_find (target : string) (allowed : list string) :
  Server._resolve_tool_name target allowed = find (Observe.answers_to target) allowed.
Proof.
  unfold Server._resolve_tool_name, Observe.answers_to.
  induction allowed as [| tool allowed IH]; cbn [Server.resolve_among find]; [reflexivity |].
  destruct (String.eqb (Server._normalize_tool_name tool) (Server._normalize_tool_name target));
    [reflexivity |].
  cbn [orb].
  destruct (match Dict.get (Server._normalize_tool_name tool) Server._TOOL_NAME_SYNONYMS with
            | Some syn => String.eqb syn (Server._normalize_tool_name target)
            | None => false
            end); [reflexivity | exact IH].
Qed.


(** ** Partial recovery *)

Lemma partial_stage_allowed (text : string) (allowed : list string)
    (params : list (string * list string)) (out : list Server.tool_call) :
  Server._extract_partial_tool_call text allowed params = Some out ->
  exists tool_name args,
    out = [Server.ToolCall tool_name args] /\ In tool_name allowed /\ args <> [].
Proof.
  unfold Server._extract_partial_tool_call.
  destruct (PyStr.is_empty text); [discriminate |].
  cbv zeta.
  destruct (find _ Server.partial_candidates) as [cand |]; [| discriminate].
  cbv beta iota.
  set (T := Dict.get_default cand cand Server._TOOL_NAME_SYNONYMS).
  destruct (negb (PyStr.is_empty T) && negb (Server.mem T allowed)) eqn:E1.
  - destruct (find (fun a => PyStr.contains T a) allowed) as [m |] eqn:F; [| discriminate].
    apply find_some in F. destruct F as [Hin _].
    destruct (PyStr.is_empty m); [discriminate |].
    repeat match goal with
           | |- context [if ?b then _ else _] => destruct b; try discriminate
           end;
      intros [= <-]; do 2 eexists; (split; [reflexivity | split; [exact Hin | discriminate]]).
  - assert (Hin : PyStr.is_empty T = false -> In T allowed).
    { intros Em. rewrite Em in E1. cbn [negb andb] in E1.
      apply negb_false_iff in E1. now apply mem_In. }
    destruct (PyStr.is_empty T) eqn:Em; [discriminate |].
    specialize (Hin eq_refl).
    repeat match goal with
           | |- context [if ?b then _ else _] => destruct b; try discriminate
           end;
      intros [= <-]; do 2 eexists; (split; [reflexivity | split; [exact Hin | discriminate]]).
Qed.

(** When the partial recovery returns something, it is exactly one call, it
    names a tool of the allowed list, and it carries at least one argument. *)
Theorem partial_recovery_single_allowed_call :
  forall (text : string) (allowed : list string) (params : list (string * list string))
         (out : list Server.tool_call),
    Server._extract_partial_tool_call text allowed params = Some out ->
    exists tool_name args,
      out = [Server.ToolCall tool_name args] /\ In tool_name allowed /\ args <> [].
Proof.
  intros text allowed params out. apply partial_stage_allowed.
Qed.

Lemma partial_recovery_single_allowed_call_witness :
  Server._extract_partial_tool_call Samples.sample_tool_text ["write"; "read"] []
  = Some [ Server.ToolCall "write" [ ("path", Json.JStr "a.txt"); ("content", Json.JStr "hi") ] ]
  /\ exists tool_name args,
       [ Server.ToolCall "write" [ ("path", Json.JStr "a.txt"); ("content", Json.JStr "hi") ] ]
       = [Server.ToolCall tool_name args] /\ In tool_name ["write"; "read"] /\ args <> [].
Proof.
  assert (E : Server._extract_partial_tool_call Samples.sample_tool_text ["write"; "read"] []
              = Some [ Server.ToolCall "write"
                         [ ("path", Json.JStr "a.txt"); ("content", Json.JStr "hi") ] ])
    by (vm_compute; reflexivity).
  split; [exact E |].
  exact (partial_recovery_single_allowed_call _ _ _ _ E).
Defined.

(** ** What validation guarantees *)

Lemma get_none_is_str (k : string) (d : Json.dict) (s : string) :
  Json.get_none k d = Json.JStr s -> Dict.get k d = Some (Json.JStr s).
Proof.
  unfold Json.get_none, Dict.get_default.
  destruct (Dict.get k d) as [v |]; [now intros -> | discriminate].
Qed.

(** A list that passes validation and is headed by a write or edit call
    carries a content that is a string with something other than white
    space in it, and one of the path-like keys; headed by a read call, its
    path (the first of path, filePath, file_path that is set) is such a
    string and no directory marker. *)
Theorem valid_file_call_is_well_formed :
  forall (u : string) (c : Server.tool_call) (rest : list Server.tool_call),
    Server._is_valid_write_call u (c :: rest) = true ->
    (Server.mem (Server.name c) ["write"; "edit"] = true ->
     exists content,
       Dict.get "content" (Server.arguments c) = Some (Json.JStr content)
       /\ PyStr.is_empty (PyStr.strip content) = false
       /\ exists k, In k Server.path_keys /\ Dict.has k (Server.arguments c) = true)
    /\ (Server.name c = "read" ->
        exists path,
          Server.or_value
            (Server.or_value (Json.get_none "path" (Server.arguments c))
                             (Json.get_none "filePath" (Server.arguments c)))
            (Json.get_none "file_path" (Server.arguments c)) = Json.JStr path
          /\ PyStr.is_empty (PyStr.strip path) = false
          /\ Server.is_directory_marker (PyStr.strip path) = false).
Proof.
  intros u [n args] rest. unfold Server._is_valid_write_call. cbn [Server.name Server.arguments].
  unfold Server.mem. cbn [existsb].
  destruct (String.eqb n "read") eqn:Er.
  - apply String.eqb_eq in Er. subst n. cbn [String.eqb Ascii.eqb Bool.eqb andb orb negb].
    intros H. split; [discriminate |]. intros _.
    destruct (Server.or_value _ _) as [| | | | path | |]; try discriminate.
    exists path. split; [reflexivity |].
    destruct (PyStr.is_empty (PyStr.strip path)); [discriminate |].
    destruct (Server.is_directory_marker (PyStr.strip path)); [discriminate |]. now split.
  - rewrite !orb_false_r.
    destruct (String.eqb n "write" || String.eqb n "edit") eqn:Ew; cbn [negb].
    + intros H. split; [| intros ->; discriminate]. intros _.
      destruct (Json.get_none "content" args) as [| | | | content | |] eqn:G; try discriminate.
      exists content. split; [now apply get_none_is_str |].
      destruct (PyStr.is_empty (PyStr.strip content)); [discriminate |]. split; [reflexivity |].
      destruct (existsb (fun k => Dict.has k args) Server.path_keys) eqn:P; [| discriminate].
      apply existsb_exists in P. exact P.
    + intros _. split; [intros W; discriminate W | intros ->; discriminate].
Qed.

Lemma valid_file_call_is_well_formed_witness :
  Server._is_valid_write_call "hello"
    [ Server.ToolCall "write" [ ("filePath", Json.JStr "a.txt"); ("content", Json.JStr " x ") ] ]
  = true
  /\ exists content,
       Dict.get "content" [ ("filePath", Json.JStr "a.txt"); ("content", Json.JStr " x ") ]
       = Some (Json.JStr content)
       /\ PyStr.is_empty (PyStr.strip content) = false
       /\ exists k, In k Server.path_keys
                    /\ Dict.has k [ ("filePath", Json.JStr "a.txt"); ("content", Json.JStr " x ") ]
                       = true.
Proof.
  split; [reflexivity |].
  exact (proj1 (valid_file_call_is_well_formed "hello"
                  (Server.ToolCall "write"
                     [ ("filePath", Json.JStr "a.txt"); ("content", Json.JStr " x ") ])
                  [] eq_refl) eq_refl).
Defined.

(** ** The intent fallbacks *)

Lemma listing_fallback_schema :
  forall (u : string) (allowed : list string) (params : list (string * list string))
         (out : list Server.tool_call),
    Server._fallback_tool_call u allowed params = Some out ->
    exists tool args,
      out = [Server.ToolCall tool args]
      /\ In tool allowed
      /\ In tool ["glob"; "ls"; "list"; "list_dir"]
      /\ forall k v, In (k, v) args ->
                     In k (Server.params_of tool params)
                     /\ (v = Json.JStr "**/*" \/ v = Json.JStr ".").
Proof.
  intros u allowed params out. unfold Server._fallback_tool_call. cbv zeta.
  destruct (negb _); [discriminate |].
  destruct (Server.mem "glob" allowed) eqn:G.
  - intros [= <-]. do 2 eexists. split; [reflexivity |].
    split; [now apply mem_In |]. split; [now left |].
    intros k v.
    destruct (Server.mem "pattern" (Server.params_of "glob" params)) eqn:P1;
      [| destruct (Server.mem "path" (Server.params_of "glob" params)) eqn:P2;
         [| destruct (Server.mem "cwd" (Server.params_of "glob" params)) eqn:P3]];
      intros H; (first [destruct H as [[= <- <-] | []] | destruct H]);
      (split; [now apply mem_In | auto]).
  - destruct (find _ _) as [cand |] eqn:F; [| discriminate].
    apply find_some in F. destruct F as [Fin Fm].
    intros [= <-]. do 2 eexists. split; [reflexivity |].
    split; [now apply mem_In |]. split; [now right |].
    intros k v.
    destruct (Server.mem "path" (Server.params_of cand params)) eqn:P2;
      [| destruct (Server.mem "cwd" (Server.params_of cand params)) eqn:P3];
      intros H; (first [destruct H as [[= <- <-] | []] | destruct H]);
      (split; [now apply mem_In | auto]).
Qed.

(** The listing fallback returns one call, to [glob] or to one of [ls],
    [list], [list_dir]; the tool is in the allowed list; and every argument
    it passes is a parameter the schema of that tool declares, with the
    wildcard or the current directory as its value. *)
Theorem listing_fallback_respects_schema :
  forall (u : string) (allowed : list string) (params : list (string * list string))
         (out : list Server.tool_call),
    Server._fallback_tool_call u allowed params = Some out ->
    exists tool args,
      out = [Server.ToolCall tool args]
      /\ In tool allowed
      /\ In tool ["glob"; "ls"; "list"; "list_dir"]
      /\ forall k v, In (k, v) args ->
                     In k (Server.params_of tool params)
                     /\ (v = Json.JStr "**/*" \/ v = Json.JStr ".").
Proof.
  exact listing_fallback_schema.
Qed.

Lemma listing_fallback_respects_schema_witness :
  Server._fallback_tool_call "list the files" ["read"; "ls"] [ ("ls", ["cwd"]) ]
  = Some [ Server.ToolCall "ls" [ ("cwd", Json.JStr ".") ] ]
  /\ exists tool args,
       [ Server.ToolCall "ls" [ ("cwd", Json.JStr ".") ] ] = [Server.ToolCall tool args]
       /\ In tool ["read"; "ls"]
       /\ In tool ["glob"; "ls"; "list"; "list_dir"]
       /\ forall k v, In (k, v) args ->
                      In k (Server.params_of tool [ ("ls", ["cwd"]) ])
                      /\ (v = Json.JStr "**/*" \/ v = Json.JStr ".").
Proof.
  assert (E : Server._fallback_tool_call "list the files" ["read"; "ls"] [ ("ls", ["cwd"]) ]
              = Some [ Server.ToolCall "ls" [ ("cwd", Json.JStr ".") ] ])
    by (vm_compute; reflexivity).
  split; [exact E |].
  exact (listing_fallback_respects_schema _ _ _ _ E).
Defined.

Lemma dict_set_not_empty {V : Type} (k : string) (v : V) (d : list (string * V)) :
  Dict.set k v d <> [].
Proof.
  destruct d as [| [k' v'] d]; cbn [Dict.set]; [discriminate |].
  destruct (String.eqb k k'); discriminate.
Qed.

Lemma dict_set_values {V : Type} (k : string) (v : V) (d : list (string * V)) (x : string) (w : V) :
  In (x, w) (Dict.set k v d) -> w = v \/ In (x, w) d.
Proof.
  induction d as [| [k' v'] d IH]; cbn [Dict.set].
  - intros [[= _ <-] | []]. now left.
  - destruct (String.eqb k k').
    + intros [[= _ <-] | H]; [now left | right; now right].
    + intros [H | H]; [right; now left |].
      destruct (IH H) as [E | E]; [now left | right; now right].
Qed.

Lemma min_by_in (f : string -> nat) (l : list string) (best : string) :
  In (Server.min_by f best l) (best :: l).
Proof.
  revert best. induction l as [| x l IH]; intros best; simpl; [now left |].
  destruct (Nat.ltb (f x) (f best)).
  - right. apply IH.
  - destruct (IH best) as [H | H]; [now left | right; now right].
Qed.

Lemma resolve_bare_from_text_or_tree glob (c : string) :
  Server.resolve_bare glob c = c
  \/ exists files, glob c = Some files /\ In (Server.resolve_bare glob c) files.
Proof.
  unfold Server.resolve_bare.
  destruct (_ && _); [| now left].
  destruct (glob c) as [[| m ms] |]; [now left | | now left].
  right. exists (m :: ms). split; [reflexivity | apply min_by_in].
Qed.

(** The read fallback invents nothing.  When it returns a call, the call is
    alone, names an allowed tool that answers to [read], and every argument
    holds one and the same path: a candidate that stands in the user text
    (cleaned, holding a dot, a slash or a backslash), or, for a bare file
    name, a file that the search of the working tree returned for it. *)
Theorem read_fallback_path_comes_from_text :
  forall glob (text : string) (allowed : list string) (params : list (string * list string))
         (out : list Server.tool_call),
    Server._fallback_read_call glob text allowed params = Some out ->
    exists tool args c,
      out = [Server.ToolCall tool args]
      /\ In tool allowed /\ Observe.answers_to "read" tool = true
      /\ In c (Server.cleaned_candidates text) /\ Server.has_path_mark c = true
      /\ args <> []
      /\ (forall k v, In (k, v) args -> v = Json.JStr (Server.resolve_bare glob c))
      /\ (Server.resolve_bare glob c = c
          \/ exists files, glob c = Some files /\ In (Server.resolve_bare glob c) files).
Proof.
  intros glob text allowed params out. unfold Server._fallback_read_call.
  destruct (Server._resolve_tool_name "read" allowed) as [tool |] eqn:R; [| discriminate].
  rewrite resolve_tool_name_is_find in R. apply find_some in R.
  destruct R as [Hin Hans].
  destruct (PyStr.is_empty tool); [discriminate |].
  destruct (negb _); [discriminate |].
  destruct (Server.find_candidates 0 text); [discriminate |].
  destruct (Server.cleaned_candidates text) as [| c cs]; [discriminate |].
  cbv zeta.
  pose proof (max_by_in Server._score cs c) as Hmax.
  set (best := Server.max_by Server._score c cs) in *.
  destruct (Server.has_path_mark best) eqn:M; cbn [negb]; [| discriminate].
  destruct (PyStr.is_empty best); [discriminate |].
  set (p := Server.resolve_bare glob best).
  assert (Single : forall ps : list string,
             exists k, Server._normalize_args [("path", Json.JStr p)] (Some ps) = [(k, Json.JStr p)]
                       \/ ps = []).
  { intros [| q qs]; [exists "path"; now right |].
    unfold Server._normalize_args. cbn [fold_left]. unfold Server.normalize_arg_schema.
    repeat match goal with
           | |- context [match ?x with Some _ => _ | None => _ end] => destruct x
           end; eexists; left; reflexivity. }
  intros [= <-]. exists tool. eexists. exists best.
  split; [reflexivity |]. split; [exact Hin |]. split; [exact Hans |].
  split; [exact Hmax |]. split; [exact M |].
  split; [| split; [| apply resolve_bare_from_text_or_tree]].
  - destruct (Dict.get tool params) as [[| q qs] |]; try discriminate.
    destruct (Single (q :: qs)) as [k [E | E]]; [| discriminate].
    fold p. rewrite E. destruct (_ && _); [apply dict_set_not_empty | discriminate].
  - assert (One : forall (k k' : string) (v : Json.value),
               In (k, v) [(k', Json.JStr p)] -> v = Json.JStr p)
      by (intros k k' v [[= _ <-] | []]; reflexivity).
    assert (Two : forall (k k' : string) (v : Json.value),
               In (k, v) (Dict.set "filePath" (Json.JStr p) [(k', Json.JStr p)]) ->
               v = Json.JStr p)
      by (intros k k' v H; apply dict_set_values in H; destruct H as [H | H];
          [exact H | exact (One _ _ _ H)]).
    intros k v. fold p.
    destruct (Dict.get tool params) as [[| q qs] |];
      try (intros [[= _ <-] | [[= _ <-] | []]]; reflexivity).
    destruct (Single (q :: qs)) as [k' [E | E]]; [| discriminate].
    rewrite E. destruct (_ && _); [apply Two | apply One].
Qed.

Lemma read_fallback_path_comes_from_text_witness :
  Server._fallback_read_call Samples.empty_tree "read config.yaml" ["write"; "read"] []
  = Some [ Server.ToolCall "read" [ ("path", Json.JStr "config.yaml");
                                     ("filePath", Json.JStr "config.yaml") ] ]
  /\ exists tool args c,
       [ Server.ToolCall "read" [ ("path", Json.JStr "config.yaml");
                                  ("filePath", Json.JStr "config.yaml") ] ]
       = [Server.ToolCall tool args]
       /\ In tool ["write"; "read"] /\ Observe.answers_to "read" tool = true
       /\ In c (Server.cleaned_candidates "read config.yaml") /\ Server.has_path_mark c = true
       /\ args <> []
       /\ (forall k v, In (k, v) args ->
                       v = Json.JStr (Server.resolve_bare Samples.empty_tree c))
       /\ (Server.resolve_bare Samples.empty_tree c = c
           \/ exists files, Samples.empty_tree c = Some files
                            /\ In (Server.resolve_bare Samples.empty_tree c) files).
Proof.
  assert (E : Server._fallback_read_call Samples.empty_tree "read config.yaml"
                ["write"; "read"] []
              = Some [ Server.ToolCall "read" [ ("path", Json.JStr "config.yaml");
                                                 ("filePath", Json.JStr "config.yaml") ] ])
    by (vm_compute; reflexivity).
  split; [exact E |].
  exact (read_fallback_path_comes_from_text _ _ _ _ _ E).
Defined.

(** ** What the pipeline settles on *)

Lemma listing_fallback_is_valid (u u' : string) (allowed : list string)
    (params : list (string * list string)) (out : list Server.tool_call) :
  Server._fallback_tool_call u allowed params = Some out ->
  Server._is_valid_write_call u' out = true.
Proof.
  intros H. apply listing_fallback_schema in H.
  destruct H as (tool & args & -> & _ & Hn & _).
  unfold Server._is_valid_write_call. cbn [Server.name].
  repeat (destruct Hn as [<- | Hn]; [reflexivity |]). destruct Hn.
Qed.

(** Whatever the tool branch settles on, after the synthesis stages and the
    fallbacks, passes validation: an invalid list is never what is handed to
    the response builder. *)
Theorem settled_calls_pass_validation :
  forall glob (extracted : option (list Server.tool_call)) (u u_raw : string)
         (allowed : list string) (params : list (string * list string)) (actionable : bool)
         (calls : list Server.tool_call),
    Server.settle glob extracted u u_raw allowed params actionable = Some calls ->
    Server._is_valid_write_call u calls = true.
Proof.
  intros glob extracted u u_raw allowed params actionable calls. unfold Server.settle.
  cbv zeta.
  destruct (match extracted with
            | Some calls0 =>
                if negb (Server._is_valid_write_call u calls0)
                then Server._fallback_read_call glob u_raw allowed params
                else extracted
            | None => None
            end) as [current |].
  - destruct (Server._is_valid_write_call u current) eqn:V.
    + now intros [= <-].
    + destruct actionable; [| discriminate]. apply listing_fallback_is_valid.
  - destruct actionable; [| discriminate]. apply listing_fallback_is_valid.
Qed.

Lemma settled_calls_pass_validation_witness :
  Server.settle Samples.empty_tree
    (Some [Server.ToolCall "write" [ ("path", Json.JStr "a.txt"); ("content", Json.JStr "") ]])
    "list the files" "list the files" ["write"; "ls"] [ ("ls", ["path"]) ] true
  = Some [ Server.ToolCall "ls" [ ("path", Json.JStr ".") ] ]
  /\ Server._is_valid_write_call "list the files"
       [ Server.ToolCall "ls" [ ("path", Json.JStr ".") ] ] = true.
Proof.
  assert (E : Server.settle Samples.empty_tree
                (Some [Server.ToolCall "write"
                         [ ("path", Json.JStr "a.txt"); ("content", Json.JStr "") ]])
                "list the files" "list the files" ["write"; "ls"] [ ("ls", ["path"]) ] true
              = Some [ Server.ToolCall "ls" [ ("path", Json.JStr ".") ] ])
    by (vm_compute; reflexivity).
  split; [exact E |].
  exact (settled_calls_pass_validation _ _ _ _ _ _ _ _ E).
Defined.

(** ** Argument normalization *)

Lemma dict_has_set_same {V : Type} (k : string) (v : V) (d : list (string * V)) :
  Dict.has k (Dict.set k v d) = true.
Proof.
  unfold Dict.has. induction d as [| [k' v'] d IH]; cbn [Dict.set Dict.get].
  - now rewrite String.eqb_refl.
  - destruct (String.eqb k k') eqn:E; cbn [Dict.get]; [now rewrite String.eqb_refl |].
    now rewrite E.
Qed.

Lemma dict_has_set_other {V : Type} (k k' : string) (v : V) (d : list (string * V)) :
  Dict.has k d = true -> Dict.has k (Dict.set k' v d) = true.
Proof.
  unfold Dict.has. induction d as [| [k0 v0] d IH]; cbn [Dict.set Dict.get]; [discriminate |].
  destruct (String.eqb k' k0) eqn:E; cbn [Dict.get].
  - apply String.eqb_eq in E. subst k0. now destruct (String.eqb k k').
  - destruct (String.eqb k k0); [reflexivity | exact IH].
Qed.

Lemma dict_has_set_inv {V : Type} (k k' : string) (v : V) (d : list (string * V)) :
  Dict.has k (Dict.set k' v d) = true -> k = k' \/ Dict.has k d = true.
Proof.
  unfold Dict.has. induction d as [| [k0 v0] d IH]; cbn [Dict.set Dict.get].
  - destruct (String.eqb k k') eqn:E; [apply String.eqb_eq in E; now left | discriminate].
  - destruct (String.eqb k' k0) eqn:E; cbn [Dict.get].
    + apply String.eqb_eq in E. subst k0.
      destruct (String.eqb k k') eqn:E'; [apply String.eqb_eq in E'; now left | now right].
    + destruct (String.eqb k k0); [now right | exact IH].
Qed.

Lemma dict_has_in {V : Type} (k : string) (d : list (string * V)) :
  Dict.has k d = true <-> In k (map fst d).
Proof.
  unfold Dict.has. induction d as [| [k0 v0] d IH]; cbn [Dict.get map fst In].
  - split; [discriminate | tauto].
  - destruct (String.eqb k k0) eqn:E.
    + apply String.eqb_eq in E. subst. split; [now left | reflexivity].
    + apply String.eqb_neq in E. rewrite IH. split; [now right |].
      intros [H | H]; [congruence | exact H].
Qed.

Lemma normalize_free_step_keeps (acc : Json.dict) (kv : string * Json.value) (k : string) :
  Dict.has k acc = true \/ k = fst kv
  \/ Dict.get (Server._normalize_tool_name (fst kv)) Server._ARG_SYNONYMS = Some k ->
  Dict.has k (Server.normalize_arg_free acc kv) = true.
Proof.
  destruct kv as [key value]. unfold Server.normalize_arg_free. cbn [fst].
  destruct (Dict.get (Server._normalize_tool_name key) Server._ARG_SYNONYMS) as [syn |].
  - destruct (String.eqb syn key) eqn:E.
    + apply String.eqb_eq in E. subst syn.
      intros [H | [-> | [= ->]]];
        [now apply dict_has_set_other | apply dict_has_set_same | apply dict_has_set_same].
    + intros [H | [-> | [= ->]]].
      * now do 2 apply dict_has_set_other.
      * apply dict_has_set_other, dict_has_set_same.
      * apply dict_has_set_same.
  - intros [H | [-> | H]]; [now apply dict_has_set_other | apply dict_has_set_same | discriminate].
Qed.

Lemma normalize_free_fold_keeps (args acc : Json.dict) (k : string) :
  Dict.has k acc = true
  \/ (exists key value, In (key, value) args
        /\ (k = key \/ Dict.get (Server._normalize_tool_name key) Server._ARG_SYNONYMS = Some k)) ->
  Dict.has k (fold_left Server.normalize_arg_free args acc) = true.
Proof.
  revert acc. induction args as [| kv args IH]; intros acc; cbn [fold_left].
  - intros [H | (key & value & [] & _)]. exact H.
  - intros [H | (key & value & [-> | Hin] & Hk)].
    + apply IH. left. apply normalize_free_step_keeps. now left.
    + apply IH. left. apply normalize_free_step_keeps. right. exact Hk.
    + apply IH. right. now exists key, value.
Qed.

(** With no parameter list declared for the tool, normalization drops
    nothing and adds the canonical spellings: every key of the input is a key
    of the result, and so is the synonym of every key the table knows
    ([path] for filepath, file_path, filename, file; [command] for cmd). *)
Theorem normalize_args_without_schema_keeps_keys :
  forall (args : Json.dict) (key : string) (value : Json.value),
    In (key, value) args ->
    Dict.has key (Server._normalize_args args None) = true
    /\ (forall syn,
          Dict.get (Server._normalize_tool_name key) Server._ARG_SYNONYMS = Some syn ->
          Dict.has syn (Server._normalize_args args None) = true)
    /\ Server._normalize_args args (Some []) = Server._normalize_args args None.
Proof.
  intros args key value Hin. unfold Server._normalize_args. split; [| split].
  - apply normalize_free_fold_keeps. right. exists key, value. split; [exact Hin | now left].
  - intros syn Hs. apply normalize_free_fold_keeps. right. exists key, value.
    split; [exact Hin | now right].
  - reflexivity.
Qed.

Lemma normalize_args_without_schema_keeps_keys_witness :
  In ("file_path", Json.JStr "a.txt") [ ("file_path", Json.JStr "a.txt") ]
  /\ Dict.has "file_path"
       (Server._normalize_args [ ("file_path", Json.JStr "a.txt") ] None) = true
  /\ Dict.has "path" (Server._normalize_args [ ("file_path", Json.JStr "a.txt") ] None) = true.
Proof.
  assert (H : In ("file_path", Json.JStr "a.txt") [ ("file_path", Json.JStr "a.txt") ])
    by (now left).
  split; [exact H |]. split.
  - exact (proj1 (normalize_args_without_schema_keeps_keys _ _ _ H)).
  - exact (proj1 (proj2 (normalize_args_without_schema_keeps_keys _ _ _ H)) "path" eq_refl).
Defined.

Lemma dict_set_in_inv {V : Type} (k : string) (v : V) (d : list (string * V))
    (x : string) (w : V) :
  In (x, w) (Dict.set k v d) -> (x = k /\ w = v) \/ In (x, w) d.
Proof.
  induction d as [| [k' v'] d IH]; cbn [Dict.set].
  - intros [[= <- <-] | []]. now left.
  - destruct (String.eqb k k').
    + intros [[= <- <-] | H]; [now left | right; now right].
    + intros [H | H]; [right; now left |].
      destruct (IH H) as [E | E]; [now left | right; now right].
Qed.

Lemma dict_get_in {V : Type} (x : string) (d : list (string * V)) (p : V) :
  Dict.get x d = Some p -> In (x, p) d.
Proof.
  induction d as [| [k v] d IH]; cbn [Dict.get]; [discriminate |].
  destruct (String.eqb x k) eqn:E.
  - apply String.eqb_eq in E. subst. intros [= <-]. now left.
  - intros H. right. now apply IH.
Qed.

Lemma allowed_norm_declared (allowed more : list string) (acc : list (string * string)) :
  (forall x p, In (x, p) acc -> In p allowed) ->
  (forall p, In p more -> In p allowed) ->
  forall x p,
    In (x, p) (fold_left (fun d q => Dict.set (Server._normalize_tool_name q) q d) more acc) ->
    In p allowed.
Proof.
  revert acc. induction more as [| q more IH]; intros acc Hacc Hm x p; cbn [fold_left];
    [apply Hacc |].
  apply IH; [| intros; apply Hm; now right].
  intros y r Hy. apply dict_set_in_inv in Hy.
  destruct Hy as [[_ ->] | Hy]; [apply Hm; now left | exact (Hacc _ _ Hy)].
Qed.

Lemma normalize_schema_step (allowed : list string) (allowed_norm : list (string * string))
    (acc : Json.dict) (kv : string * Json.value) (k : string) (v : Json.value) :
  (forall x p, In (x, p) allowed_norm -> In p allowed) ->
  In (k, v) (Server.normalize_arg_schema allowed_norm acc kv) ->
  In (k, v) acc \/ ((In k allowed \/ k = fst kv) /\ v = snd kv).
Proof.
  intros Hn. destruct kv as [key value]. unfold Server.normalize_arg_schema. cbn [fst snd].
  assert (Set_declared : forall declared x,
             Dict.get x allowed_norm = Some declared ->
             In (k, v) (Dict.set declared value acc) ->
             In (k, v) acc \/ ((In k allowed \/ k = key) /\ v = value)).
  { intros declared x Hd H. apply dict_set_in_inv in H.
    destruct H as [[-> ->] | H]; [| now left].
    right. split; [left; exact (Hn _ _ (dict_get_in _ _ _ Hd)) | reflexivity]. }
  destruct (Dict.get (Server._normalize_tool_name key) allowed_norm) as [d1 |] eqn:G1;
    [exact (Set_declared _ _ G1) |].
  destruct (if String.eqb (Server._normalize_tool_name key) "path"
            then Dict.get "filepath" allowed_norm else None) as [d2 |] eqn:G2.
  - destruct (String.eqb (Server._normalize_tool_name key) "path"); [| discriminate].
    exact (Set_declared _ _ G2).
  - destruct (match Dict.get (Server._normalize_tool_name key) Server._ARG_SYNONYMS with
              | Some synonym => Dict.get (Server._normalize_tool_name synonym) allowed_norm
              | None => None
              end) as [d3 |] eqn:G3.
    + destruct (Dict.get (Server._normalize_tool_name key) Server._ARG_SYNONYMS) as [syn |];
        [| discriminate].
      exact (Set_declared _ _ G3).
    + intros H. apply dict_set_in_inv in H.
      destruct H as [[-> ->] | H]; [right; split; [now right | reflexivity] | now left].
Qed.

(** With a declared parameter list, normalization invents neither keys nor
    values: every entry of the result has the value of an input entry, under
    a key that is a declared parameter or the key that entry came in
    with. *)
Theorem normalize_args_with_schema_invents_nothing :
  forall (args : Json.dict) (p : string) (ps : list string) (k : string) (v : Json.value),
    In (k, v) (Server._normalize_args args (Some (p :: ps))) ->
    exists key, In (key, v) args /\ (In k (p :: ps) \/ k = key).
Proof.
  intros args p ps k v. unfold Server._normalize_args.
  set (allowed_norm := fold_left _ (p :: ps) []).
  assert (Hn : forall x q, In (x, q) allowed_norm -> In q (p :: ps)).
  { apply (allowed_norm_declared (p :: ps) (p :: ps) []); [intros x q [] | auto]. }
  assert (F : forall (l acc : Json.dict),
             In (k, v) (fold_left (Server.normalize_arg_schema allowed_norm) l acc) ->
             In (k, v) acc \/ exists key, In (key, v) l /\ (In k (p :: ps) \/ k = key)).
  { induction l as [| kv l IH]; intros acc; cbn [fold_left]; [now left |].
    intros H. destruct (IH _ H) as [H1 | (key & Hk & Hd)].
    - destruct (normalize_schema_step (p :: ps) allowed_norm acc kv k v Hn H1)
        as [H2 | [Hd ->]]; [now left |].
      right. exists (fst kv). split; [left; now destruct kv | exact Hd].
    - right. exists key. split; [now right | exact Hd]. }
  intros H. destruct (F args [] H) as [[] | H']. exact H'.
Qed.

Lemma normalize_args_with_schema_invents_nothing_witness :
  Server._normalize_args [ ("file_path", Json.JStr "a.txt"); ("mode", Json.JInt 1) ]
    (Some ["filePath"; "content"])
  = [ ("filePath", Json.JStr "a.txt"); ("mode", Json.JInt 1) ]
  /\ exists key,
       In (key, Json.JStr "a.txt") [ ("file_path", Json.JStr "a.txt"); ("mode", Json.JInt 1) ]
       /\ (In "filePath" ["filePath"; "content"] \/ "filePath" = key).
Proof.
  split; [reflexivity |].
  apply (normalize_args_with_schema_invents_nothing
           [ ("file_path", Json.JStr "a.txt"); ("mode", Json.JInt 1) ]
           "filePath" ["content"] "filePath" (Json.JStr "a.txt")).
  now left.
Defined.

(** * Further properties of the handler *)

Lemma relay_has_no_tool_calls (model : string) (sent : bool) (evs : list ApiClient.event) :
  existsb (fun c => match c with Server.SseToolCalls _ _ => true | _ => false end)
          (Server.relay model sent evs) = false.
Proof.
  revert sent. induction evs as [| [d | | d | | d] evs IH]; intros sent;
    cbn [Server.relay existsb orb]; auto.
Qed.

(** A request whose tools are switched off (no tool declared, [tool_choice]
    set to [none], or a last message that is a tool result) is never answered
    with tool calls, streamed or not. *)
Theorem no_tools_no_tool_calls :
  forall glob (req : Server.request) (backend : ApiClient.run) (r : Server.http_response),
    Server.req_tools req = [] \/ Server.req_tool_choice req = Server.ChoiceNone
    \/ Server.req_after_tool_result req = true ->
    Server.chat_completions glob req backend = Server.Ok r ->
    Observe.carries_tool_calls r = false.
Proof.
  intros glob req backend r Hoff.
  assert (T : Server.request_tools req = []).
  { unfold Server.request_tools. destruct Hoff as [H | [H | H]]; rewrite H.
    - destruct (Server.req_after_tool_result req); [reflexivity |].
      now destruct (Server.req_tool_choice req).
    - now destruct (Server.req_after_tool_result req).
    - reflexivity. }
  unfold Server.chat_completions, Server.shortcut. rewrite T.
  destruct (Server.req_stream req).
  - unfold Server._stream_glm_response. destruct (ApiClient.raised backend); intros [= <-];
      cbn [Observe.carries_tool_calls].
    + apply relay_has_no_tool_calls.
    + rewrite existsb_app, relay_has_no_tool_calls. reflexivity.
  - destruct (Server._collect_glm_response backend); [| discriminate].
    now intros [= <-].
Qed.

Lemma no_tools_no_tool_calls_witness :
  Server.chat_completions Samples.empty_tree Samples.plain_request Samples.failed_backend
  = Server.Ok (Server.JSONResponse (Server._openai_response "" "glm-4.7"))
  /\ Observe.carries_tool_calls (Server.JSONResponse (Server._openai_response "" "glm-4.7"))
     = false.
Proof.
  split; [reflexivity |].
  exact (no_tools_no_tool_calls Samples.empty_tree Samples.plain_request
           Samples.failed_backend
           (Server.JSONResponse (Server._openai_response "" "glm-4.7"))
           (or_introl eq_refl) eq_refl).
Defined.

Lemma sse_texts_app (a b : list Server.sse) :
  Observe.sse_texts (a ++ b) = (Observe.sse_texts a ++ Observe.sse_texts b)%list.
Proof.
  induction a as [| [m r c | m c | m | m |] a IH]; cbn [app Observe.sse_texts]; auto.
  now rewrite IH.
Qed.

Lemma sse_texts_relay (model : string) (sent : bool) (evs : list ApiClient.event) :
  Observe.sse_texts (Server.relay model sent evs) = Server.content_parts evs.
Proof.
  revert sent. induction evs as [| [d | | d | | d] evs IH]; intros sent;
    cbn [Server.relay Observe.sse_texts Server.content_parts]; auto.
  now rewrite IH.
Qed.

(** The streaming relay and the buffered path deliver the same answer: the
    text the non-streaming handler returns is the concatenation of the
    content chunks the relay sends for the same backend events, stripped of
    surrounding white space.  Thinking text reaches neither. *)
Theorem streamed_and_buffered_text_agree :
  forall (backend : ApiClient.run) (model : string),
    ApiClient.raised backend = false ->
    Server._collect_glm_response backend
    = Server.Ok (PyStr.strip
                   (String.concat ""
                      (Observe.sse_texts (fst (Server._stream_glm_response backend model)))))
    /\ Observe.sse_texts (fst (Server._stream_glm_response backend model))
       = Server.content_parts (ApiClient.events backend).
Proof.
  intros backend model H. unfold Server._collect_glm_response, Server._stream_glm_response.
  rewrite H. cbn [fst]. rewrite sse_texts_app, sse_texts_relay. cbn [Observe.sse_texts].
  rewrite app_nil_r. split; reflexivity.
Qed.

Lemma streamed_and_buffered_text_agree_witness :
  Server._collect_glm_response
    (ApiClient.Run [ApiClient.Thinking "hm"; ApiClient.ThinkingEnd; ApiClient.Content " a";
                    ApiClient.Content "b "; ApiClient.Done] false)
  = Server.Ok "ab".
Proof.
  exact (eq_trans
           (proj1 (streamed_and_buffered_text_agree
                     (ApiClient.Run [ApiClient.Thinking "hm"; ApiClient.ThinkingEnd;
                                     ApiClient.Content " a"; ApiClient.Content "b ";
                                     ApiClient.Done] false)
                     "glm-4.7" eq_refl))
           eq_refl).
Defined.

Lemma sse_roles_relay_sent (model : string) (evs : list ApiClient.event) :
  Observe.sse_roles (Server.relay model true evs)
  = map (fun _ => None) (Server.content_parts evs).
Proof.
  induction evs as [| [d | | d | | d] evs IH];
    cbn [Server.relay Observe.sse_roles Server.content_parts map]; auto.
  now rewrite IH.
Qed.

Lemma sse_roles_app (a b : list Server.sse) :
  Observe.sse_roles (a ++ b) = (Observe.sse_roles a ++ Observe.sse_roles b)%list.
Proof.
  induction a as [| [m r c | m c | m | m |] a IH]; cbn [app Observe.sse_roles]; auto.
  now rewrite IH.
Qed.

(** In a relayed stream the role is announced once: the first content chunk
    carries the role [assistant] and no later chunk carries a role. *)
Theorem relay_announces_role_once :
  forall (backend : ApiClient.run) (model : string),
    Observe.sse_roles (fst (Server._stream_glm_response backend model))
    = match Server.content_parts (ApiClient.events backend) with
      | [] => []
      | _ :: rest => Some "assistant" :: map (fun _ => None) rest
      end.
Proof.
  intros backend model.
  assert (R : forall evs,
             Observe.sse_roles (Server.relay model false evs)
             = match Server.content_parts evs with
               | [] => []
               | _ :: rest => Some "assistant" :: map (fun _ => None) rest
               end).
  { induction evs as [| [d | | d | | d] evs IH];
      cbn [Server.relay Observe.sse_roles Server.content_parts]; auto.
    now rewrite sse_roles_relay_sent. }
  unfold Server._stream_glm_response. destruct (ApiClient.raised backend); cbn [fst].
  - apply R.
  - rewrite sse_roles_app, R. cbn [Observe.sse_roles]. apply app_nil_r.
Qed.

(** * Further properties of the stream demultiplexer *)

Lemma iter_lines_cons (b : bool) (line : string) (rest : list string) :
  ApiClient.iter_lines b (line :: rest)
  = match ApiClient.process_line b line with
    | (evs, ApiClient.Next b') =>
        let '(evs', e) := ApiClient.iter_lines b' rest in ((evs ++ evs')%list, e)
    | (evs, ApiClient.Break) => (evs, ApiClient.Broke)
    | (evs, ApiClient.Crash) => (evs, ApiClient.Crashed)
    end.
Proof. reflexivity. Qed.

(** Nothing that follows the [[DONE]] sentinel is read: the lines after it
    can be anything, or absent, without a change in what the generator
    yields. *)
Theorem lines_after_sentinel_are_ignored :
  forall (b : bool) (before after : list string),
    ApiClient.iter_lines b (before ++ "data: [DONE]" :: after)
    = ApiClient.iter_lines b (before ++ ["data: [DONE]"]).
Proof.
  intros b before after. revert b.
  induction before as [| line before IH]; intros b.
  - reflexivity.
  - cbn [app]. rewrite !iter_lines_cons.
    destruct (ApiClient.process_line b line) as [evs [b' | |]]; try reflexivity.
    now rewrite IH.
Qed.

Lemma skipped_line_is_inert (b : bool) (line : string) :
  Observe.skipped line = true -> ApiClient.process_line b line = ([], ApiClient.Next b).
Proof.
  unfold Observe.skipped, ApiClient.process_line.
  destruct (PyStr.is_empty line); [reflexivity |].
  destruct (PyStr.startswith line "data: "); [| reflexivity].
  destruct (String.eqb (PyStr.drop 6 line) "[DONE]"); [discriminate |].
  destruct (Json.loads (PyStr.drop 6 line)); [discriminate | reflexivity].
Qed.

(** A line the loop has no use for (empty, without the [data: ] prefix, or
    with a payload that is not JSON) is harmless wherever it stands: taking
    it out of the stream changes neither the events nor the way the stream
    ends. *)
Theorem malformed_lines_are_harmless :
  forall (b : bool) (before after : list string) (line : string),
    Observe.skipped line = true ->
    ApiClient.iter_lines b (before ++ line :: after) = ApiClient.iter_lines b (before ++ after).
Proof.
  intros b before after line H. revert b.
  induction before as [| l before IH]; intros b; cbn [app].
  - rewrite iter_lines_cons, (skipped_line_is_inert b line H).
    now destruct (ApiClient.iter_lines b after).
  - rewrite !iter_lines_cons.
    destruct (ApiClient.process_line b l) as [evs [b' | |]]; try reflexivity.
    now rewrite IH.
Qed.

Lemma malformed_lines_are_harmless_witness :
  Observe.skipped "data: {not json" = true
  /\ ApiClient.iter_lines false
       ([ PyStr.q "data: {'choices':[{'delta':{'content':'a'}}]}" ]
          ++ "data: {not json" :: ["data: [DONE]"])
     = ApiClient.iter_lines false
         ([ PyStr.q "data: {'choices':[{'delta':{'content':'a'}}]}" ] ++ ["data: [DONE]"]).
Proof.
  assert (H : Observe.skipped "data: {not json" = true) by reflexivity.
  split; [exact H |].
  exact (malformed_lines_are_harmless false _ _ _ H).
Defined.

Lemma track_app (open : bool) (a b : list ApiClient.event) :
  Observe.track open (a ++ b)
  = match Observe.track open a with
    | Some open' => Observe.track open' b
    | None => None
    end.
Proof.
  revert open. induction a as [| [d | | d | | d] a IH]; intros open;
    cbn [app Observe.track]; auto.
  destruct open; auto.
Qed.

Lemma tracked_app (open : bool) (a c : list ApiClient.event) (mid : bool)
      (after : option bool) :
  Observe.tracked open a (Some mid) ->
  (forall open', implb open' mid = true -> Observe.tracked open' c after) ->
  Observe.tracked open (a ++ c) after.
Proof.
  unfold Observe.tracked. rewrite track_app.
  destruct (Observe.track open a) as [open' |]; [| tauto].
  intros H K. exact (K open' H).
Qed.

Lemma tracked_forget (open : bool) (a : list ApiClient.event) (mid : option bool) :
  Observe.tracked open a mid -> Observe.tracked open a None.
Proof.
  unfold Observe.tracked. destruct (Observe.track open a); tauto.
Qed.

Lemma process_parts_tracked (parts : list string) :
  forall b open,
    implb open b = true ->
    Observe.tracked open (fst (ApiClient.process_parts b parts))
                    (Some (snd (ApiClient.process_parts b parts))).
Proof.
  induction parts as [| part parts IH]; intros b open H; cbn [ApiClient.process_parts].
  - exact H.
  - destruct (PyStr.is_empty part); [now apply IH |].
    destruct (PyStr.startswith part "<details").
    { apply IH. now destruct open. }
    destruct (String.eqb part "</details>").
    + specialize (IH false false eq_refl).
      destruct (ApiClient.process_parts false parts) as [evs b'].
      cbn [fst snd] in *. unfold Observe.tracked in *.
      destruct b; cbn [app Observe.track]; [exact IH |].
      destruct open; [discriminate | exact IH].
    + specialize (IH b b (Bool.implb_same b)).
      destruct (ApiClient.process_parts b parts) as [evs b'].
      cbn [fst snd] in *. unfold Observe.tracked in *.
      destruct b; cbn [Observe.track]; [exact IH |].
      destruct open; [discriminate | exact IH].
Qed.

Lemma process_choice_tracked (choice : Json.value) :
  forall b open,
    implb open b = true ->
    Observe.tracked open (fst (ApiClient.process_choice b choice))
                    (Observe.state_after (snd (ApiClient.process_choice b choice))).
Proof.
  intros b open H. unfold ApiClient.process_choice.
  destruct choice as [| | | | | | c]; try exact I.
  destruct (Dict.get_default "delta" (Json.JObj []) c) as [| | | | | | delta]; try exact I.
  destruct (Json.truthy (Dict.get_default "content" (Json.JStr "") delta)); [| exact H].
  destruct (Dict.get_default "content" (Json.JStr "") delta) as [| | | | content | |];
    try exact I.
  cbv zeta.
  match goal with
  | |- context [PyStr.contains "</think>" ?s] => destruct (PyStr.contains "</think>" s)
  end.
  - cbn [fst snd Observe.state_after]. unfold Observe.tracked.
    rewrite track_app.
    match goal with
    | |- context [PyStr.is_empty ?p] => destruct (PyStr.is_empty p)
    end; cbn [Observe.track app];
      match goal with
      | |- context [match ?l with [] => _ | _ :: _ => _ end] => destruct l as [| p0 [| p1 rest]]
      end; try reflexivity;
        destruct (PyStr.is_empty p1); reflexivity.
  - destruct (ApiClient.search_think content) as [tag |].
    + reflexivity.
    + destruct b; [reflexivity |]. destruct open; [discriminate | reflexivity].
Qed.

Lemma process_choices_tracked (choices : list Json.value) :
  forall b open,
    implb open b = true ->
    Observe.tracked open (fst (ApiClient.process_choices b choices))
                    (Observe.state_after (snd (ApiClient.process_choices b choices))).
Proof.
  induction choices as [| choice choices IH]; intros b open H;
    cbn [ApiClient.process_choices].
  - exact H.
  - pose proof (process_choice_tracked choice b open H) as P.
    destruct (ApiClient.process_choice b choice) as [evs [b' | |]]; cbn [fst snd] in *;
      try exact P.
    specialize (IH b').
    destruct (ApiClient.process_choices b' choices) as [evs' c]. cbn [fst snd] in *.
    exact (tracked_app open evs evs' b' _ P IH).
Qed.

Lemma process_completion_tracked (d : Json.dict) :
  forall b open,
    implb open b = true ->
    Observe.tracked open (fst (ApiClient.process_completion b d))
                    (Observe.state_after (snd (ApiClient.process_completion b d))).
Proof.
  intros b open H. unfold ApiClient.process_completion.
  destruct (Dict.get_default "data" (Json.JObj []) d) as [| | | | | | delta]; try exact I.
  cbv zeta.
  set (content := if Json.truthy _ then _ else _).
  assert (E : exists evs1 b1 fin,
             (if Json.eq_str (Json.get_none "phase" delta) "thinking"
              then ([], true, false)
              else if Json.eq_str (Json.get_none "phase" delta) "answer"
                      || Json.eq_str (Json.get_none "phase" delta) "other"
                      || Json.eq_str (Json.get_none "phase" delta) "done"
                   then (((if b then [ApiClient.ThinkingEnd] else [])
                          ++ (if Json.eq_str (Json.get_none "phase" delta) "done"
                              then [ApiClient.Done] else []))%list,
                         false, Json.eq_str (Json.get_none "phase" delta) "done")
                   else ([], b, false)) = (evs1, b1, fin)
             /\ Observe.tracked open evs1 (Some b1)).
  { destruct (Json.eq_str (Json.get_none "phase" delta) "thinking").
    - exists [], true, false. split; [reflexivity |]. now destruct open.
    - destruct (Json.eq_str (Json.get_none "phase" delta) "answer"
                || Json.eq_str (Json.get_none "phase" delta) "other"
                || Json.eq_str (Json.get_none "phase" delta) "done").
      + eexists _, _, _. split; [reflexivity |].
        unfold Observe.tracked.
        destruct b, open, (Json.eq_str (Json.get_none "phase" delta) "done");
          try discriminate; reflexivity.
      + exists [], b, false. split; [reflexivity | exact H]. }
  destruct E as (evs1 & b1 & fin & -> & T).
  destruct fin; [exact T |].
  destruct (Json.truthy content); [| exact T].
  destruct content as [| | | | text | |]; try exact (tracked_forget _ _ _ T).
  pose proof (process_parts_tracked (ApiClient.re_split_details text) b1) as P.
  destruct (ApiClient.process_parts b1 (ApiClient.re_split_details text)) as [evs2 b2].
  cbn [fst snd Observe.state_after] in *.
  exact (tracked_app open evs1 evs2 b1 _ T P).
Qed.

Lemma process_line_tracked (line : string) :
  forall b open,
    implb open b = true ->
    Observe.tracked open (fst (ApiClient.process_line b line))
                    (Observe.state_after (snd (ApiClient.process_line b line))).
Proof.
  intros b open H. unfold ApiClient.process_line.
  destruct (PyStr.is_empty line); [exact H |].
  destruct (PyStr.startswith line "data: "); [| exact H].
  cbv zeta. destruct (String.eqb (PyStr.drop 6 line) "[DONE]"); [exact I |].
  destruct (Json.loads (PyStr.drop 6 line)) as [data |]; [| exact H].
  unfold ApiClient.process_data.
  destruct data as [| | | | | | d]; try exact I.
  destruct (Dict.has "choices" d).
  - destruct (ApiClient.iter_items (Dict.get_default "choices" Json.JNull d)); [| exact I].
    now apply process_choices_tracked.
  - destruct (Json.eq_str (Json.get_none "type" d) "chat:completion"); [| exact H].
    now apply process_completion_tracked.
Qed.

Lemma iter_lines_tracked (lines : list string) :
  forall b open,
    implb open b = true ->
    Observe.tracked open (fst (ApiClient.iter_lines b lines))
                    (Observe.state_at_end (snd (ApiClient.iter_lines b lines))).
Proof.
  induction lines as [| line lines IH]; intros b open H.
  - exact H.
  - rewrite iter_lines_cons.
    pose proof (process_line_tracked line b open H) as P.
    destruct (ApiClient.process_line b line) as [evs [b' | |]]; cbn [fst snd] in *.
    + specialize (IH b').
      destruct (ApiClient.iter_lines b' lines) as [evs' e]. cbn [fst snd] in *.
      exact (tracked_app open evs evs' b' _ P IH).
    + exact (tracked_forget _ _ _ P).
    + exact (tracked_forget _ _ _ P).
Qed.

(** Whatever lines the backend sends, in either wire format and however the
    stream ends, [send_message] never yields a Content event between a
    Thinking event and the ThinkingEnd that closes it. *)
Theorem content_never_inside_thinking_region :
  forall (lines : list string) (failure : option string),
    exists open,
      Observe.track false (ApiClient.events (ApiClient.send_message lines failure))
      = Some open.
Proof.
  intros lines failure. unfold ApiClient.send_message.
  pose proof (iter_lines_tracked lines false false eq_refl) as P.
  unfold Observe.tracked in P.
  destruct (ApiClient.iter_lines false lines) as [evs [b | |]]; cbn [fst snd ApiClient.events] in *.
  - rewrite track_app. destruct (Observe.track false evs) as [o |]; [| tauto].
    destruct failure; cbn [Observe.track]; eauto.
  - destruct (Observe.track false evs) as [o |]; [eauto | tauto].
  - destruct (Observe.track false evs) as [o |]; [eauto | tauto].
Qed.

Lemma process_parts_no_error (parts : list string) :
  forall b, Forall (fun e => Observe.is_error e = false /\ Observe.text_not_empty e = true)
                   (fst (ApiClient.process_parts b parts)).
Proof.
  induction parts as [| part parts IH]; intros b; cbn [ApiClient.process_parts].
  - constructor.
  - destruct (PyStr.is_empty part) eqn:E; [apply IH |].
    destruct (PyStr.startswith part "<details"); [apply IH |].
    destruct (String.eqb part "</details>").
    + specialize (IH false). destruct (ApiClient.process_parts false parts) as [evs b'].
      cbn [fst] in *. destruct b; cbn [app]; auto.
    + specialize (IH b). destruct (ApiClient.process_parts b parts) as [evs b'].
      cbn [fst] in *. constructor; [| exact IH].
      destruct b; cbn [Observe.is_error Observe.text_not_empty]; rewrite E; auto.
Qed.

Lemma process_completion_no_error (d : Json.dict) (b : bool) :
  Forall (fun e => Observe.is_error e = false /\ Observe.text_not_empty e = true)
         (fst (ApiClient.process_completion b d)).
Proof.
  unfold ApiClient.process_completion.
  destruct (Dict.get_default "data" (Json.JObj []) d) as [| | | | | | delta];
    try (constructor; fail).
  cbv zeta.
  set (content := if Json.truthy _ then _ else _).
  set (P := fun e => Observe.is_error e = false /\ Observe.text_not_empty e = true).
  assert (E : exists evs1 b1 fin,
             (if Json.eq_str (Json.get_none "phase" delta) "thinking"
              then ([], true, false)
              else if Json.eq_str (Json.get_none "phase" delta) "answer"
                      || Json.eq_str (Json.get_none "phase" delta) "other"
                      || Json.eq_str (Json.get_none "phase" delta) "done"
                   then (((if b then [ApiClient.ThinkingEnd] else [])
                          ++ (if Json.eq_str (Json.get_none "phase" delta) "done"
                              then [ApiClient.Done] else []))%list,
                         false, Json.eq_str (Json.get_none "phase" delta) "done")
                   else ([], b, false)) = (evs1, b1, fin)
             /\ Forall P evs1).
  { destruct (Json.eq_str (Json.get_none "phase" delta) "thinking").
    - exists [], true, false. split; [reflexivity | constructor].
    - destruct (Json.eq_str (Json.get_none "phase" delta) "answer"
                || Json.eq_str (Json.get_none "phase" delta) "other"
                || Json.eq_str (Json.get_none "phase" delta) "done").
      + eexists _, _, _. split; [reflexivity |].
        destruct b, (Json.eq_str (Json.get_none "phase" delta) "done"); cbn [app];
          repeat constructor.
      + exists [], b, false. split; [reflexivity | constructor]. }
  destruct E as (evs1 & b1 & fin & -> & T).
  destruct fin; [exact T |].
  destruct (Json.truthy content); [| exact T].
  destruct content as [| | | | text | |]; try exact T.
  pose proof (process_parts_no_error (ApiClient.re_split_details text) b1) as Q.
  destruct (ApiClient.process_parts b1 (ApiClient.re_split_details text)) as [evs2 b2].
  cbn [fst] in *. apply Forall_app. split; assumption.
Qed.

(** In the [chat:completion] format no text event is empty: every Thinking
    and Content event that an envelope produces carries at least one
    character, whatever the envelope holds. *)
Theorem completion_text_events_carry_text :
  forall (b : bool) (d : Json.dict),
    Forall (fun e => Observe.text_not_empty e = true) (fst (ApiClient.process_completion b d)).
Proof.
  intros b d. eapply Forall_impl; [| apply process_completion_no_error].
  intros e [_ H]. exact H.
Qed.

Lemma process_choice_no_error (choice : Json.value) (b : bool) :
  Forall (fun e => Observe.is_error e = false) (fst (ApiClient.process_choice b choice)).
Proof.
  unfold ApiClient.process_choice.
  destruct choice as [| | | | | | c]; try (constructor; fail).
  destruct (Dict.get_default "delta" (Json.JObj []) c) as [| | | | | | delta];
    try (constructor; fail).
  destruct (Json.truthy (Dict.get_default "content" (Json.JStr "") delta));
    [| constructor].
  destruct (Dict.get_default "content" (Json.JStr "") delta) as [| | | | content | |];
    try (constructor; fail).
  cbv zeta.
  match goal with
  | |- context [PyStr.contains "</think>" ?s] => destruct (PyStr.contains "</think>" s)
  end.
  - cbn [fst]. repeat (apply Forall_app; split).
    + match goal with
      | |- context [PyStr.is_empty ?p] => destruct (PyStr.is_empty p)
      end; repeat constructor.
    + repeat constructor.
    + match goal with
      | |- context [match ?l with [] => _ | _ :: _ => _ end] => destruct l as [| p0 [| p1 rest]]
      end; try constructor.
      destruct (PyStr.is_empty p1); repeat constructor.
  - destruct (ApiClient.search_think content), b; repeat constructor.
Qed.

Lemma process_choices_no_error (choices : list Json.value) :
  forall b, Forall (fun e => Observe.is_error e = false)
                   (fst (ApiClient.process_choices b choices)).
Proof.
  induction choices as [| choice choices IH]; intros b; cbn [ApiClient.process_choices].
  - constructor.
  - pose proof (process_choice_no_error choice b) as P.
    destruct (ApiClient.process_choice b choice) as [evs [b' | |]]; cbn [fst] in *;
      try exact P.
    specialize (IH b').
    destruct (ApiClient.process_choices b' choices) as [evs' c]. cbn [fst] in *.
    apply Forall_app. split; assumption.
Qed.

Lemma process_line_no_error (line : string) (b : bool) :
  Forall (fun e => Observe.is_error e = false) (fst (ApiClient.process_line b line)).
Proof.
  unfold ApiClient.process_line.
  destruct (PyStr.is_empty line); [constructor |].
  destruct (PyStr.startswith line "data: "); [| constructor].
  cbv zeta. destruct (String.eqb (PyStr.drop 6 line) "[DONE]"); [repeat constructor |].
  destruct (Json.loads (PyStr.drop 6 line)) as [data |]; [| constructor].
  unfold ApiClient.process_data.
  destruct data as [| | | | | | d]; try (constructor; fail).
  destruct (Dict.has "choices" d).
  - destruct (ApiClient.iter_items (Dict.get_default "choices" Json.JNull d));
      [| constructor].
    apply process_choices_no_error.
  - destruct (Json.eq_str (Json.get_none "type" d) "chat:completion"); [| constructor].
    eapply Forall_impl; [| apply process_completion_no_error].
    intros e [H _]. exact H.
Qed.

Lemma iter_lines_no_error (lines : list string) :
  forall b, Forall (fun e => Observe.is_error e = false)
                   (fst (ApiClient.iter_lines b lines)).
Proof.
  induction lines as [| line lines IH]; intros b.
  - constructor.
  - rewrite iter_lines_cons.
    pose proof (process_line_no_error line b) as P.
    destruct (ApiClient.process_line b line) as [evs [b' | |]]; cbn [fst] in *;
      try exact P.
    specialize (IH b').
    destruct (ApiClient.iter_lines b' lines) as [evs' e]. cbn [fst] in *.
    apply Forall_app. split; assumption.
Qed.

(** An Error event is only ever the last event of a run, and is there only
    when the transport failed: the events are free of Error, or they are an
    Error-free sequence followed by the one Error that reports the failure.
    No content of the stream can make the generator report an error. *)
Theorem error_event_only_reports_transport_failure :
  forall (lines : list string) (failure : option string),
    exists evs,
      Forall (fun e => Observe.is_error e = false) evs
      /\ (ApiClient.events (ApiClient.send_message lines failure) = evs
          \/ exists msg,
              failure = Some msg
              /\ ApiClient.events (ApiClient.send_message lines failure)
                 = (evs ++ [ApiClient.Error msg])%list).
Proof.
  intros lines failure. unfold ApiClient.send_message.
  pose proof (iter_lines_no_error lines false) as P.
  destruct (ApiClient.iter_lines false lines) as [evs [b | |]]; cbn [fst ApiClient.events] in *;
    exists evs; (split; [exact P |]).
  - destruct failure as [msg |].
    + right. exists msg. split; reflexivity.
    + left. apply app_nil_r.
  - now left.
  - now left.
Qed.

(** * The handler from end to end *)

Lemma enumerate_calls_names (idx : nat) (calls : list Server.tool_call) :
  map Server.fc_name (Server.enumerate_calls idx calls) = map Server.name calls.
Proof.
  revert idx. induction calls as [| c calls IH]; intros idx; cbn [Server.enumerate_calls map].
  - reflexivity.
  - cbn [Server.fc_name]. now rewrite IH.
Qed.

Lemma enumerate_calls_indices (idx : nat) (calls : list Server.tool_call) :
  map Server.fc_index (Server.enumerate_calls idx calls) = seq idx (List.length calls).
Proof.
  revert idx. induction calls as [| c calls IH]; intros idx;
    cbn [Server.enumerate_calls map List.length seq].
  - reflexivity.
  - cbn [Server.fc_index]. now rewrite IH.
Qed.

Lemma enumerate_calls_length (idx : nat) (calls : list Server.tool_call) :
  List.length (Server.enumerate_calls idx calls) = List.length calls.
Proof.
  rewrite <- (length_map Server.fc_index), enumerate_calls_indices. apply length_seq.
Qed.

Lemma respond_calls_tool_calls (stream : bool) (model : string) (calls : list Server.tool_call) :
  Observe.tool_calls_of (Server.respond_calls stream model calls)
  = Server.enumerate_calls 0 calls.
Proof.
  destruct stream; cbn; [apply app_nil_r | reflexivity].
Qed.

Lemma relay_tool_calls (model : string) (sent : bool) (evs : list ApiClient.event) :
  flat_map (fun c => match c with Server.SseToolCalls _ calls => calls | _ => [] end)
           (Server.relay model sent evs) = [].
Proof.
  revert sent. induction evs as [| [d | | d | | d] evs IH]; intros sent;
    cbn [Server.relay flat_map app]; auto.
Qed.

Lemma fallback_read_allowed glob (u : string) (allowed : list string)
    (params : list (string * list string)) (out : list Server.tool_call) :
  Server._fallback_read_call glob u allowed params = Some out ->
  Forall (fun tc => In (Server.name tc) allowed) out.
Proof.
  unfold Server._fallback_read_call.
  destruct (Server._resolve_tool_name "read" allowed) as [tool |] eqn:R; [| discriminate].
  rewrite resolve_tool_name_is_find in R. apply find_some in R. destruct R as [Hin _].
  repeat match goal with
         | |- context [if ?b then _ else _] => destruct b; try discriminate
         | |- context [match ?x with _ => _ end] =>
             match x with
             | Server.find_candidates _ _ => destruct x; try discriminate
             | Server.cleaned_candidates _ => destruct x; try discriminate
             end
         end.
  intros [= <-]. constructor; [exact Hin | constructor].
Qed.

Lemma fallback_tool_allowed (u : string) (allowed : list string)
    (params : list (string * list string)) (out : list Server.tool_call) :
  Server._fallback_tool_call u allowed params = Some out ->
  Forall (fun tc => In (Server.name tc) allowed) out.
Proof.
  intros H. apply listing_fallback_schema in H.
  destruct H as (tool & args & -> & Hin & _). constructor; [exact Hin | constructor].
Qed.

Lemma settle_allowed glob (extracted : option (list Server.tool_call)) (u u_raw : string)
    (allowed : list string) (params : list (string * list string)) (actionable : bool)
    (calls : list Server.tool_call) :
  (forall e, extracted = Some e -> Forall (fun tc => In (Server.name tc) allowed) e) ->
  Server.settle glob extracted u u_raw allowed params actionable = Some calls ->
  Forall (fun tc => In (Server.name tc) allowed) calls.
Proof.
  intros He. unfold Server.settle. cbv zeta.
  assert (Hc : forall current,
             match extracted with
             | Some calls0 =>
                 if negb (Server._is_valid_write_call u calls0)
                 then Server._fallback_read_call glob u_raw allowed params
                 else extracted
             | None => None
             end = Some current ->
             Forall (fun tc => In (Server.name tc) allowed) current).
  { intros current. destruct extracted as [e |]; [| discriminate].
    destruct (negb (Server._is_valid_write_call u e)).
    - apply fallback_read_allowed.
    - intros [= <-]. now apply He. }
  destruct (match extracted with
            | Some calls0 =>
                if negb (Server._is_valid_write_call u calls0)
                then Server._fallback_read_call glob u_raw allowed params
                else extracted
            | None => None
            end) as [current |].
  - destruct (Server._is_valid_write_call u current).
    + intros [= <-]. now apply Hc.
    + destruct actionable; [apply fallback_tool_allowed | discriminate].
  - destruct actionable; [apply fallback_tool_allowed | discriminate].
Qed.

Lemma request_tools_declared (req : Server.request) (t : string) :
  In t (map Server.td_name (Server.request_tools req)) ->
  In t (map Server.td_name (Server.req_tools req)).
Proof.
  unfold Server.request_tools.
  destruct (Server.req_after_tool_result req); [intros [] |].
  destruct (Server.req_tool_choice req); auto. intros [].
Qed.

Lemma request_allowed_declared (req : Server.request) (t : string) :
  In t (Server.request_allowed_tools req) ->
  In t (map Server.td_name (Server.req_tools req)).
Proof.
  unfold Server.request_allowed_tools. cbv zeta. intros H.
  apply request_tools_declared.
  destruct (if Server.req_after_tool_result req
            then Server.ChoiceNone else Server.req_tool_choice req) as [| | m | [forced |]];
    try exact H.
  destruct (negb (PyStr.is_empty forced)
            && Server.mem forced (map Server.td_name (Server.request_tools req))) eqn:E;
    [| exact H].
  destruct H as [<- | []]. apply andb_prop in E. now apply mem_In.
Qed.

Lemma enumerate_calls_declared (req : Server.request) (calls : list Server.tool_call) :
  Forall (fun tc => In (Server.name tc) (Server.request_allowed_tools req)) calls ->
  Forall (fun fc => In (Server.fc_name fc) (map Server.td_name (Server.req_tools req)))
         (Server.enumerate_calls 0 calls).
Proof.
  generalize 0. induction calls as [| c calls IH]; intros idx H;
    cbn [Server.enumerate_calls]; constructor.
  - cbn [Server.fc_name]. apply request_allowed_declared. now inversion H.
  - apply IH. now inversion H.
Qed.

Lemma shortcut_allowed glob (req : Server.request) (calls : list Server.tool_call) :
  Server.shortcut glob req = Some calls ->
  Forall (fun tc => In (Server.name tc) (Server.request_allowed_tools req)) calls.
Proof.
  unfold Server.shortcut. destruct (Server.request_tools req); [discriminate |].
  destruct (Server._fallback_read_call glob (Server.req_last_user_raw req)
              (Server.request_allowed_tools req) (Server.request_params req)) eqn:R.
  - intros [= <-]. exact (fallback_read_allowed _ _ _ _ _ R).
  - destruct (Server.request_actionable req); [apply fallback_tool_allowed | discriminate].
Qed.

Lemma handler_tool_calls glob (req : Server.request) (backend : ApiClient.run)
    (r : Server.http_response) :
  Server.chat_completions glob req backend = Server.Ok r ->
  Observe.tool_calls_of r = []
  \/ exists calls,
       Observe.tool_calls_of r = Server.enumerate_calls 0 calls
       /\ Forall (fun tc => In (Server.name tc) (Server.request_allowed_tools req)) calls.
Proof.
  unfold Server.chat_completions. cbv zeta.
  destruct (Server.shortcut glob req) as [fallback |] eqn:S.
  { intros [= <-]. right. exists fallback. split;
      [apply respond_calls_tool_calls | exact (shortcut_allowed _ _ _ S)]. }
  destruct (Server.request_tools req).
  - destruct (Server.req_stream req).
    + unfold Server._stream_glm_response.
      destruct (ApiClient.raised backend); intros [= <-]; left;
        cbn [Observe.tool_calls_of]; [| rewrite flat_map_app]; rewrite relay_tool_calls;
          reflexivity.
    + destruct (Server._collect_glm_response backend); [| discriminate].
      intros [= <-]. now left.
  - destruct (Server._collect_glm_response backend) as [full_text |]; [| discriminate].
    unfold Server.synthesize, Server.extract.
    set (A := Server.request_allowed_tools req).
    set (P := Server.request_params req).
    assert (K : forall extracted settled,
               (forall e, extracted = Some e ->
                          Forall (fun tc => In (Server.name tc) A) e) ->
               Server.settle glob extracted (PyStr.lower (Server.req_last_user_raw req))
                 (Server.req_last_user_raw req) A P (Server.request_actionable req)
               = settled ->
               Observe.tool_calls_of
                 (Server.respond_settled (Server.req_stream req) (Server.request_model req)
                    full_text settled) = []
               \/ exists calls,
                   Observe.tool_calls_of
                     (Server.respond_settled (Server.req_stream req)
                        (Server.request_model req) full_text settled)
                   = Server.enumerate_calls 0 calls
                   /\ Forall (fun tc => In (Server.name tc) A) calls).
    { intros extracted [calls |] He Hs.
      - right. exists calls. split; [apply respond_calls_tool_calls |].
        exact (settle_allowed _ _ _ _ _ _ _ _ He Hs).
      - left. cbn [Server.respond_settled]. now destruct (Server.req_stream req). }
    destruct (Server._extract_tool_call full_text A P) as [[e |] |] eqn:E; [| | discriminate].
    + intros [= <-]. eapply K; [| reflexivity].
      intros e' [= <-]. exact (proj2 (extract_stage_allowed _ _ _ _ E)).
    + intros [= <-]. eapply K; [| reflexivity].
      intros e' He'. apply partial_stage_allowed in He'.
      destruct He' as (tn & args & -> & Hin & _). constructor; [exact Hin | constructor].
Qed.

(** Whatever the model wrote and whichever stage produced them, the tool
    calls in a response of the handler name tools that the request declared:
    no synonym table, recovery or fallback makes it call a tool the client
    did not offer. *)
Theorem answered_calls_name_declared_tools :
  forall glob (req : Server.request) (backend : ApiClient.run) (r : Server.http_response),
    Server.chat_completions glob req backend = Server.Ok r ->
    Forall (fun fc => In (Server.fc_name fc) (map Server.td_name (Server.req_tools req)))
           (Observe.tool_calls_of r).
Proof.
  intros glob req backend r H.
  destruct (handler_tool_calls _ _ _ _ H) as [-> | (calls & -> & F)].
  - constructor.
  - now apply enumerate_calls_declared.
Qed.

Lemma answered_calls_name_declared_tools_witness :
  Forall (fun fc => In (Server.fc_name fc) ["write"; "bash"])
         [ Server.FunctionCall 0 "write"
             [ ("path", Json.JStr "a.txt"); ("content", Json.JStr "hi") ] ].
Proof.
  exact (answered_calls_name_declared_tools Samples.empty_tree Samples.tools_request
           (ApiClient.Run [ApiClient.Content Samples.sample_tool_text; ApiClient.Done] false)
           (Server.JSONResponse
              (Server._openai_tool_response
                 [ Server.ToolCall "write"
                     [ ("path", Json.JStr "a.txt"); ("content", Json.JStr "hi") ] ]
                 "glm-4.7"))
           eq_refl).
Defined.

(** The tool calls of a response are numbered from 0 in steps of one, in the
    order in which the pipeline produced them, in the streamed chunk as in
    the plain body. *)
Theorem answered_calls_are_numbered_in_order :
  forall glob (req : Server.request) (backend : ApiClient.run) (r : Server.http_response),
    Server.chat_completions glob req backend = Server.Ok r ->
    map Server.fc_index (Observe.tool_calls_of r)
    = seq 0 (List.length (Observe.tool_calls_of r)).
Proof.
  intros glob req backend r H.
  destruct (handler_tool_calls _ _ _ _ H) as [-> | (calls & -> & _)].
  - reflexivity.
  - now rewrite enumerate_calls_indices, enumerate_calls_length.
Qed.

Lemma answered_calls_are_numbered_in_order_witness :
  map Server.fc_index
      [ Server.FunctionCall 0 "write"
          [ ("path", Json.JStr "a.txt"); ("content", Json.JStr "hi") ] ]
  = seq 0 1.
Proof.
  exact (answered_calls_are_numbered_in_order Samples.empty_tree Samples.tools_request
           (ApiClient.Run [ApiClient.Content Samples.sample_tool_text; ApiClient.Done] false)
           (Server.JSONResponse
              (Server._openai_tool_response
                 [ Server.ToolCall "write"
                     [ ("path", Json.JStr "a.txt"); ("content", Json.JStr "hi") ] ]
                 "glm-4.7"))
           eq_refl).
Defined.

(** * The sorted payload *)

Lemma uint_string_comma_free (d : Decimal.uint) :
  Observe.comma_free (NilEmpty.string_of_uint d) = true.
Proof. induction d; cbn [NilEmpty.string_of_uint Observe.comma_free]; auto. Qed.

Lemma str_of_int_comma_free (n : Z) : Observe.comma_free (PyStr.str_of_int n) = true.
Proof.
  unfold PyStr.str_of_int, NilZero.string_of_int, NilZero.string_of_uint.
  destruct (Z.to_int n) as [d | d].
  - destruct d; try reflexivity; apply (uint_string_comma_free (_ d)).
  - cbn [Observe.comma_free negb andb Ascii.eqb]. change (Ascii.eqb "-" ",") with false.
    cbn [negb andb].
    destruct d; try reflexivity; apply (uint_string_comma_free (_ d)).
Qed.

Lemma split_at_first_comma (a b r r' : string) :
  Observe.comma_free a = true -> Observe.comma_free b = true ->
  (a ++ String "," r = b ++ String "," r')%string ->
  a = b /\ r = r'.
Proof.
  revert b. induction a as [| c a IH]; intros [| d b] Ha Hb E; cbn [String.append] in E.
  - injection E as ->. now split.
  - injection E as <- _. cbn in Hb. discriminate.
  - injection E as -> _. cbn in Ha. discriminate.
  - injection E as -> E. cbn [Observe.comma_free] in Ha, Hb.
    apply andb_prop in Ha. apply andb_prop in Hb.
    destruct (IH b (proj2 Ha) (proj2 Hb) E) as [-> ->]. now split.
Qed.

(** The sorted payload identifies the request it was built for: with request
    ids that hold no comma (as UUIDs do), two payloads are equal only if the
    timestamp, the request id and the user id are all equal. *)
Theorem sorted_payload_identifies_request :
  forall (ts ts' : Z) (rid rid' uid uid' : string),
    Observe.comma_free rid = true ->
    Observe.comma_free rid' = true ->
    Signature.build_sorted_payload ts rid uid = Signature.build_sorted_payload ts' rid' uid' ->
    ts = ts' /\ rid = rid' /\ uid = uid'.
Proof.
  intros ts ts' rid rid' uid uid' Hr Hr' E.
  rewrite !build_sorted_payload_eq in E.
  apply (append_cancel_l "requestId") in E.
  change (",timestamp," ++ ?x)%string with (String "," ("timestamp," ++ x))%string in E.
  cbn [String.append] in E. injection E as E.
  apply split_at_first_comma in E; [| assumption | assumption].
  destruct E as [-> E].
  apply (append_cancel_l "timestamp,") in E.
  change (",user_id," ++ ?x)%string with (String "," ("user_id," ++ x))%string in E.
  apply split_at_first_comma in E; [| apply str_of_int_comma_free | apply str_of_int_comma_free].
  destruct E as [E1 E2].
  apply str_of_int_inj in E1. apply (append_cancel_l "user_id,") in E2.
  now repeat split.
Qed.

Lemma sorted_payload_identifies_request_witness :
  Observe.comma_free "7f3a-01" = true
  /\ (1700000000000 = 1700000000000 /\ "7f3a-01" = "7f3a-01" /\ "u-1" = "u-1")%Z.
Proof.
  split; [reflexivity |].
  exact (sorted_payload_identifies_request 1700000000000 1700000000000 "7f3a-01" "7f3a-01"
           "u-1" "u-1" eq_refl eq_refl eq_refl).
Defined.

(** A request id with commas in it can pass for other fields: the payload of
    one request is then also the payload of a request with another
    timestamp and another user id. *)
Example sorted_payload_collision_with_commas :
  Signature.build_sorted_payload 1 "r" "x,timestamp,2,user_id,y"
  = Signature.build_sorted_payload 2 "r,timestamp,1,user_id,x" "y".
Proof. reflexivity. Qed.

(** * The token and the signed request *)

Lemma split_aux_without_separator (c : ascii) (cur s : string) :
  DemuxSpec.free_of c s = true ->
  PyStr.split_aux (String c "") 0 cur s = [PyStr.rev_string "" (PyStr.rev_string cur s)].
Proof.
  revert cur. induction s as [| d s IH]; intros cur F; [reflexivity |].
  cbn [DemuxSpec.free_of] in F. apply andb_prop in F. destruct F as [Fd Fs].
  apply negb_true_iff in Fd.
  cbn [PyStr.split_aux PyStr.is_prefix]. rewrite Ascii.eqb_sym, Fd.
  cbn [PyStr.rev_string]. now apply IH.
Qed.

(** A token that is not made of segments separated by dots has no payload
    to decode: the user id read from it is the empty string, and the decoder
    is not even tried. *)
Theorem token_without_dot_has_no_user_id :
  forall (decoded_text : string -> option string) (token : string),
    DemuxSpec.free_of "." token = true ->
    JwtUtils.get_user_id_from_token decoded_text token = "".
Proof.
  intros decoded_text token F.
  unfold JwtUtils.get_user_id_from_token, JwtUtils.decode_jwt_payload, PyStr.split.
  now rewrite (split_aux_without_separator "." "" token F).
Qed.

Lemma token_without_dot_has_no_user_id_witness :
  JwtUtils.get_user_id_from_token (fun part => Some part) "not-a-jwt" = "".
Proof.
  exact (token_without_dot_has_no_user_id (fun part => Some part) "not-a-jwt" eq_refl).
Defined.

Lemma choose_signature_generated (now_ms : Z) (fresh_uuid : string)
    (opts : Client.signing_options) (prompt user_id : string) :
  Server.truthy_str (Client.manual_signature opts) = false ->
  Client.choose_signature now_ms fresh_uuid opts prompt user_id
  = Some (Signature.generate_signature
            (Signature.build_sorted_payload now_ms fresh_uuid user_id) prompt now_ms,
          now_ms, fresh_uuid).
Proof.
  unfold Client.choose_signature, Server.truthy_str. cbv zeta.
  assert (G : (if Client.use_browser_signature opts
               then
                 if negb (Signature.rp_success
                            (Client._generate_signature_browser now_ms fresh_uuid prompt user_id))
                 then None
                 else Some (Signature.rp_signature
                              (Client._generate_signature_browser now_ms fresh_uuid prompt user_id),
                            Signature.rp_timestamp
                              (Client._generate_signature_browser now_ms fresh_uuid prompt user_id),
                            Signature.rp_request_id
                              (Client._generate_signature_browser now_ms fresh_uuid prompt user_id))
               else Some (Signature._generate_signature now_ms prompt fresh_uuid user_id,
                          now_ms, fresh_uuid))
              = Some (Signature.generate_signature
                        (Signature.build_sorted_payload now_ms fresh_uuid user_id) prompt now_ms,
                      now_ms, fresh_uuid)).
  { destruct (Client.use_browser_signature opts); reflexivity. }
  destruct (Client.manual_signature opts) as [signature |]; [| intros _; exact G].
  destruct (PyStr.is_empty signature); [intros _; exact G | discriminate].
Qed.

(** When the signature is generated (no manual signature, or an empty one),
    the request is consistent with it: the [X-Signature] header is the
    signature of exactly the timestamp, request id and user id that stand in
    the query, and of the prompt that stands in the body; the timestamp is
    the clock's, sent twice, the request id is the fresh UUID, and the user
    id is the one read from the token. *)
Theorem generated_signature_binds_the_request :
  forall (decoded_text : string -> option string) (token : string) (now_ms : Z)
         (fresh_uuid : string) (clock : Client.wall_clock) (chat_id : string)
         (messages : list (list (string * string))) (opts : Client.signing_options)
         (r : Client.signed_request),
    Server.truthy_str (Client.manual_signature opts) = false ->
    Client.send_message_request decoded_text token now_ms fresh_uuid clock chat_id messages opts
    = Some r ->
    Dict.get "timestamp" (Client.url_params r) = Some (PyStr.str_of_int now_ms)
    /\ Dict.get "signature_timestamp" (Client.url_params r) = Some (PyStr.str_of_int now_ms)
    /\ Dict.get "requestId" (Client.url_params r) = Some fresh_uuid
    /\ Dict.get "user_id" (Client.url_params r)
       = Some (JwtUtils.get_user_id_from_token decoded_text token)
    /\ Client.last_prompt messages = Some (Client.signature_prompt r)
    /\ Client.x_signature r
       = Signature.generate_signature
           (Signature.build_sorted_payload now_ms fresh_uuid
              (JwtUtils.get_user_id_from_token decoded_text token))
           (Client.signature_prompt r) now_ms.
Proof.
  intros decoded_text token now_ms fresh_uuid clock chat_id messages opts r Hm.
  unfold Client.send_message_request.
  destruct (Client.last_prompt messages) as [prompt |]; [| discriminate].
  cbv zeta. rewrite (choose_signature_generated _ _ _ _ _ Hm).
  intros [= <-]. cbn [Client.url_params Client.x_signature Client.signature_prompt].
  repeat split; reflexivity.
Qed.

Lemma generated_signature_binds_the_request_witness :
  Dict.get "requestId"
    (Client._build_completion_params "not-a-jwt" (Client.WallClock 0 "t" "t") "c1"
       1700000000000 "7f3a-01" "")
  = Some "7f3a-01".
Proof.
  exact (proj1 (proj2 (proj2
           (generated_signature_binds_the_request (fun part => Some part) "not-a-jwt"
              1700000000000 "7f3a-01" (Client.WallClock 0 "t" "t") "c1"
              [ [ ("role", "user"); ("content", "hello") ] ]
              (Client.SigningOptions None (Some 5%Z) (Some "other") true)
              (Client.SignedRequest
                 (Client._build_completion_params "not-a-jwt" (Client.WallClock 0 "t" "t") "c1"
                    1700000000000 "7f3a-01" "")
                 (Signature.generate_signature
                    (Signature.build_sorted_payload 1700000000000 "7f3a-01" "")
                    "hello" 1700000000000)
                 "hello")
              eq_refl eq_refl)))).
Defined.

(** Without a manual signature nothing else of the signing options counts:
    a manual timestamp and a manual request id are ignored, and the helper
    path and the built-in path produce the same request. *)
Theorem signing_options_need_manual_signature :
  forall (decoded_text : string -> option string) (token : string) (now_ms : Z)
         (fresh_uuid : string) (clock : Client.wall_clock) (chat_id : string)
         (messages : list (list (string * string))) (opts opts' : Client.signing_options),
    Server.truthy_str (Client.manual_signature opts) = false ->
    Server.truthy_str (Client.manual_signature opts') = false ->
    Client.send_message_request decoded_text token now_ms fresh_uuid clock chat_id messages opts
    = Client.send_message_request decoded_text token now_ms fresh_uuid clock chat_id messages
        opts'.
Proof.
  intros decoded_text token now_ms fresh_uuid clock chat_id messages opts opts' H H'.
  unfold Client.send_message_request.
  destruct (Client.last_prompt messages) as [prompt |]; [| reflexivity].
  cbv zeta.
  now rewrite (choose_signature_generated _ _ _ _ _ H), (choose_signature_generated _ _ _ _ _ H').
Qed.

Lemma signing_options_need_manual_signature_witness :
  Client.send_message_request (fun part => Some part) "not-a-jwt" 1700000000000 "7f3a-01"
    (Client.WallClock 0 "t" "t") "c1" [ [ ("content", "hello") ] ]
    (Client.SigningOptions None (Some 5%Z) (Some "other") true)
  = Client.send_message_request (fun part => Some part) "not-a-jwt" 1700000000000 "7f3a-01"
      (Client.WallClock 0 "t" "t") "c1" [ [ ("content", "hello") ] ]
      (Client.SigningOptions (Some "") None None false).
Proof.
  exact (signing_options_need_manual_signature (fun part => Some part) "not-a-jwt"
           1700000000000 "7f3a-01" (Client.WallClock 0 "t" "t") "c1" [ [ ("content", "hello") ] ]
           (Client.SigningOptions None (Some 5%Z) (Some "other") true)
           (Client.SigningOptions (Some "") None None false) eq_refl eq_refl).
Defined.

(** * The messages sent to the backend *)




(** * The history of a chat *)

Lemma dict_get_set_same {V : Type} (k : string) (v : V) (d : list (string * V)) :
  Dict.get k (Dict.set k v d) = Some v.
Proof.
  induction d as [| [k' v'] d IH]; cbn [Dict.set Dict.get].
  - now rewrite String.eqb_refl.
  - destruct (String.eqb k k') eqn:E; cbn [Dict.get]; [now rewrite String.eqb_refl |].
    now rewrite E.
Qed.

Lemma dict_get_set_other {V : Type} (k k' : string) (v : V) (d : list (string * V)) :
  k <> k' -> Dict.get k (Dict.set k' v d) = Dict.get k d.
Proof.
  intros N. apply String.eqb_neq in N.
  induction d as [| [k0 v0] d IH]; cbn [Dict.set Dict.get].
  - now rewrite N.
  - destruct (String.eqb k' k0) eqn:E; cbn [Dict.get].
    + apply String.eqb_eq in E. subst k0. now rewrite N.
    + destruct (String.eqb k k0); [reflexivity | exact IH].
Qed.

Lemma dict_set_length {V : Type} (k : string) (v : V) (d : list (string * V)) :
  List.length (Dict.set k v d) <= S (List.length d).
Proof.
  induction d as [| [k' v'] d IH]; cbn [Dict.set List.length]; [lia |].
  destruct (String.eqb k k'); cbn [List.length]; lia.
Qed.

Lemma history_map_lookup (now : Z) (conversation : list Models.Message) (m : Models.Message) :
  NoDup (map Models.id conversation) ->
  In m conversation ->
  Dict.get (Models.id m) (Histories.history_map now conversation)
  = Some (Json.JObj (Models.to_history_format now m)).
Proof.
  unfold Histories.history_map.
  assert (G : forall l d,
             NoDup (map Models.id l) ->
             (In m l \/ (~ In (Models.id m) (map Models.id l)
                         /\ Dict.get (Models.id m) d
                            = Some (Json.JObj (Models.to_history_format now m)))) ->
             Dict.get (Models.id m)
               (fold_left (fun d x => Dict.set (Models.id x)
                                        (Json.JObj (Models.to_history_format now x)) d) l d)
             = Some (Json.JObj (Models.to_history_format now m))).
  { induction l as [| x l IH]; intros d N H; cbn [fold_left].
    - destruct H as [[] | [_ H]]. exact H.
    - cbn [map] in N. inversion N as [| ? ? Nx Nl]; subst.
      apply IH; [exact Nl |].
      destruct H as [[-> | H] | [Hn H]].
      + right. split; [exact Nx | apply dict_get_set_same].
      + now left.
      + right. cbn [map In] in Hn. split; [tauto |].
        rewrite dict_get_set_other; [exact H | intros E; apply Hn; now left]. }
  intros N H. apply G; [exact N | now left].
Qed.

Lemma threaded_first (parent : option string) (m : Models.Message)
    (rest : list Models.Message) :
  Histories.threaded parent (m :: rest) -> Models.parent_id m = parent.
Proof. now intros [H _]. Qed.

Lemma threaded_next (parent : option string) (pre : list Models.Message)
    (p m : Models.Message) (post : list Models.Message) :
  Histories.threaded parent (pre ++ p :: m :: post) ->
  Models.parent_id m = Some (Models.id p).
Proof.
  revert parent. induction pre as [| x pre IH]; intros parent; cbn [app Histories.threaded].
  - now intros [_ [H _]].
  - intros [_ H]. exact (IH _ H).
Qed.

Lemma walk_thread (now : Z) (conversation : list Models.Message) :
  Histories.threaded None conversation ->
  NoDup (map Models.id conversation) ->
  Forall (fun m => PyStr.is_empty (Models.id m) = false) conversation ->
  forall pre m post fuel,
    conversation = (pre ++ m :: post)%list ->
    List.length pre + 2 <= fuel ->
    Client.walk fuel (Histories.history_map now conversation) (Json.JStr (Models.id m))
    = Client.Returned (Models.id m :: rev (map Models.id pre)).
Proof.
  intros T N F pre. induction pre as [| p pre IH] using rev_ind; intros m post fuel E L.
  - destruct fuel as [| [| fuel]]; cbn [List.length] in L; try lia.
    assert (Hin : In m conversation) by (rewrite E; now left).
    pose proof (proj1 (Forall_forall _ _) F m Hin) as Hid. cbv beta in Hid.
    cbn [Client.walk Json.truthy]. rewrite Hid. cbn [negb].
    rewrite (history_map_lookup now conversation m N Hin).
    rewrite E in T.
    unfold Json.get_none, Dict.get_default, Models.to_history_format. cbn [Dict.get String.eqb Ascii.eqb Bool.eqb].
    apply threaded_first in T. rewrite T. reflexivity.
  - destruct fuel as [| fuel]; [lia |].
    rewrite length_app in L. cbn [List.length] in L.
    assert (Hin : In m conversation) by (rewrite E; apply in_or_app; right; now left).
    pose proof (proj1 (Forall_forall _ _) F m Hin) as Hid. cbv beta in Hid.
    cbn [Client.walk Json.truthy]. rewrite Hid. cbn [negb].
    rewrite (history_map_lookup now conversation m N Hin).
    rewrite <- app_assoc in E. cbn [app] in E.
    assert (P : Models.parent_id m = Some (Models.id p))
      by (rewrite E in T; exact (threaded_next _ _ _ _ _ T)).
    replace (Json.get_none "parentId" (Models.to_history_format now m))
      with (Json.JStr (Models.id p))
      by (unfold Json.get_none, Dict.get_default, Models.to_history_format;
          cbn [Dict.get String.eqb Ascii.eqb Bool.eqb]; now rewrite P).
    rewrite (IH p (m :: post) fuel E) by lia.
    rewrite map_app, rev_app_distr. reflexivity.
Qed.

Lemma collect_thread (now : Z) (conversation : list Models.Message) :
  NoDup (map Models.id conversation) ->
  Forall (fun m => PyStr.is_empty (Models.role m) = false) conversation ->
  forall l,
    incl l conversation ->
    Client.collect (Histories.history_map now conversation) (map Models.id l)
    = map Models.to_api_format l.
Proof.
  intros N F. induction l as [| m l IH]; intros I; cbn [map Client.collect]; [reflexivity |].
  assert (Hin : In m conversation) by (apply I; now left).
  rewrite (history_map_lookup now conversation m N Hin).
  pose proof (proj1 (Forall_forall _ _) F m Hin) as Hr. cbv beta in Hr.
  unfold Json.get_none, Dict.get_default, Models.to_history_format.
  cbn [Dict.get String.eqb Ascii.eqb Bool.eqb Json.truthy]. rewrite Hr. cbn [negb andb].
  rewrite IH; [reflexivity |]. intros x Hx. apply I. now right.
Qed.

(** A conversation stored the way [Message.to_history_format] writes it,
    each message under its id and pointing to the one before, is read back
    by [_history_to_messages] from the last message: given steps enough for
    its length, the walk up the parents returns every message in the
    original order, as [to_api_format] renders it, and the id of the last
    one. *)
Theorem stored_conversation_is_read_back :
  forall (now : Z) (earlier : list Models.Message) (latest : Models.Message) (fuel : nat),
    Histories.threaded None (earlier ++ [latest]) ->
    NoDup (map Models.id (earlier ++ [latest])) ->
    Forall (fun m => PyStr.is_empty (Models.id m) = false
                     /\ PyStr.is_empty (Models.role m) = false) (earlier ++ [latest]) ->
    List.length earlier + 2 <= fuel ->
    Client._history_to_messages fuel
      (Histories.history_map now (earlier ++ [latest])) (Json.JStr (Models.id latest))
    = Client.Returned (map Models.to_api_format (earlier ++ [latest]),
                       Json.JStr (Models.id latest)).
Proof.
  intros now earlier latest fuel T N F L.
  unfold Client._history_to_messages.
  rewrite (walk_thread now (earlier ++ [latest]) T N
             (Forall_impl _ (fun m H => proj1 H) F) earlier latest [] fuel eq_refl L).
  cbn [rev]. rewrite rev_involutive.
  change (map Models.id earlier ++ [Models.id latest])%list
    with (map Models.id earlier ++ map Models.id [latest])%list.
  rewrite <- map_app.
  rewrite (collect_thread now (earlier ++ [latest]) N
             (Forall_impl _ (fun m H => proj2 H) F) (earlier ++ [latest]) (incl_refl _)).
  reflexivity.
Qed.

Lemma stored_conversation_is_read_back_witness :
  Client._history_to_messages 3
    (Histories.history_map 1700000000
       ([ Models.MkMessage "user" "hello" "m1" None None ["glm-4.7"] ]
          ++ [ Models.MkMessage "assistant" "hi" "m2" (Some "m1") None ["glm-4.7"] ]))
    (Json.JStr "m2")
  = Client.Returned
      ([ [ ("role", Json.JStr "user"); ("content", Json.JStr "hello") ];
         [ ("role", Json.JStr "assistant"); ("content", Json.JStr "hi") ] ],
       Json.JStr "m2").
Proof.
  refine (stored_conversation_is_read_back 1700000000
            [ Models.MkMessage "user" "hello" "m1" None None ["glm-4.7"] ]
            (Models.MkMessage "assistant" "hi" "m2" (Some "m1") None ["glm-4.7"]) 3 _ _ _ _).
  - cbn. repeat split.
  - cbn. repeat constructor; cbn; intuition discriminate.
  - repeat constructor.
  - cbn. lia.
Defined.

Lemma walk_step (fuel : nat) (messages_map : Json.dict) (cursor : Json.value)
    (chain : list string) :
  Client.walk (S fuel) messages_map cursor = Client.Returned chain ->
  chain = []
  \/ exists cursor_id msg rest,
       cursor = Json.JStr cursor_id
       /\ Dict.get cursor_id messages_map = Some (Json.JObj msg)
       /\ Client.walk fuel messages_map (Json.get_none "parentId" msg) = Client.Returned rest
       /\ chain = cursor_id :: rest.
Proof.
  cbn [Client.walk]. destruct (negb (Json.truthy cursor)); [intros [= <-]; now left |].
  destruct cursor as [| b | n | l | cursor_id | items | d]; try (intros [= <-]; now left);
    try discriminate.
  destruct (Dict.get cursor_id messages_map) as [[| | | | | | msg] |] eqn:G;
    try discriminate; [| intros [= <-]; now left].
  destruct (Client.walk fuel messages_map (Json.get_none "parentId" msg)) as [rest | |] eqn:W;
    try discriminate.
  intros [= <-]. right. exists cursor_id, msg, rest. auto.
Qed.

Lemma walk_more_fuel (fuel fuel' : nat) (messages_map : Json.dict) (cursor : Json.value)
    (chain : list string) :
  Client.walk fuel messages_map cursor = Client.Returned chain ->
  fuel <= fuel' ->
  Client.walk fuel' messages_map cursor = Client.Returned chain.
Proof.
  revert fuel' cursor chain.
  induction fuel as [| fuel IH]; intros fuel' cursor chain W L; [discriminate |].
  destruct fuel' as [| fuel']; [lia |].
  cbn [Client.walk] in *. destruct (negb (Json.truthy cursor)); [exact W |].
  destruct cursor as [| b | n | l | cursor_id | items | d]; try exact W.
  destruct (Dict.get cursor_id messages_map) as [[| | | | | | msg] |]; try exact W.
  destruct (Client.walk fuel messages_map (Json.get_none "parentId" msg)) as [rest | |] eqn:W';
    try discriminate.
  rewrite (IH fuel' _ _ W') by lia. exact W.
Qed.

Lemma walk_from_inside (fuel : nat) (messages_map : Json.dict) :
  forall (cursor : Json.value) (before : list string) (s : string) (after : list string),
    Client.walk fuel messages_map cursor = Client.Returned (before ++ s :: after)%list ->
    Client.walk fuel messages_map (Json.JStr s) = Client.Returned (s :: after).
Proof.
  induction fuel as [| fuel IH]; intros cursor before s after W; [discriminate |].
  destruct (walk_step _ _ _ _ W) as [E | (cid & msg & rest & -> & G & W' & E)].
  - destruct before; discriminate.
  - destruct before as [| x before]; cbn [app] in E.
    + injection E as E1 E2. subst cid rest. exact W.
    + injection E as E1 E2. subst x rest.
      apply (walk_more_fuel fuel (S fuel)); [| lia]. exact (IH _ _ _ _ W').
Qed.

Lemma walk_visits_once (fuel : nat) (messages_map : Json.dict) :
  forall (cursor : Json.value) (chain : list string),
    Client.walk fuel messages_map cursor = Client.Returned chain ->
    NoDup chain /\ incl chain (map fst messages_map).
Proof.
  induction fuel as [| fuel IH]; intros cursor chain W; [discriminate |].
  destruct (walk_step _ _ _ _ W) as [-> | (cid & msg & rest & -> & G & W' & ->)].
  - split; [constructor | intros x []].
  - destruct (IH _ _ W') as [N I]. split.
    + constructor; [| exact N]. intros Hin.
      apply in_split in Hin. destruct Hin as (l1 & l2 & ->).
      pose proof (walk_from_inside _ _ _ _ _ _ W') as W2.
      apply (walk_more_fuel fuel (S fuel)) in W2; [| lia].
      rewrite W in W2. injection W2 as E.
      apply (f_equal (@List.length string)) in E.
      rewrite length_app in E. cbn [List.length] in E. lia.
    + intros x [Hx | Hx]; [subst x | now apply I].
      clear - G. rename cid into x. induction messages_map as [| [k v] d IHd]; cbn [Dict.get] in G;
        [discriminate |].
      cbn [map fst]. destruct (String.eqb x k) eqn:E.
      * apply String.eqb_eq in E. now left.
      * right. now apply IHd.
Qed.

Lemma collect_length (messages_map : Json.dict) (ordered : list string) :
  List.length (Client.collect messages_map ordered) <= List.length ordered.
Proof.
  induction ordered as [| msg_id ordered IH]; cbn [Client.collect List.length]; [lia |].
  destruct (Dict.get msg_id messages_map) as [[| | | | | | msg] |]; try lia.
  destruct (_ && _); cbn [List.length]; lia.
Qed.

(** What [_history_to_messages] returns is bounded by the history: no
    message is visited twice on the way up, so the conversation returned
    has at most as many messages as the history has entries; and the id
    returned with it is the one asked for, or null with no message at
    all. *)
Theorem returned_history_is_bounded :
  forall (fuel : nat) (messages_map : Json.dict) (current_id : Json.value)
         (messages : list Json.dict) (returned_id : Json.value),
    Client._history_to_messages fuel messages_map current_id
    = Client.Returned (messages, returned_id) ->
    List.length messages <= List.length messages_map
    /\ (returned_id = current_id \/ (returned_id = Json.JNull /\ messages = [])).
Proof.
  intros fuel messages_map current_id messages returned_id.
  unfold Client._history_to_messages.
  destruct (Client.walk fuel messages_map current_id) as [chain | |] eqn:W; try discriminate.
  destruct (walk_visits_once _ _ _ _ W) as [N I].
  destruct chain as [| c chain].
  - intros [= <- <-]. split; [cbn; lia | now right].
  - intros [= <- <-]. split; [| now left].
    apply (Nat.le_trans _ (List.length (rev (c :: chain)))); [apply collect_length |].
    rewrite length_rev, <- (length_map fst messages_map).
    now apply NoDup_incl_length.
Qed.

Lemma returned_history_is_bounded_witness :
  (List.length [ [ ("role", Json.JStr "user"); ("content", Json.JStr "hello") ] ]
   <= List.length
        (Histories.history_map 1700000000
           [ Models.MkMessage "user" "hello" "m1" None None ["glm-4.7"] ]))%nat.
Proof.
  exact (proj1 (returned_history_is_bounded 2
                  (Histories.history_map 1700000000
                     [ Models.MkMessage "user" "hello" "m1" None None ["glm-4.7"] ])
                  (Json.JStr "m1")
                  [ [ ("role", Json.JStr "user"); ("content", Json.JStr "hello") ] ]
                  (Json.JStr "m1") eq_refl)).
Defined.

(** A message that names itself as its parent makes the walk endless: from
    such a current message no number of steps lets [_history_to_messages]
    return or raise. *)
Theorem self_parent_never_returns :
  forall (fuel : nat) (messages_map : Json.dict) (s : string) (msg : Json.dict),
    PyStr.is_empty s = false ->
    Dict.get s messages_map = Some (Json.JObj msg) ->
    Json.get_none "parentId" msg = Json.JStr s ->
    Client._history_to_messages fuel messages_map (Json.JStr s) = Client.Unfinished.
Proof.
  intros fuel messages_map s msg Hs G P.
  assert (W : Client.walk fuel messages_map (Json.JStr s) = Client.Unfinished).
  { induction fuel as [| fuel IH]; [reflexivity |].
    cbn [Client.walk Json.truthy]. rewrite Hs. cbn [negb]. now rewrite G, P, IH. }
  unfold Client._history_to_messages. now rewrite W.
Qed.

Lemma self_parent_never_returns_witness :
  Client._history_to_messages 50
    [ ("m1", Json.JObj [ ("parentId", Json.JStr "m1"); ("role", Json.JStr "user");
                         ("content", Json.JStr "hello") ]) ]
    (Json.JStr "m1")
  = Client.Unfinished.
Proof.
  exact (self_parent_never_returns 50
           [ ("m1", Json.JObj [ ("parentId", Json.JStr "m1"); ("role", Json.JStr "user");
                                ("content", Json.JStr "hello") ]) ]
           "m1" [ ("parentId", Json.JStr "m1"); ("role", Json.JStr "user");
                  ("content", Json.JStr "hello") ]
           eq_refl eq_refl eq_refl).
Defined.
